(** * Paper-processing pipeline: orchestrator, checkpoints, progress, retries

    A shallow embedding of
      - [tools/pipeline_models.py]          (the data model),
      - [tools/paper_processing_service.py] (the orchestrator),
      - [utils/llm_client.py], [utils/llm_config.py] (the retrying LLM call),
      - [tools/stage5_post_processor.py]    (the post-processor's file moves),
    together with the properties stated about them.

    Conventions of the embedding.
      - Python [float]s are exact rationals ([Q]); [time.time()] reads a
        clock kept in the world state.
      - [Optional[T]] is [option T]; [Dict[K, V]] is a finite map.
      - The file system is the finite set of the paths that exist.
      - External collaborators (OCR, LLM calls, structure extraction, the
        post-processor) are oracles: functions from their actual arguments
        and the current world to an outcome, a new set of files and the
        time they took.
      - Calls of the user's callbacks, collaborator invocations, sleeps and
        the final serialization are recorded, in order, in the world's
        event log. *)

From Stdlib Require Import QArith.
From stdpp Require Import base gmap sets list strings pretty.

(** ** Strings and paths *)

Module Str.

(** [needle in hay] *)
Fixpoint contains (needle hay : string) : bool :=
  String.prefix needle hay ||
  match hay with
  | EmptyString => false
  | String _ rest => contains needle rest
  end.

Definition lower_ascii (c : Ascii.ascii) : Ascii.ascii :=
  let n := Ascii.nat_of_ascii c in
  if (65 <=? n)%nat && (n <=? 90)%nat then Ascii.ascii_of_nat (n + 32) else c.

(** [s.lower()], on the ASCII letters; other bytes are left as they are. *)
Fixpoint lower (s : string) : string :=
  match s with
  | EmptyString => EmptyString
  | String c rest => String (lower_ascii c) (lower rest)
  end.

Definition starts_with_sep (s : string) : bool := String.prefix "/" s.

Fixpoint ends_with_sep (s : string) : bool :=
  match s with
  | EmptyString => false
  | String c EmptyString => Ascii.eqb c (Ascii.ascii_of_nat 47)
  | String _ rest => ends_with_sep rest
  end.

(** [os.path.join(a, b)] of [posixpath]. *)
Definition path_join (a b : string) : string :=
  if starts_with_sep b then b
  else if String.eqb a "" || ends_with_sep a then a +:+ b
  else a +:+ "/" +:+ b.

(** [sep.join(parts)] *)
Definition join (sep : string) (parts : list string) : string :=
  String.concat sep parts.

End Str.

(** ** Data model ([pipeline_models.py]) *)

Inductive ProcessingStage : Set :=
| METADATA_EXTRACTION
| FULL_OCR
| STRUCTURE_PARSING
| REPORT_GENERATION
| POST_PROCESSING.

(** [ProcessingStage.X.value] *)
Definition stage_value (s : ProcessingStage) : string :=
  match s with
  | METADATA_EXTRACTION => "metadata_extraction"
  | FULL_OCR => "full_ocr"
  | STRUCTURE_PARSING => "structure_parsing"
  | REPORT_GENERATION => "report_generation"
  | POST_PROCESSING => "post_processing"
  end.

(** Position of a stage in the pipeline (the order of the enumeration and of
    the calls in [process_paper]). *)
Definition stage_index (s : ProcessingStage) : nat :=
  match s with
  | METADATA_EXTRACTION => 0
  | FULL_OCR => 1
  | STRUCTURE_PARSING => 2
  | REPORT_GENERATION => 3
  | POST_PROCESSING => 4
  end.

Definition pipeline_order : list ProcessingStage :=
  [METADATA_EXTRACTION; FULL_OCR; STRUCTURE_PARSING; REPORT_GENERATION;
   POST_PROCESSING].

Definition content_stage (s : ProcessingStage) : bool :=
  match s with POST_PROCESSING => false | _ => true end.

#[global] Instance ProcessingStage_eq_dec : EqDecision ProcessingStage.
Proof. solve_decision. Defined.

Definition stage_of_index (n : nat) : option ProcessingStage :=
  pipeline_order !! n.

#[global] Instance ProcessingStage_countable : Countable ProcessingStage.
Proof.
  apply (inj_countable stage_index stage_of_index).
  intros []; reflexivity.
Defined.

Inductive ProcessingStatus : Set :=
| NOT_STARTED
| IN_PROGRESS
| COMPLETED
| FAILED
| SKIPPED.

#[global] Instance ProcessingStatus_eq_dec : EqDecision ProcessingStatus.
Proof. solve_decision. Defined.

(** JSON-like payloads are kept opaque, as their serialized text. *)
Definition Json := string.

Record PipelineConfig := mkPipelineConfig {
  cfg_output_dir : string;
  cfg_api_name : option string;
  cfg_template_paths : gmap string string;
  cfg_llm_config : gmap string Json;
  cfg_crop_params : option (gmap string Q);
  cfg_keep_intermediate_files : bool;
  cfg_enable_progress_callback : bool;
  cfg_max_retry_attempts : Z
}.

Record StageResult := mkStageResult {
  sr_stage : ProcessingStage;
  sr_status : ProcessingStatus;
  sr_start_time : option Q;
  sr_end_time : option Q;
  sr_processing_time : Q;
  sr_output_path : option string;
  sr_metadata : option Json;
  sr_error_message : option string;
  sr_error_traceback : option string;
  sr_intermediate_files : list string
}.

(** [StageResult.success] *)
Definition sr_success (r : StageResult) : bool :=
  bool_decide (sr_status r = COMPLETED).

Record PipelineResult := mkPipelineResult {
  input_pdf : string;
  output_dir : string;
  pdf_name : string;
  overall_status : ProcessingStatus;
  start_time : option Q;
  end_time : option Q;
  total_processing_time : Q;
  stages : gmap ProcessingStage StageResult;
  final_report_path : option string;
  metadata_path : option string;
  structure_path : option string;
  pipeline_error : option string
}.

(** [PipelineResult.success] *)
Definition success (r : PipelineResult) : bool :=
  bool_decide (overall_status r = COMPLETED).

(** [PipelineResult.add_stage_result]: [self.stages[result.stage] = result] *)
Definition add_stage_result (r : PipelineResult) (sr : StageResult) : PipelineResult :=
  mkPipelineResult (input_pdf r) (output_dir r) (pdf_name r) (overall_status r)
    (start_time r) (end_time r) (total_processing_time r)
    (<[sr_stage sr := sr]> (stages r))
    (final_report_path r) (metadata_path r) (structure_path r) (pipeline_error r).

(** [result.overall_status = FAILED; result.pipeline_error = msg] *)
Definition set_failed (r : PipelineResult) (msg : string) : PipelineResult :=
  mkPipelineResult (input_pdf r) (output_dir r) (pdf_name r) FAILED
    (start_time r) (end_time r) (total_processing_time r) (stages r)
    (final_report_path r) (metadata_path r) (structure_path r) (Some msg).

(** [PipelineResult.get_failed_stages], in pipeline order. *)
Definition get_failed_stages (r : PipelineResult) : list ProcessingStage :=
  List.filter (fun s => match stages r !! s with
                        | Some sr => bool_decide (sr_status sr = FAILED)
                        | None => false
                        end) pipeline_order.

Record ProgressInfo := mkProgressInfo {
  current_stage : ProcessingStage;
  stage_progress : Q;
  overall_progress : Q;
  message : string;
  estimated_remaining_time : option Q
}.

(** ** Progress aggregation ([PaperProcessingService._notify_progress]) *)

(** [self.stage_weights], in insertion order. *)
Definition stage_weights : list (ProcessingStage * Q) :=
  [(METADATA_EXTRACTION, 0.15); (FULL_OCR, 0.30); (STRUCTURE_PARSING, 0.25);
   (REPORT_GENERATION, 0.25); (POST_PROCESSING, 0.05)]%Q.

Definition weight_of (s : ProcessingStage) : Q :=
  match list_find (fun sw => sw.1 = s) stage_weights with
  | Some (_, (_, w)) => w
  | None => 0
  end.

(** Python's [min(x, y)]: [y] when [y < x], otherwise [x]. *)
Definition py_min (x y : Q) : Q :=
  match (y ?= x)%Q with Lt => y | _ => x end.

(** The loop body: [s.value < stage.value] compares the two enumeration
    values, which are strings. *)
Definition progress_step (stage : ProcessingStage) (stage_prog : Q)
    (acc : Q) (sw : ProcessingStage * Q) : Q :=
  let '(s, weight) := sw in
  if String.ltb (stage_value s) (stage_value stage) then (acc + weight)%Q
  else if decide (s = stage) then (acc + weight * stage_prog)%Q
  else acc.

Definition accumulate_progress (stage : ProcessingStage) (stage_prog : Q) : Q :=
  fold_left (progress_step stage stage_prog) stage_weights 0%Q.

(** The [ProgressInfo] handed to the progress callback. *)
Definition make_progress_info (stage : ProcessingStage) (stage_prog : Q)
    (msg : string) : ProgressInfo :=
  mkProgressInfo stage stage_prog
    (py_min (accumulate_progress stage stage_prog) 1%Q) msg None.

(** ** Checkpoint detection ([PaperProcessingService._check_stage_completed]) *)

(** [os.path.exists] *)
Definition path_exists (files : gset string) (p : string) : bool :=
  bool_decide (p ∈ files).

Definition possible_report_files (output_dir paper_name : string) : list string :=
  [Str.path_join output_dir "final_report.md";
   Str.path_join output_dir "report.md";
   Str.path_join output_dir (paper_name +:+ "_report.md")].

Definition check_stage_completed (files : gset string) (stage : ProcessingStage)
    (output_dir paper_name : string) : bool :=
  match stage with
  | METADATA_EXTRACTION =>
      let metadata_file := Str.path_join output_dir (paper_name +:+ "_metadata.json") in
      let first_pages_file := Str.path_join output_dir (paper_name +:+ "_first_three_pages.md") in
      path_exists files metadata_file && path_exists files first_pages_file
  | FULL_OCR =>
      let complete_md_file := Str.path_join output_dir "complete.md" in
      path_exists files complete_md_file
  | STRUCTURE_PARSING =>
      let structure_file := Str.path_join output_dir "paper_structure.json" in
      let attribute_tree_file := Str.path_join output_dir (paper_name +:+ "_attribute_tree.json") in
      path_exists files structure_file && path_exists files attribute_tree_file
  | REPORT_GENERATION =>
      existsb (path_exists files) (possible_report_files output_dir paper_name)
  | POST_PROCESSING => false
  end.

(** ** Exceptions, the world and the effects of external calls *)

Inductive ExnClass : Set :=
| APIConnectionError
| APIError
| AsyncTimeoutError      (* asyncio.TimeoutError *)
| JSONDecodeError
| FileNotFoundError
| ImportError
| KeyError
| RuntimeError
| TypeError
| ValueError
| PlainException         (* Exception(...) *)
| OtherException.        (* any other subclass of Exception *)

#[global] Instance ExnClass_eq_dec : EqDecision ExnClass.
Proof. solve_decision. Defined.

(** An exception object: its class and [str(e)]. *)
Record Exn := mkExn { exn_class : ExnClass; exn_str : string }.

Inductive Outcome (A : Type) : Type :=
| Returned (a : A)
| Raised (e : Exn).
Arguments Returned {A} a.
Arguments Raised {A} e.

(** The external calls the code makes. *)
Inductive Collaborator : Set :=
| Mkdir                   (* Path(output_dir).mkdir(parents=True, exist_ok=True) *)
| Stage1Process           (* crop_pdf_first_three_page.process_pdf.process_pdf *)
| Stage2Process           (* pdf_content_extractor.pdf_ocr.process_pdf *)
| ProcessPaperStructure   (* section_data_extractor.integrated_processor *)
| AttributeToolsInit      (* PaperTypeClassifier(..), AttributeTreeExtractor(..) *)
| ClassifyPaper           (* classifier.classify_paper *)
| ExtractAttributeTree    (* extractor.extract_attribute_tree *)
| ProcessPaperReport      (* report_generator...process_paper_report *)
| ProcessPaperFolder      (* Stage5PostProcessor().process_paper_folder *)
| ChatCompletionsCreate.  (* client.chat.completions.create *)

#[global] Instance Collaborator_eq_dec : EqDecision Collaborator.
Proof. solve_decision. Defined.

Inductive Event : Type :=
| EvProgress (info : ProgressInfo)                      (* progress_callback(info) *)
| EvError (stage : ProcessingStage) (error : Exn)       (* error_callback(stage, error) *)
| EvCall (c : Collaborator)                             (* an external call starts *)
| EvSleep (seconds : Q)                                 (* asyncio.sleep(seconds) *)
| EvSave (path : string) (result : PipelineResult).     (* result.save_to_file(path) *)

Record World := mkWorld {
  files : gset string;      (* the paths that exist *)
  now : Q;                  (* time.time() *)
  events : list Event       (* what happened so far, oldest first *)
}.

Definition log (e : Event) (w : World) : World :=
  mkWorld (files w) (now w) (events w ++ [e]).

(** What an external call does: how it ends, which files exist afterwards
    and how long it took. *)
Record Effect (A : Type) := mkEffect {
  eff_outcome : Outcome A;
  eff_files : gset string;
  eff_elapsed : Q
}.
Arguments mkEffect {A} _ _ _.
Arguments eff_outcome {A} _.
Arguments eff_files {A} _.
Arguments eff_elapsed {A} _.

(** Computations that read and change the world and may raise. *)
Definition M (A : Type) : Type := World -> Outcome A * World.

Definition ret {A} (a : A) : M A := fun w => (Returned a, w).

Definition raise {A} (e : Exn) : M A := fun w => (Raised e, w).

Definition bind {A B} (m : M A) (k : A -> M B) : M B :=
  fun w =>
    match m w with
    | (Returned a, w') => k a w'
    | (Raised e, w') => (Raised e, w')
    end.

(** [try: body  except Exception as e: handler(e)] *)
Definition try_except {A} (body : M A) (handler : Exn -> M A) : M A :=
  fun w =>
    match body w with
    | (Returned a, w') => (Returned a, w')
    | (Raised e, w') => handler e w'
    end.

(** A step that only changes the world. *)
Definition effect (f : World -> World) : M unit := fun w => (Returned tt, f w).

Definition of_outcome {A} (o : Outcome A) : M A := fun w => (o, w).

Declare Scope pipe_scope.
Delimit Scope pipe_scope with pipe.
Notation "'let!' x ':=' m 'in' k" := (bind m (fun x => k))
  (at level 10, x pattern, m at level 100, k at level 200) : pipe_scope.
Notation "m '>>' k" := (bind m (fun _ => k))
  (at level 100, k at level 200, right associativity) : pipe_scope.

(** An external call: it is logged, then the oracle says what it did. *)
Definition invoke {A} (c : Collaborator) (oracle : World -> Effect A) : M A :=
  fun w =>
    let w1 := log (EvCall c) w in
    let r := oracle w1 in
    (eff_outcome r, mkWorld (eff_files r) (now w1 + eff_elapsed r)%Q (events w1)).

(** [await asyncio.sleep(seconds)] *)
Definition sleep (seconds : Q) : M unit :=
  fun w => (Returned tt, mkWorld (files w) (now w + seconds)%Q
                                 (events w ++ [EvSleep seconds])).

Record PostResult := mkPostResult {
  post_success : bool;           (* post_result["success"] *)
  post_errors : list string      (* post_result["errors"] *)
}.

(** Everything outside the orchestrator: library functions kept abstract,
    the collaborators, and the exceptions that strike the orchestrator's
    own glue code. *)
Record Env := mkEnv {
  path_stem : string -> string;                          (* Path(p).stem *)
  str_replace : string -> string -> string -> string;    (* s.replace(old, new) *)
  format_exc : Exn -> string;                            (* traceback.format_exc() *)
  glob : gset string -> string -> string -> list string; (* list(Path(dir).glob(pat)) *)
  os_mkdir : string -> World -> Effect unit;
  write_json : string -> PipelineResult -> World -> Effect unit;
  import_error : string -> option Exn;                   (* from module import ... *)
  stage1_process :
    string -> string -> string -> option string -> option (gmap string Q) ->
    World -> Effect (option Json);
  stage2_process : string -> string -> World -> Effect unit;
  process_paper_structure : option string -> string -> World -> Effect bool;
  attribute_tools_init : string -> World -> Effect unit;
  classify_paper : string -> string -> string -> World -> Effect Json;
  determine_paper_type : Json -> Outcome string;
  extract_attribute_tree :
    string -> string -> string -> string -> string -> World -> Effect Json;
  process_paper_report : string -> string -> bool -> World -> Effect (option string);
  process_paper_folder : string -> World -> Effect PostResult;
  (** an unexpected exception raised by the orchestrator's own code when it
      starts to work on the given stage *)
  wiring_fault : ProcessingStage -> option Exn
}.

(** [utils.llm_config.CURRENT_API] *)
Definition CURRENT_API : string := "wd_gemini2".

(** ** The service ([PaperProcessingService]) *)

Record Service := mkService {
  config : PipelineConfig;
  progress_callback : option (ProgressInfo -> Outcome unit);
  error_callback : option (ProcessingStage -> Exn -> Outcome unit)
}.

(** [_notify_progress]: without a callback nothing happens; an exception of
    the callback is caught and only logged as a warning. *)
Definition notify_progress (svc : Service) (stage : ProcessingStage)
    (stage_prog : Q) (msg : string) (w : World) : World :=
  match progress_callback svc with
  | None => w
  | Some callback =>
      let progress_info := make_progress_info stage stage_prog msg in
      match callback progress_info with
      | Returned _ | Raised _ => log (EvProgress progress_info) w
      end
  end.

(** [_notify_error] *)
Definition notify_error (svc : Service) (stage : ProcessingStage) (error : Exn)
    (w : World) : World :=
  match error_callback svc with
  | None => w
  | Some callback =>
      match callback stage error with
      | Returned _ | Raised _ => log (EvError stage error) w
      end
  end.

(** [str(x)] of an [Optional[str]] inside an f-string. *)
Definition fmt_opt (o : option string) : string :=
  match o with Some s => s | None => "None" end.

(** ** The stages ([_run_stage1] .. [_run_stage5]) *)

Local Open Scope pipe_scope.

Definition new_stage_result (stage : ProcessingStage) (status : ProcessingStatus)
    (start : option Q) : StageResult :=
  mkStageResult stage status start None 0 None None None None [].

(** [result.status = COMPLETED; result.output_path = path] *)
Definition sr_completed (path : option string) (r : StageResult) : StageResult :=
  mkStageResult (sr_stage r) COMPLETED (sr_start_time r) (sr_end_time r)
    (sr_processing_time r) path (sr_metadata r) (sr_error_message r)
    (sr_error_traceback r) (sr_intermediate_files r).

(** [result.metadata = metadata] *)
Definition sr_with_metadata (metadata : option Json) (r : StageResult) : StageResult :=
  mkStageResult (sr_stage r) (sr_status r) (sr_start_time r) (sr_end_time r)
    (sr_processing_time r) (sr_output_path r) metadata (sr_error_message r)
    (sr_error_traceback r) (sr_intermediate_files r).

(** [result.status = FAILED; result.error_message = msg] and, in an
    exception handler, [result.error_traceback = tb] *)
Definition sr_failed (msg : string) (tb : option string) (r : StageResult) : StageResult :=
  mkStageResult (sr_stage r) FAILED (sr_start_time r) (sr_end_time r)
    (sr_processing_time r) (sr_output_path r) (sr_metadata r) (Some msg)
    (match tb with Some _ => tb | None => sr_error_traceback r end)
    (sr_intermediate_files r).

(** [result.end_time = time.time();
     result.processing_time = result.end_time - result.start_time] *)
Definition sr_finished (start finish : Q) (r : StageResult) : StageResult :=
  mkStageResult (sr_stage r) (sr_status r) (sr_start_time r) (Some finish)
    (finish - start)%Q (sr_output_path r) (sr_metadata r) (sr_error_message r)
    (sr_error_traceback r) (sr_intermediate_files r).

(** The frame the five stage functions share:
<<
    self._notify_progress(stage, 0.0, start_msg)
    result = StageResult(stage=stage, status=IN_PROGRESS, start_time=time.time())
    try:      BODY
    except Exception as e:
              result.status = FAILED; result.error_message = str(e)
              result.error_traceback = traceback.format_exc()
              self._notify_error(stage, e)
    finally:  result.end_time = time.time(); result.processing_time = ...
    return result
>>
    [body] returns the assignments the try block makes to [result]. *)
Definition stage_frame (env : Env) (svc : Service) (stage : ProcessingStage)
    (start_msg : string) (body : M (StageResult -> StageResult))
    (w0 : World) : StageResult * World :=
  let w1 := notify_progress svc stage 0 start_msg w0 in
  let start := now w1 in
  let result := new_stage_result stage IN_PROGRESS (Some start) in
  let '(result, w2) :=
    match body w1 with
    | (Returned assign, w) => (assign result, w)
    | (Raised e, w) =>
        (sr_failed (exn_str e) (Some (format_exc env e)) result,
         notify_error svc stage e w)
    end in
  (sr_finished start (now w2) result, w2).

(** A dynamic import inside a stage's try block: [from module import ...]. *)
Definition import_module (env : Env) (module : string) : M unit :=
  match import_error env module with
  | Some e => raise e
  | None => ret tt
  end.

(** [self.config.template_paths[key]] *)
Definition template_path_item (svc : Service) (key : string) : M string :=
  match cfg_template_paths (config svc) !! key with
  | Some path => ret path
  | None => raise (mkExn KeyError ("'" +:+ key +:+ "'"))
  end.

(** [self.config.template_paths.get(key, default)] *)
Definition template_path_get (svc : Service) (key default : string) : string :=
  match cfg_template_paths (config svc) !! key with
  | Some path => path
  | None => default
  end.

(** [Path(p)] of an [Optional[str]]: [None] is a [TypeError]. *)
Definition path_of (p : option string) : M string :=
  match p with
  | Some s => ret s
  | None => raise (mkExn TypeError
      "expected str, bytes or os.PathLike object, not NoneType")
  end.

(** *** Stage 1 *)

Definition max_retries : nat := 3.

Definition is_timeout_message (error_msg : string) : bool :=
  Str.contains "timed out" (Str.lower error_msg) ||
  Str.contains "timeout" (Str.lower error_msg).

(** The [while retry_count < max_retries] loop; its value is [metadata]
    when the loop is left.  [fuel] bounds the iterations: [max_retries] of
    them are enough, since each [continue] follows an increment of
    [retry_count]. *)
Fixpoint stage1_retry_loop (env : Env) (svc : Service) (pdf_path output_dir : string)
    (fuel retry_count : nat) : M (option Json) :=
  if negb (retry_count <? max_retries)%nat then ret None
  else
    match fuel with
    | O => ret None
    | S fuel' =>
        try_except
          (let! template_path := template_path_item svc "metadata" in
           invoke Stage1Process
             (stage1_process env pdf_path output_dir template_path
                (cfg_api_name (config svc)) (cfg_crop_params (config svc))))
          (fun e =>
             let retry_count := S retry_count in
             let error_msg := exn_str e in
             if is_timeout_message error_msg && (retry_count <? max_retries)%nat then
               effect (notify_progress svc METADATA_EXTRACTION 0.3
                         ("网络超时，正在重试 (" +:+ pretty retry_count +:+ "/" +:+
                          pretty max_retries +:+ ")...")) >>
               stage1_retry_loop env svc pdf_path output_dir fuel' retry_count
             else raise e)
    end.

Definition run_stage1_body (env : Env) (svc : Service) (pdf_path output_dir : string)
    : M (StageResult -> StageResult) :=
  let stage := METADATA_EXTRACTION in
  import_module env "crop_pdf_first_three_page.process_pdf" >>
  effect (notify_progress svc stage 0.3 "调用MinerU OCR服务...") >>
  let! metadata := stage1_retry_loop env svc pdf_path output_dir max_retries 0 in
  match metadata with
  | None => raise (mkExn RuntimeError "第一阶段处理失败：重试次数已用完")
  | Some _ =>
      let metadata_file :=
        Str.path_join output_dir (path_stem env pdf_path +:+ "_metadata.json") in
      effect (notify_progress svc stage 1 "元数据提取完成") >>
      ret (fun result => sr_with_metadata metadata (sr_completed (Some metadata_file) result))
  end.

Definition run_stage1 (env : Env) (svc : Service) (pdf_path output_dir : string)
    : World -> StageResult * World :=
  stage_frame env svc METADATA_EXTRACTION "开始元数据提取..."
    (run_stage1_body env svc pdf_path output_dir).

(** *** Stage 2 *)

Definition run_stage2_body (env : Env) (svc : Service) (pdf_path output_dir : string)
    : M (StageResult -> StageResult) :=
  let stage := FULL_OCR in
  import_module env "pdf_content_extractor.pdf_ocr" >>
  effect (notify_progress svc stage 0.2 "调用Mistral OCR服务...") >>
  invoke Stage2Process (stage2_process env pdf_path output_dir) >>
  let complete_md_path := Str.path_join output_dir "complete.md" in
  fun w =>
    if negb (path_exists (files w) complete_md_path) then
      raise (mkExn FileNotFoundError ("全文OCR输出文件不存在: " +:+ complete_md_path)) w
    else
      (effect (notify_progress svc stage 1 "全文OCR处理完成") >>
       ret (sr_completed (Some complete_md_path))) w.

Definition run_stage2 (env : Env) (svc : Service) (pdf_path output_dir : string)
    : World -> StageResult * World :=
  stage_frame env svc FULL_OCR "开始全文OCR处理..."
    (run_stage2_body env svc pdf_path output_dir).

(** *** Stage 3 *)

Definition run_stage3_body (env : Env) (svc : Service)
    (complete_md_path : option string) (output_dir : string)
    : M (StageResult -> StageResult) :=
  let stage := STRUCTURE_PARSING in
  import_module env "section_data_extractor.integrated_processor" >>
  effect (notify_progress svc stage 0.2 "提取论文框架结构...") >>
  let! structure_success :=
    invoke ProcessPaperStructure
      (process_paper_structure env complete_md_path output_dir) in
  if negb structure_success then
    raise (mkExn RuntimeError "结构化解析处理失败")
  else
    effect (notify_progress svc stage 0.5 "进行论文类型分类...") >>
    import_module env "attribute_tree_extractor" >>
    let! md_path := path_of complete_md_path in
    let paper_name := str_replace env (path_stem env md_path) "_full" "" in
    invoke AttributeToolsInit (attribute_tools_init env CURRENT_API) >>
    let! classification_result :=
      invoke ClassifyPaper
        (classify_paper env paper_name output_dir
           (template_path_get svc "paper_type_classify"
              "resources/paper_type_classify.md")) in
    effect (notify_progress svc stage 0.7 "提取论文属性树...") >>
    let! paper_type := of_outcome (determine_paper_type env classification_result) in
    invoke ExtractAttributeTree
      (extract_attribute_tree env paper_name output_dir paper_type
         (template_path_get svc "extract_attribute_tree_empirical"
            "resources/extract_attribute_tree_empirical.md")
         (template_path_get svc "extract_attribute_tree_structural"
            "resources/extract_attribute_tree_structural.md")) >>
    let attribute_tree_path :=
      Str.path_join output_dir (paper_name +:+ "_attribute_tree.json") in
    effect (notify_progress svc stage 1 "论文内容分析完成") >>
    ret (sr_completed (Some attribute_tree_path)).

Definition run_stage3 (env : Env) (svc : Service)
    (complete_md_path : option string) (output_dir : string)
    : World -> StageResult * World :=
  stage_frame env svc STRUCTURE_PARSING "开始结构化解析..."
    (run_stage3_body env svc complete_md_path output_dir).

(** *** Stage 4 *)

Definition run_stage4_body (env : Env) (svc : Service)
    (structure_json_path : option string) (output_dir : string)
    : M (StageResult -> StageResult) :=
  let stage := REPORT_GENERATION in
  effect (notify_progress svc stage 0.2 "准备报告生成...") >>
  let! json_path := path_of structure_json_path in
  let paper_name := str_replace env (path_stem env json_path) "_attribute_tree" "" in
  fun w =>
    let structure_files :=
      match glob env (files w) output_dir "*_paper_structure.json" with
      | [] => glob env (files w) output_dir "paper_structure.json"
      | found => found
      end in
    match structure_files with
    | [] => raise (mkExn FileNotFoundError "未找到结构化解析文件，无法生成报告") w
    | structure_json_file :: _ =>
        (effect (notify_progress svc stage 0.5 "调用报告生成模块...") >>
         import_module env "report_generator.LLM_for_paper_reading_updated" >>
         let! final_report_path :=
           invoke ProcessPaperReport
             (process_paper_report env structure_json_file output_dir true) in
         effect (notify_progress svc stage 1 "深度分析报告生成完成") >>
         ret (sr_completed final_report_path)) w
    end.

Definition run_stage4 (env : Env) (svc : Service)
    (structure_json_path : option string) (output_dir : string)
    : World -> StageResult * World :=
  stage_frame env svc REPORT_GENERATION "开始生成报告..."
    (run_stage4_body env svc structure_json_path output_dir).

(** *** Stage 5 *)

Definition run_stage5_body (env : Env) (svc : Service) (output_dir : string)
    : M (StageResult -> StageResult) :=
  let stage := POST_PROCESSING in
  effect (notify_progress svc stage 0.3 "清理中间文件...") >>
  import_module env "tools.stage5_post_processor" >>
  let! post_result :=
    invoke ProcessPaperFolder (process_paper_folder env output_dir) in
  if post_success post_result then
    effect (notify_progress svc stage 1 "后处理完成") >>
    ret (sr_completed (Some output_dir))
  else
    ret (sr_failed (Str.join "; " (post_errors post_result)) None).

Definition run_stage5 (env : Env) (svc : Service) (output_dir : string)
    : World -> StageResult * World :=
  stage_frame env svc POST_PROCESSING "开始后处理..."
    (run_stage5_body env svc output_dir).

(** ** The orchestrator ([PaperProcessingService.process_paper]) *)

(** The state of the guarded block: the [result] object as mutated so far,
    the exception that left the block (if any) and the world. *)
Definition Step : Type :=
  PipelineResult -> World -> PipelineResult * option Exn * World.

(** The [StageResult] built for a stage found complete on disk. *)
Definition checkpoint_result (stage : ProcessingStage) (t : Q) (path : string)
    : StageResult :=
  mkStageResult stage COMPLETED (Some t) (Some t) 0 (Some path) None None None [].

(** [next((f for f in candidates if os.path.exists(f)), candidates[0])] *)
Definition first_existing (fs : gset string) (candidates : list string)
    (default : string) : string :=
  match List.find (path_exists fs) candidates with
  | Some f => f
  | None => default
  end.

(** The artifact a checkpointed stage refers to. *)
Definition checkpoint_output (fs : gset string) (stage : ProcessingStage)
    (output_dir pdf_name : string) : string :=
  match stage with
  | METADATA_EXTRACTION => Str.path_join output_dir (pdf_name +:+ "_metadata.json")
  | FULL_OCR => Str.path_join output_dir "complete.md"
  | STRUCTURE_PARSING => Str.path_join output_dir (pdf_name +:+ "_attribute_tree.json")
  | REPORT_GENERATION =>
      first_existing fs (possible_report_files output_dir pdf_name)
        (Str.path_join output_dir "final_report.md")
  | POST_PROCESSING => output_dir          (* never checkpointed *)
  end.

Definition checkpoint_message (stage : ProcessingStage) : string :=
  match stage with
  | METADATA_EXTRACTION => "第一阶段已完成（断点续传）"
  | FULL_OCR => "第二阶段已完成（断点续传）"
  | STRUCTURE_PARSING => "第三阶段已完成（断点续传）"
  | REPORT_GENERATION => "第四阶段已完成（断点续传）"
  | POST_PROCESSING => ""                  (* never checkpointed *)
  end.

(** The prefix of [pipeline_error] naming the stage that failed. *)
Definition failure_prefix (stage : ProcessingStage) : string :=
  match stage with
  | METADATA_EXTRACTION => "第一阶段失败: "
  | FULL_OCR => "第二阶段失败: "
  | STRUCTURE_PARSING => "第三阶段失败: "
  | REPORT_GENERATION => "第四阶段失败: "
  | POST_PROCESSING => "第五阶段失败: "
  end.

(** One of the four blocks of the guarded code, for a content stage:
<<
    if self._check_stage_completed(STAGE, output_dir, pdf_name):
        self._notify_progress(STAGE, 1.0, "... (断点续传)")
        stage_result = StageResult(stage=STAGE, status=COMPLETED,
            start_time=time.time(), end_time=time.time(),
            processing_time=0.0, output_path=...)
    else:
        stage_result = await self._run_stageN(...)
    result.add_stage_result(stage_result)
    if not stage_result.success:
        result.overall_status = FAILED
        result.pipeline_error = f"...失败: {stage_result.error_message}"
        return result
    REST
>> *)
Definition content_section (env : Env) (svc : Service) (stage : ProcessingStage)
    (output_dir pdf_name : string) (run : World -> StageResult * World)
    (rest : StageResult -> Step) : Step :=
  fun result w =>
    match wiring_fault env stage with
    | Some e => (result, Some e, w)
    | None =>
        let '(stage_result, w1) :=
          if check_stage_completed (files w) stage output_dir pdf_name then
            let w' := notify_progress svc stage 1 (checkpoint_message stage) w in
            (checkpoint_result stage (now w')
               (checkpoint_output (files w') stage output_dir pdf_name), w')
          else run w in
        let result := add_stage_result result stage_result in
        if negb (sr_success stage_result) then
          (set_failed result
             (failure_prefix stage +:+ fmt_opt (sr_error_message stage_result)),
           None, w1)
        else rest stage_result result w1
    end.

(** [result.overall_status = COMPLETED] and the three final paths. *)
Definition set_completed (r : PipelineResult)
    (report metadata structure : option string) : PipelineResult :=
  mkPipelineResult (input_pdf r) (output_dir r) (pdf_name r) COMPLETED
    (start_time r) (end_time r) (total_processing_time r) (stages r)
    report metadata structure (pipeline_error r).

(** The last block: stage 5 is run unconditionally and decides the overall
    status. *)
Definition post_section (env : Env) (svc : Service) (output_dir : string)
    (stage1_result stage3_result stage4_result : StageResult) : Step :=
  fun result w =>
    match wiring_fault env POST_PROCESSING with
    | Some e => (result, Some e, w)
    | None =>
        let '(stage5_result, w1) := run_stage5 env svc output_dir w in
        let result := add_stage_result result stage5_result in
        if sr_success stage5_result then
          (set_completed result (sr_output_path stage4_result)
             (sr_output_path stage1_result) (sr_output_path stage3_result),
           None, w1)
        else
          (set_failed result
             (failure_prefix POST_PROCESSING +:+
              fmt_opt (sr_error_message stage5_result)),
           None, w1)
    end.

(** The body of the [try]. *)
Definition guarded_block (env : Env) (svc : Service)
    (pdf_path output_dir pdf_name : string) : Step :=
  content_section env svc METADATA_EXTRACTION output_dir pdf_name
    (run_stage1 env svc pdf_path output_dir) (fun stage1_result =>
  content_section env svc FULL_OCR output_dir pdf_name
    (run_stage2 env svc pdf_path output_dir) (fun stage2_result =>
  content_section env svc STRUCTURE_PARSING output_dir pdf_name
    (run_stage3 env svc (sr_output_path stage2_result) output_dir) (fun stage3_result =>
  content_section env svc REPORT_GENERATION output_dir pdf_name
    (run_stage4 env svc (sr_output_path stage3_result) output_dir) (fun stage4_result =>
  post_section env svc output_dir stage1_result stage3_result stage4_result)))).

(** [except Exception as e]: the failure is recorded under
    [METADATA_EXTRACTION], the default stage. *)
Definition handle_exception (env : Env) (e : Exn) (result : PipelineResult)
    : PipelineResult :=
  let result := set_failed result ("流水线异常: " +:+ exn_str e) in
  let error_result :=
    mkStageResult METADATA_EXTRACTION FAILED None None 0 None None
      (Some (exn_str e)) (Some (format_exc env e)) [] in
  add_stage_result result error_result.

(** [result.end_time = time.time();
     result.total_processing_time = result.end_time - result.start_time] *)
Definition set_end_time (r : PipelineResult) (start finish : Q) : PipelineResult :=
  mkPipelineResult (input_pdf r) (output_dir r) (pdf_name r) (overall_status r)
    (start_time r) (Some finish) (finish - start)%Q (stages r)
    (final_report_path r) (metadata_path r) (structure_path r) (pipeline_error r).

(** [result.save_to_file(path)] *)
Definition save_to_file (env : Env) (result : PipelineResult) (path : string)
    : M unit :=
  fun w =>
    let w1 := log (EvSave path result) w in
    let r := write_json env path result w1 in
    (eff_outcome r, mkWorld (eff_files r) (now w1 + eff_elapsed r)%Q (events w1)).

(** The result object as it is created before the guarded block. *)
Definition initial_result (pdf_path output_dir pdf_name : string) (start : Q)
    : PipelineResult :=
  mkPipelineResult pdf_path output_dir pdf_name IN_PROGRESS (Some start)
    None 0 ∅ None None None None.

Definition process_paper (env : Env) (svc : Service) (pdf_path : string)
    : M PipelineResult :=
  fun w0 =>
    let start := now w0 in
    let pdf_name := path_stem env pdf_path in
    let output_dir := Str.path_join (cfg_output_dir (config svc)) pdf_name in
    match invoke Mkdir (os_mkdir env output_dir) w0 with
    | (Raised e, w) => (Raised e, w)
    | (Returned _, w1) =>
        let result := initial_result pdf_path output_dir pdf_name start in
        let '(result, raised, w2) :=
          guarded_block env svc pdf_path output_dir pdf_name result w1 in
        let result :=
          match raised with
          | Some e => handle_exception env e result
          | None => result
          end in
        (* finally *)
        let result := set_end_time result start (now w2) in
        let result_file := Str.path_join output_dir "pipeline_result.json" in
        match save_to_file env result result_file w2 with
        | (Raised e, w3) => (Raised e, w3)
        | (Returned _, w3) => (Returned result, w3)
        end
    end.

(** ** The retrying LLM call ([utils/llm_config.py], [utils/llm_client.py]) *)

Module LLM.

Record ApiConfig := mkApiConfig {
  api_url : string;
  api_key : string;
  default_model : string;
  temperature : Q;
  profile_max_retries : Z;
  retry_base_delay : Q;
  reasoner : bool
}.

(** [LLM_CONFIG]; the secret keys are elided. *)
Definition LLM_CONFIG : list (string * ApiConfig) :=
  [("wd_gemini",
    mkApiConfig "https://wendavid-gem-bal.hf.space/gemini/v1beta" "sk-elided"
      "gemini-2.5-flash" 0.7 5 1 false);
   ("deepseek",
    mkApiConfig "https://api.deepseek.com/v1" "sk-elided"
      "deepseek-chat" 0.7 5 1 false);
   ("deepseek_r1",
    mkApiConfig "https://api.deepseek.com/v1" "sk-elided"
      "deepseek-reasoner" 0.7 5 1 true);
   ("yunwu_dpsk",
    mkApiConfig "https://yunwu.ai/v1" "sk-elided"
      "deepseek-r1" 0.7 5 1 true);
   ("yunwu_gemini",
    mkApiConfig "https://yunwu.ai/v1" "sk-elided"
      "gemini-2.5-flash" 0.7 5 1 false);
   ("yunwu_openai",
    mkApiConfig "https://yunwu.ai/v1" "sk-elided"
      "gpt-4o-2024-08-06" 0.7 5 1 false);
   ("siliconflow",
    mkApiConfig "https://api.siliconflow.cn/v1" "sk-elided"
      "Pro/deepseek-ai/DeepSeek-R1" 0.7 5 1 true);
   ("wd_gemini2",
    mkApiConfig "https://tbai.xin/v1" "sk-elided"
      "gemini-2.5-pro" 0.7 5 1 false)]%Q.

Definition MAX_RETRIES : Z := 5.

(** [x or CURRENT_API] for an [Optional[str]]: [None] and [""] are falsy. *)
Definition or_current_api (api_name : option string) : string :=
  match api_name with
  | Some name => if String.eqb name "" then CURRENT_API else name
  | None => CURRENT_API
  end.

(** [get_api_config]: [LLM_CONFIG[api]], a [KeyError] for an unknown name. *)
Definition get_api_config (api_name : option string) : Outcome ApiConfig :=
  let api := or_current_api api_name in
  match List.find (fun entry => String.eqb (fst entry) api) LLM_CONFIG with
  | Some (_, cfg) => Returned cfg
  | None => Raised (mkExn KeyError ("'" +:+ api +:+ "'"))
  end.

(** The [create] call of the OpenAI client, with the content of the first
    choice as its value: model, prompt, temperature, max_tokens. *)
Definition Create : Type :=
  string -> string -> Q -> option Z -> World -> Effect string.

Record LLMClient := mkLLMClient {
  client_api_name : string;
  client_config : ApiConfig;
  client_create : Create
}.

(** [LLMClient.__init__]; [connect] stands for [AsyncOpenAI(api_key=..,
    base_url=..)] and the [openai] library is taken to be installed. *)
Definition init (connect : string -> string -> Create)
    (api_name : option string) : Outcome LLMClient :=
  let name := or_current_api api_name in
  match get_api_config (Some name) with
  | Raised e => Raised e
  | Returned cfg =>
      if String.eqb (api_key cfg) "" then
        Raised (mkExn ValueError
          ("缺少API密钥，请在llm_config.py中为" +:+ name +:+ "配置api_key"))
      else
        Returned (mkLLMClient name cfg (connect (api_key cfg) (api_url cfg)))
  end.

(** [asyncio.sleep(2 ** retries)] *)
Definition backoff (retries : Z) : Q := inject_Z (2 ^ retries).

(** The exception raised once the retries are used up, per handler. *)
Definition exhausted (e : Exn) : Exn :=
  match exn_class e with
  | APIConnectionError => mkExn PlainException "API 连接失败: 超过重试次数"
  | APIError => mkExn PlainException ("API 错误: " +:+ exn_str e)
  | AsyncTimeoutError => mkExn PlainException "请求超时: 超过重试次数"
  | _ => mkExn PlainException ("未知错误: " +:+ exn_str e)
  end.

(** The [while retries <= max_retries] loop of [get_completion].  All four
    handlers do the same: count the failure, raise when the retries are
    used up, otherwise sleep [2 ** retries] seconds and go round again.
    [fuel] bounds the iterations; [max_retries + 1 - retries] of them are
    enough.  Leaving the loop by its condition returns [None]. *)
Fixpoint completion_loop (attempt : World -> Effect string) (max_retries : Z)
    (fuel : nat) (retries : Z) : M (option string) :=
  if negb (retries <=? max_retries)%Z then ret None
  else
    match fuel with
    | O => ret None
    | S fuel' =>
        try_except
          (let! content := invoke ChatCompletionsCreate attempt in
           ret (Some content))
          (fun e =>
             let retries := (retries + 1)%Z in
             if (retries >? max_retries)%Z then raise (exhausted e)
             else
               sleep (backoff retries) >>
               completion_loop attempt max_retries fuel' retries)
    end.

(** [model or self.config["default_model"]] *)
Definition model_or_default (client : LLMClient) (model : option string) : string :=
  match model with
  | Some name => if String.eqb name "" then default_model (client_config client) else name
  | None => default_model (client_config client)
  end.

(** [LLMClient.get_completion] *)
Definition get_completion (client : LLMClient) (prompt : string)
    (model : option string) (temp : Q) (max_tokens : option Z)
    (max_retries : Z) : M (option string) :=
  let model_name := model_or_default client model in
  completion_loop (client_create client model_name prompt temp max_tokens)
    max_retries (Z.to_nat (max_retries + 1)) 0.

(** The error classes the specification calls retryable: connection
    failures, timeouts, rate-limit or server errors, and malformed
    responses. *)
Definition retryable_class (c : ExnClass) : bool :=
  match c with
  | APIConnectionError | APIError | AsyncTimeoutError | JSONDecodeError => true
  | _ => false
  end.

End LLM.

(** ** Reading the event log *)

(** The events a run added to the log. *)
Definition new_events (before after : World) : list Event :=
  drop (length (events before)) (events after).

Definition is_call (c : Collaborator) (e : Event) : bool :=
  match e with
  | EvCall c' => bool_decide (c' = c)
  | _ => false
  end.

(** How often a collaborator was invoked. *)
Definition count_calls (c : Collaborator) (evs : list Event) : nat :=
  length (List.filter (is_call c) evs).

(** The durations slept, in order. *)
Definition sleeps (evs : list Event) : list Q :=
  omap (fun e => match e with EvSleep d => Some d | _ => None end) evs.

(** The [overall_progress] values handed to the progress callback, in order. *)
Definition progress_values (evs : list Event) : list Q :=
  omap (fun e => match e with
                 | EvProgress info => Some (overall_progress info)
                 | _ => None
                 end) evs.

(** The results serialized, with their paths, in order. *)
Definition saves (evs : list Event) : list (string * PipelineResult) :=
  omap (fun e => match e with EvSave p r => Some (p, r) | _ => None end) evs.

Definition Qsum (l : list Q) : Q := fold_right Qplus 0%Q l.

Fixpoint nondecreasing (l : list Q) : bool :=
  match l with
  | x :: ((y :: _) as rest) => Qle_bool x y && nondecreasing rest
  | _ => true
  end.

(** ** Reference definitions and concrete scenarios used in the statements *)

(** The overall progress in the words of the specification: the weights of
    the stages strictly before [stage] in the pipeline order, plus the
    weight of [stage] times its local progress. *)
Definition spec_overall_progress (stage : ProcessingStage) (stage_prog : Q) : Q :=
  (Qsum (map snd
     (List.filter (fun sw => (stage_index (fst sw) <? stage_index stage)%nat)
        stage_weights))
   + weight_of stage * stage_prog)%Q.

Definition empty_world : World := mkWorld ∅ 0 [].

(** The configuration [cfg] with another value of [max_retry_attempts]. *)
Definition with_max_retry_attempts (cfg : PipelineConfig) (n : Z) : PipelineConfig :=
  mkPipelineConfig (cfg_output_dir cfg) (cfg_api_name cfg)
    (cfg_template_paths cfg) (cfg_llm_config cfg) (cfg_crop_params cfg)
    (cfg_keep_intermediate_files cfg) (cfg_enable_progress_callback cfg) n.

(** The world in which the guarded block of [process_paper] starts: the
    one the creation of the output directory leaves. *)
Definition after_mkdir (env : Env) (output_dir : string) (w : World) : World :=
  snd (invoke Mkdir (os_mkdir env output_dir) w).

(** An endpoint on which every request fails with the same exception. *)
Definition always_raising (c : ExnClass) (msg : string) : LLM.Create :=
  fun _ _ _ _ w => mkEffect (Raised (mkExn c msg)) (files w) 0.

(** The events of a [get_completion] run none of whose attempts succeeds:
    [n] more retries are allowed after the attempt made with counter
    [retries]. *)
Fixpoint failing_trace (retries : Z) (n : nat) : list Event :=
  EvCall ChatCompletionsCreate ::
  match n with
  | O => []
  | S n' => EvSleep (LLM.backoff (retries + 1)) :: failing_trace (retries + 1) n'
  end.

(** [2^1, ..., 2^n] *)
Definition powers_of_two (n : nat) : list Q :=
  map (fun k => inject_Z (2 ^ Z.of_nat k)) (seq 1 n).

(** The delays before the retries [1 .. n]: [base * 2^k] before retry [k]. *)
Definition backoff_schedule (base : Q) (n : nat) : list Q :=
  map (Qmult base) (powers_of_two n).

(** A client of the "deepseek" profile whose endpoint fails every request
    with a connection error, and one that fails with an error outside the
    retryable classes. *)
Definition offline_endpoint : string -> string -> LLM.Create :=
  fun _ _ => always_raising APIConnectionError "Connection error.".


Definition deepseek_profile : LLM.ApiConfig :=
  LLM.mkApiConfig "https://api.deepseek.com/v1" "sk-elided" "deepseek-chat"
    0.7 5 1 false.

Definition offline_client : LLM.LLMClient :=
  LLM.mkLLMClient "deepseek" deepseek_profile
    (offline_endpoint "sk-elided" "https://api.deepseek.com/v1").



(** Concrete surroundings for runs of the orchestrator on the paper
    [papers/p1.pdf] with output root [out]. *)
Module Scenario.

(** The last component of a plain POSIX path. *)
Fixpoint basename (s : string) : string :=
  match s with
  | EmptyString => EmptyString
  | String _ rest => if Str.contains "/" s then basename rest else s
  end.

Definition dot : Ascii.ascii := Ascii.ascii_of_nat 46.

(** A file name from its second character on, without its last suffix. *)
Fixpoint cut_suffix (s : string) : string :=
  match s with
  | EmptyString => EmptyString
  | String c rest =>
      if Ascii.eqb c dot && negb (Str.contains "." rest) then
        (if String.eqb rest "" then s else EmptyString)
      else String c (cut_suffix rest)
  end.

(** [Path(p).stem] on plain POSIX paths. *)
Definition stem (p : string) : string :=
  match basename p with
  | EmptyString => EmptyString
  | String c rest => String c (cut_suffix rest)
  end.

(** [s.replace(old, new)] for a non-empty [old]; [skip] characters of a
    replaced occurrence are still to be dropped. *)
Fixpoint replace_from (old new : string) (skip : nat) (s : string) : string :=
  match s with
  | EmptyString => EmptyString
  | String c rest =>
      match skip with
      | S k => replace_from old new k rest
      | O =>
          if String.prefix old s
          then new +:+ replace_from old new (String.length old - 1) rest
          else String c (replace_from old new 0 rest)
      end
  end.

Definition replace (s old new : string) : string := replace_from old new 0 s.

Fixpoint ends_with (suffix s : string) : bool :=
  String.eqb suffix s ||
  match s with
  | EmptyString => false
  | String _ rest => ends_with suffix rest
  end.

(** [Path(dir).glob(pattern)] for the two patterns the code uses: a
    literal name, or ["*"] followed by a literal suffix. *)
Definition glob (fs : gset string) (dir pattern : string) : list string :=
  match pattern with
  | String star suffix =>
      if Ascii.eqb star (Ascii.ascii_of_nat 42) then
        List.filter
          (fun p => String.prefix (dir +:+ "/") p &&
                    String.eqb (Str.path_join dir (basename p)) p &&
                    ends_with suffix (basename p))
          (elements fs)
      else
        List.filter (path_exists fs) [Str.path_join dir pattern]
  | EmptyString => []
  end.

Definition done {A} (a : A) (created : list string) (took : Q) (w : World)
    : Effect A :=
  mkEffect (Returned a) (files w ∪ list_to_set created) took.

Definition failing {A} (e : Exn) (w : World) : Effect A :=
  mkEffect (Raised e) (files w) 0.

(** Collaborators that succeed at once and leave their well-known files
    behind; the imports, the stage-1 collaborator, the post-processor
    and the wiring faults are left open. *)
Definition env_of
    (imports : string -> option Exn)
    (stage1 : string -> string -> string -> option string ->
              option (gmap string Q) -> World -> Effect (option Json))
    (post : string -> World -> Effect PostResult)
    (fault : ProcessingStage -> option Exn) : Env :=
  mkEnv stem replace
    (fun e => "Traceback (most recent call last): " +:+ exn_str e)
    glob
    (fun dir => done tt [dir] 0)
    (fun path _ => done tt [path] 0)
    imports
    stage1
    (fun _ dir => done tt [Str.path_join dir "complete.md"] 60)
    (fun _ dir => done true [Str.path_join dir "paper_structure.json"] 20)
    (fun _ => done tt [] 0)
    (fun _ _ _ => done "{}" [] 10)
    (fun _ => Returned "empirical")
    (fun name dir _ _ _ =>
       done "{}" [Str.path_join dir (name +:+ "_attribute_tree.json")] 15)
    (fun _ dir _ =>
       done (Some (Str.path_join dir "final_report.md"))
         [Str.path_join dir "final_report.md"] 90)
    post
    fault.

(** Stage 1 succeeds at once. *)
Definition stage1_ok (pdf dir : string) (_ : string) (_ : option string)
    (_ : option (gmap string Q)) : World -> Effect (option Json) :=
  done (Some "{}")
    [Str.path_join dir (stem pdf +:+ "_metadata.json");
     Str.path_join dir (stem pdf +:+ "_first_three_pages.md")] 5.

(** Every call of stage 1 fails with the given exception. *)
Definition stage1_raising (e : Exn) (_ _ _ : string) (_ : option string)
    (_ : option (gmap string Q)) : World -> Effect (option Json) :=
  failing e.

Definition env_with
    (imports : string -> option Exn)
    (post : string -> World -> Effect PostResult)
    (fault : ProcessingStage -> option Exn) : Env :=
  env_of imports stage1_ok post fault.

Definition post_ok : string -> World -> Effect PostResult :=
  fun _ => done (mkPostResult true []) [] 1.

Definition post_raises : string -> World -> Effect PostResult :=
  fun _ => failing (mkExn OtherException "[Errno 13] Permission denied").

Definition no_fault : ProcessingStage -> option Exn := fun _ => None.

Definition all_installed : string -> option Exn := fun _ => None.


(** The OCR client library of stage 2 is not installed. *)
Definition ocr_missing : string -> option Exn :=
  fun module => if String.eqb module "pdf_content_extractor.pdf_ocr"
                then Some (mkExn ImportError "No module named 'mistralai'")
                else None.

Definition happy_env : Env := env_with all_installed post_ok no_fault.

(** Stage 5 fails; everything else is as in [happy_env]. *)
Definition post_failing_env : Env := env_with all_installed post_raises no_fault.

(** Stage 2 fails on its import. *)
Definition ocr_missing_env : Env := env_with ocr_missing post_ok no_fault.

(** The OCR service of stage 1 times out on every call. *)
Definition timeout_env : Env :=
  env_of all_installed
    (stage1_raising (mkExn OtherException "Request timed out."))
    post_ok no_fault.

(** The input document of stage 1 does not exist. *)
Definition missing_input_env : Env :=
  env_of all_installed
    (stage1_raising
       (mkExn FileNotFoundError
          "[Errno 2] No such file or directory: 'papers/p1.pdf'"))
    post_ok no_fault.

(** The output directory of an earlier run that was interrupted after
    the second stage. *)
Definition interrupted_world : World :=
  mkWorld
    (list_to_set
       ["out/p1/p1_metadata.json"; "out/p1/p1_first_three_pages.md";
        "out/p1/complete.md"])
    500 [].


Definition default_config : PipelineConfig :=
  mkPipelineConfig "out" None
    (list_to_map
       [("metadata", "resources/extract_metadata_from_face_page.md");
        ("structure", "resources/extract_frame_and_tabs_figs.md");
        ("abstract_intro", "resources/extract_abstract_intro.md")])
    ∅ None false true 3.

(** A service with both callbacks set. *)
Definition service : Service :=
  mkService default_config (Some (fun _ => Returned tt))
    (Some (fun _ _ => Returned tt)).

Definition pdf : string := "papers/p1.pdf".

(** The output directory of an earlier run that completed all four
    content stages. *)
Definition resumed_world : World :=
  mkWorld
    (list_to_set
       ["out/p1/p1_metadata.json"; "out/p1/p1_first_three_pages.md";
        "out/p1/complete.md"; "out/p1/paper_structure.json";
        "out/p1/p1_attribute_tree.json"; "out/p1/final_report.md"])
    1000 [].

Definition run (env : Env) (w : World) : Outcome PipelineResult * World :=
  process_paper env service pdf w.

Definition result_of (r : Outcome PipelineResult * World) : option PipelineResult :=
  match fst r with Returned res => Some res | Raised _ => None end.

(** The status recorded for a stage, if any. *)
Definition status_in (r : Outcome PipelineResult * World)
    (stage : ProcessingStage) : option ProcessingStatus :=
  res ← result_of r; sr ← stages res !! stage; Some (sr_status sr).

End Scenario.

(** ** Who an event belongs to *)

Definition collaborator_stage (c : Collaborator) : option ProcessingStage :=
  match c with
  | Stage1Process => Some METADATA_EXTRACTION
  | Stage2Process => Some FULL_OCR
  | ProcessPaperStructure | AttributeToolsInit | ClassifyPaper
  | ExtractAttributeTree => Some STRUCTURE_PARSING
  | ProcessPaperReport => Some REPORT_GENERATION
  | ProcessPaperFolder => Some POST_PROCESSING
  | Mkdir | ChatCompletionsCreate => None
  end.

(** The stage on whose behalf an event happens: the stage a progress or
    error notification names, the stage a collaborator works for. *)
Definition event_owner (e : Event) : option ProcessingStage :=
  match e with
  | EvProgress info => Some (current_stage info)
  | EvError stage _ => Some stage
  | EvCall c => collaborator_stage c
  | EvSleep _ | EvSave _ _ => None
  end.

Definition owned_by (stage : ProcessingStage) (e : Event) : Prop :=
  event_owner e = Some stage.


(** [emits stage n P m]: whatever the world, [m] only adds events of
    [stage] to the log, among them at most [n] calls of the stage-1
    collaborator, and a value it returns satisfies [P]. *)
Definition emits (stage : ProcessingStage) (n : nat) {A} (P : A -> Prop)
    (m : M A) : Prop :=
  forall w, exists t,
    events (snd (m w)) = events w ++ t /\
    Forall (owned_by stage) t /\
    (count_calls Stage1Process t <= n)%nat /\
    forall a, fst (m w) = Returned a -> P a.

(** The assignments a stage body makes leave the stage of the result alone
    and settle its status: completed, or failed with a message. *)
Definition settles (assign : StageResult -> StageResult) : Prop :=
  forall r,
    sr_stage (assign r) = sr_stage r /\
    (sr_status (assign r) = COMPLETED \/
     sr_status (assign r) = FAILED /\ is_Some (sr_error_message (assign r))).

(** What a stage function guarantees about its result and its events. *)
Definition stage_run_ok (stage : ProcessingStage)
    (run : World -> StageResult * World) : Prop :=
  forall w, exists t,
    events (snd (run w)) = events w ++ t /\
    Forall (owned_by stage) t /\
    (count_calls Stage1Process t <= 3)%nat /\
    sr_stage (fst (run w)) = stage /\
    (sr_status (fst (run w)) = COMPLETED \/
     sr_status (fst (run w)) = FAILED /\
     is_Some (sr_error_message (fst (run w)))).

(** How the guarded block of [process_paper] ended. *)
Inductive Ending : Type :=
| Faulted (stage : ProcessingStage) (e : Exn)   (* an exception of the glue code *)
| StageFailed (stage : ProcessingStage)         (* the stage resolved to FAILED *)
| AllCompleted.

(** The number of stages that have a result when the block ends. *)
Definition reached (ending : Ending) : nat :=
  match ending with
  | Faulted stage _ => stage_index stage
  | StageFailed stage => S (stage_index stage)
  | AllCompleted => 5
  end.

(** The facts about one run of the guarded block, started with result [r0]
    in world [w1] and ended with [r], [raised] and [w2]. *)
Record block_summary (env : Env) (r0 : PipelineResult) (w1 : World)
    (r : PipelineResult) (raised : option Exn) (w2 : World)
    (ending : Ending) (t : list Event) : Prop := mkBlockSummary {
  bs_events : events w2 = events w1 ++ t;
  bs_owned :
    Forall (fun e => exists s, event_owner e = Some s /\
                               (stage_index s < reached ending)%nat) t;
  bs_stage1_calls : (count_calls Stage1Process t <= 3)%nat;
  bs_post_calls :
    (count_calls ProcessPaperFolder t <=
     if decide (reached ending = 5%nat) then 1 else 0)%nat;
  bs_present :
    forall s, is_Some (stages r !! s) <-> (stage_index s < reached ending)%nat;
  bs_status :
    forall s sr, stages r !! s = Some sr ->
      sr_stage sr = s /\
      (sr_status sr = COMPLETED \/
       ending = StageFailed s /\ sr_status sr = FAILED);
  bs_raised :
    raised = match ending with Faulted _ e => Some e | _ => None end;
  bs_faulted :
    forall s e, ending = Faulted s e ->
      wiring_fault env s = Some e /\
      overall_status r = overall_status r0 /\
      pipeline_error r = pipeline_error r0;
  bs_failed :
    forall s, ending = StageFailed s ->
      exists sr, stages r !! s = Some sr /\ sr_status sr = FAILED /\
        overall_status r = FAILED /\
        pipeline_error r =
          Some (failure_prefix s +:+ fmt_opt (sr_error_message sr));
  bs_completed :
    ending = AllCompleted -> overall_status r = COMPLETED
}.

(** What holds between two blocks of the guarded code: the first [n] stages
    have a result, all completed, and only they have left events. *)
Record block_invariant (r0 r : PipelineResult) (n : nat) (t : list Event)
    : Prop := mkBlockInvariant {
  bi_present : forall s, is_Some (stages r !! s) <-> (stage_index s < n)%nat;
  bi_status :
    forall s sr, stages r !! s = Some sr ->
      sr_stage sr = s /\ sr_status sr = COMPLETED;
  bi_owned :
    Forall (fun e => exists s, event_owner e = Some s /\
                               (stage_index s < n)%nat) t;
  bi_stage1_calls : (count_calls Stage1Process t <= 3)%nat;
  bi_post_calls : count_calls ProcessPaperFolder t = 0%nat;
  bi_overall : overall_status r = overall_status r0;
  bi_error : pipeline_error r = pipeline_error r0
}.

(** The outcome of (the rest of) the guarded block has a summary. *)
Definition summarised (env : Env) (r0 : PipelineResult) (w1 : World)
    (out : PipelineResult * option Exn * World) : Prop :=
  exists ending t,
    block_summary env r0 w1 (fst (fst out)) (snd (fst out)) (snd out) ending t.

(** The stage result recorded for [stage] when its artifacts are found in
    the world [w]. *)
Definition checkpointed (stage : ProcessingStage) (output_dir pdf_name : string)
    (w : World) : StageResult :=
  checkpoint_result stage (now w)
    (checkpoint_output (files w) stage output_dir pdf_name).

(** ** The post-processor ([tools/stage5_post_processor.py])

    Its effect on the set of existing paths; a failing [unlink], [rmtree]
    or [rename] is not modelled. *)
Module Stage5PostProcessor.

Definition items_to_delete (paper_name : string) : list string :=
  [paper_name +:+ "_first_three_pages.md";
   paper_name +:+ "_first_three_pages.pdf";
   "json"; "pages"; "sections";
   "prompts.json"; "pipeline_result.json"].

Definition rename_mappings (paper_name : string) : list (string * string) :=
  [(paper_name +:+ "_metadata.json", "metadata_" +:+ paper_name +:+ ".json");
   (paper_name +:+ "_full.md", "full_" +:+ paper_name +:+ ".md");
   ("complete.md", "full_" +:+ paper_name +:+ ".md");
   (paper_name +:+ "_classification.json",
    "classification_" +:+ paper_name +:+ ".json");
   (paper_name +:+ "_attribute_tree.json",
    "attribute_tree_" +:+ paper_name +:+ ".json");
   ("paper_structure.json", "structure_" +:+ paper_name +:+ ".json");
   ("report_aer_quick_test.md", "final_report_" +:+ paper_name +:+ ".md");
   ("final_report.md", "final_report_" +:+ paper_name +:+ ".md")].

(** [unlink] of a file or [rmtree] of a directory: the path goes, and so
    does everything below it. *)
Definition remove (fs : gset string) (p : string) : gset string :=
  filter (fun q => Is_true (negb (String.eqb q p || String.prefix (p +:+ "/") q)))
    fs.

(** [_clean_intermediate_files] *)
Definition clean_intermediate_files (fs : gset string) (paper_folder : string)
    : gset string :=
  fold_left
    (fun fs item_name =>
       let item_path := Str.path_join paper_folder item_name in
       if path_exists fs item_path then remove fs item_path else fs)
    (items_to_delete (Scenario.basename paper_folder)) fs.

(** [_rename_output_files] *)
Definition rename_output_files (fs : gset string) (paper_folder : string)
    : gset string :=
  fold_left
    (fun fs '(old_name, new_name) =>
       let old_path := Str.path_join paper_folder old_name in
       let new_path := Str.path_join paper_folder new_name in
       if path_exists fs old_path && negb (path_exists fs new_path)
       then (fs ∖ {[old_path]}) ∪ {[new_path]}
       else fs)
    (rename_mappings (Scenario.basename paper_folder)) fs.

(** [process_paper_folder]: clean, then rename; the call succeeds. *)
Definition process_paper_folder (paper_folder : string) (w : World)
    : Effect PostResult :=
  mkEffect (Returned (mkPostResult true []))
    (rename_output_files (clean_intermediate_files (files w) paper_folder)
       paper_folder)
    1.

End Stage5PostProcessor.

(** Collaborators that succeed, with the post-processor as it is written. *)
Definition tidy_env : Env :=
  Scenario.env_with Scenario.all_installed
    Stage5PostProcessor.process_paper_folder Scenario.no_fault.

(** ** The rest of the result model ([tools/pipeline_models.py]) *)

Local Open Scope pipe_scope.


(** [PipelineResult.get_stage_result]: [self.stages.get(stage)] *)
Definition get_stage_result (r : PipelineResult) (stage : ProcessingStage)
    : option StageResult :=
  stages r !! stage.

(** [PipelineResult.get_completed_stages], in pipeline order (the order in
    which [process_paper] inserts the stages). *)
Definition get_completed_stages (r : PipelineResult) : list ProcessingStage :=
  List.filter (fun s => match stages r !! s with
                        | Some sr => bool_decide (sr_status sr = COMPLETED)
                        | None => false
                        end) pipeline_order.

(** ** The configuration module ([utils/llm_config.py]) with its global

    [CURRENT_API] is a module global that [set_current_api] rebinds; the
    functions below take its current value. *)
Module LLMConfig.

(** [list_available_apis]: [list(LLM_CONFIG.keys())] *)
Definition list_available_apis : list string := map fst LLM.LLM_CONFIG.

(** [api_name or CURRENT_API] *)
Definition or_current (current : string) (api_name : option string) : string :=
  match api_name with
  | Some name => if String.eqb name "" then current else name
  | None => current
  end.

(** [LLM_CONFIG[api]] *)
Definition lookup (api : string) : Outcome LLM.ApiConfig :=
  match List.find (fun entry => String.eqb (fst entry) api) LLM.LLM_CONFIG with
  | Some (_, cfg) => Returned cfg
  | None => Raised (mkExn KeyError ("'" +:+ api +:+ "'"))
  end.

(** [get_api_config] *)
Definition get_api_config (current : string) (api_name : option string)
    : Outcome LLM.ApiConfig :=
  lookup (or_current current api_name).

(** [get_default_model] *)
Definition get_default_model (current : string) (api_name : option string)
    : Outcome string :=
  match lookup (or_current current api_name) with
  | Returned cfg => Returned (LLM.default_model cfg)
  | Raised e => Raised e
  end.

(** [set_current_api]: the outcome and the new value of the global. *)
Definition set_current_api (api_name : string) (current : string)
    : Outcome string * string :=
  if negb (existsb (String.eqb api_name) list_available_apis) then
    (Raised (mkExn ValueError
       ("未知的API: " +:+ api_name +:+ "。可用选项: " +:+
        Str.join ", " list_available_apis)),
     current)
  else (Returned api_name, api_name).

End LLMConfig.

(** An endpoint whose first [failures] requests fail with [e] and whose
    later requests return [content]; the requests are counted in the log. *)
Definition flaky (failures : nat) (e : Exn) (content : string) : LLM.Create :=
  fun _ _ _ _ w =>
    if (count_calls ChatCompletionsCreate (events w) <=? failures)%nat
    then mkEffect (Raised e) (files w) 0
    else mkEffect (Returned content) (files w) 0.

Definition flaky_client (failures : nat) : LLM.LLMClient :=
  LLM.mkLLMClient "deepseek" deepseek_profile
    (flaky failures (mkExn APIConnectionError "Connection error.") "Summary.").

(** ** The convenience function ([process_paper_pipeline]) *)





(** ** The batch driver ([tools/batch_process_fsz_papers.py]) *)

Module FSZPaperBatchProcessor.

(** The record kept per paper; its per-stage entries and its formatted
    start time are left out. *)
Record PaperResult := mkPaperResult {
  paper_name : string;
  paper_pdf_path : string;
  paper_output_dir : option string;
  paper_status : string;
  paper_processing_time : Q;
  paper_final_report_path : option string;
  paper_metadata_path : option string;
  paper_structure_path : option string;
  paper_error : option string
}.

(** The processor object: its directories and its statistics. *)
Record Processor := mkProcessor {
  input_dir : string;
  batch_output_dir : string;
  total_papers : nat;
  processed_papers : nat;
  successful_papers : nat;
  failed_papers : nat;
  processing_results : list PaperResult
}.

Section Driver.

Context (env : Env).
(** [PipelineConfig(output_dir=.., template_paths=..)], whose
    [__post_init__] creates the output directory and may raise *)
Context (new_config : string -> M PipelineConfig).
(** [list(Path(dir).rglob(pattern))] and [Path(p).is_file()] *)
Context (rglob : gset string -> string -> string -> list string).
Context (is_file : gset string -> string -> bool).
(** writing [batch_processing_results.json] *)
Context (write_batch : string -> Processor -> Q -> World -> Effect unit).










(** [average_time_per_paper] as [save_batch_results] computes it *)
Definition average_time_per_paper (self : Processor) (total_time : Q) : Q :=
  (total_time / inject_Z (Z.of_nat (Nat.max (processed_papers self) 1)))%Q.


End Driver.

(** [FSZPaperBatchProcessor.__init__], once its two directories exist *)
Definition new_processor (input output : string) : Processor :=
  mkProcessor input output 0 0 0 0 [].

End FSZPaperBatchProcessor.

(** ** Reading more of the event log *)

(** What [_notify_progress] and [_notify_error] add to the log. *)
Definition progress_note (svc : Service) (stage : ProcessingStage) (p : Q)
    (msg : string) : list Event :=
  match progress_callback svc with
  | Some _ => [EvProgress (make_progress_info stage p msg)]
  | None => []
  end.

Definition error_note (svc : Service) (stage : ProcessingStage) (e : Exn)
    : list Event :=
  match error_callback svc with
  | Some _ => [EvError stage e]
  | None => []
  end.

(** The calls of the error callback, in order. *)
Definition error_reports (evs : list Event) : list (ProcessingStage * Exn) :=
  omap (fun e => match e with EvError s x => Some (s, x) | _ => None end) evs.

(** The [stage_progress] values handed to the progress callback, in order. *)
Definition local_progress (evs : list Event) : list Q :=
  omap (fun e => match e with
                 | EvProgress info => Some (stage_progress info)
                 | _ => None
                 end) evs.

(** The stage function of each stage, with the arguments [process_paper]
    gives it. *)
Definition run_stage (env : Env) (svc : Service) (pdf_path output_dir : string)
    (complete_md_path structure_json_path : option string)
    (stage : ProcessingStage) : World -> StageResult * World :=
  match stage with
  | METADATA_EXTRACTION => run_stage1 env svc pdf_path output_dir
  | FULL_OCR => run_stage2 env svc pdf_path output_dir
  | STRUCTURE_PARSING => run_stage3 env svc complete_md_path output_dir
  | REPORT_GENERATION => run_stage4 env svc structure_json_path output_dir
  | POST_PROCESSING => run_stage5 env svc output_dir
  end.

(** The collaborators called, in order. *)
Definition calls (evs : list Event) : list Collaborator :=
  omap (fun e => match e with EvCall c => Some c | _ => None end) evs.

(** The collaborators a stage function calls when all goes well, in the
    order of its try block; stage 1 calls its collaborator up to three
    times. *)
Definition stage_calls (stage : ProcessingStage) : list Collaborator :=
  match stage with
  | METADATA_EXTRACTION => [Stage1Process; Stage1Process; Stage1Process]
  | FULL_OCR => [Stage2Process]
  | STRUCTURE_PARSING =>
      [ProcessPaperStructure; AttributeToolsInit; ClassifyPaper;
       ExtractAttributeTree]
  | REPORT_GENERATION => [ProcessPaperReport]
  | POST_PROCESSING => [ProcessPaperFolder]
  end.

(** ** Traces of computations

    [runs_from t0 R X m]: in every world, [m] extends the log by some
    trace [t]; when it returns [a], [R (t0 ++ t) a] holds, and when it
    raises [e], [X (t0 ++ t) e] holds.  [t0] is the trace of what ran
    before [m]. *)
Definition runs_from {A} (t0 : list Event) (R : list Event -> A -> Prop)
    (X : list Event -> Exn -> Prop) (m : M A) : Prop :=
  forall w, exists t,
    events (snd (m w)) = events w ++ t /\
    match fst (m w) with
    | Returned a => R (t0 ++ t) a
    | Raised e => X (t0 ++ t) e
    end.

(** The result a stage function starts from. *)
Definition fresh_result (stage : ProcessingStage) (start : Q) : StageResult :=
  new_stage_result stage IN_PROGRESS (Some start).

(** What one run of a stage function guarantees about the result [sr] it
    returns and the events [t] it adds to the log. *)
Record stage_facts (svc : Service) (stage : ProcessingStage) (sr : StageResult)
    (t : list Event) : Prop := mkStageFacts {
  sf_settled : sr_status sr = COMPLETED \/ sr_status sr = FAILED;
  sf_reports :
    error_reports t = [] \/
    exists e, error_reports t = [(stage, e)] /\ sr_status sr = FAILED /\
              sr_error_message sr = Some (exn_str e);
  sf_reported :
    content_stage stage = true -> sr_status sr = FAILED ->
    is_Some (error_callback svc) -> error_reports t <> [];
  sf_sorted : nondecreasing (local_progress t) = true;
  sf_range :
    forallb (fun p => Qle_bool 0 p && Qle_bool p 1) (local_progress t) = true;
  sf_first :
    is_Some (progress_callback svc) -> head (local_progress t) = Some 0%Q;
  sf_last :
    is_Some (progress_callback svc) -> sr_status sr = COMPLETED ->
    last (local_progress t) = Some 1%Q;
  sf_calls : calls t `prefix_of` stage_calls stage;
  sf_all_called :
    sr_status sr = COMPLETED ->
    if decide (stage = METADATA_EXTRACTION) then calls t <> []
    else calls t = stage_calls stage
}.

(** ** The end of the guarded block, field by field *)

(** The fields [process_paper] sets once and for all. *)
Definition same_header (r0 r : PipelineResult) : Prop :=
  input_pdf r = input_pdf r0 /\ output_dir r = output_dir r0 /\
  pdf_name r = pdf_name r0 /\ start_time r = start_time r0.

Definition same_paths (r0 r : PipelineResult) : Prop :=
  final_report_path r = final_report_path r0 /\
  metadata_path r = metadata_path r0 /\
  structure_path r = structure_path r0.

(** The output path recorded for a stage. *)
Definition stage_output (r : PipelineResult) (stage : ProcessingStage)
    : option string :=
  get_stage_result r stage ≫= sr_output_path.

(** How the guarded block leaves the result it was given: completed, with
    the three final paths taken from the stage results; or with the paths
    untouched, either because an exception left the block or because the
    pipeline was marked as failed. *)
Definition block_end (r0 : PipelineResult)
    (out : PipelineResult * option Exn * World) : Prop :=
  let r := fst (fst out) in
  let raised := snd (fst out) in
  same_header r0 r /\
  ((raised = None /\ overall_status r = COMPLETED /\
    pipeline_error r = pipeline_error r0 /\
    final_report_path r = stage_output r REPORT_GENERATION /\
    metadata_path r = stage_output r METADATA_EXTRACTION /\
    structure_path r = stage_output r STRUCTURE_PARSING) \/
   (same_paths r0 r /\
    ((is_Some raised /\ overall_status r = overall_status r0 /\
      pipeline_error r = pipeline_error r0) \/
     (raised = None /\ overall_status r = FAILED /\
      is_Some (pipeline_error r))))).

(** ** Surroundings for further scenarios *)

(** [env] with another structure parser. *)
Definition with_process_paper_structure (env : Env)
    (parser : option string -> string -> World -> Effect bool) : Env :=
  mkEnv (path_stem env) (str_replace env) (format_exc env) (glob env)
    (os_mkdir env) (write_json env) (import_error env) (stage1_process env)
    (stage2_process env) parser (attribute_tools_init env) (classify_paper env)
    (determine_paper_type env) (extract_attribute_tree env)
    (process_paper_report env) (process_paper_folder env) (wiring_fault env).

(** The structure parser reports failure by returning [False]. *)
Definition unstructured_env : Env :=
  with_process_paper_structure Scenario.happy_env
    (fun _ _ => Scenario.done false [] 20).

(** The post-processor reports failure in its result. *)
Definition post_reporting_failure : string -> World -> Effect PostResult :=
  fun _ => Scenario.done (mkPostResult false ["disk full"; "read-only file"]) [] 1.

Definition post_reporting_env : Env :=
  Scenario.env_with Scenario.all_installed post_reporting_failure
    Scenario.no_fault.



(** ** The loops of the post-processor, one round at a time *)

(** One round of the loop of [_clean_intermediate_files]. *)
Definition clean_step (folder : string) (fs : gset string) (item_name : string)
    : gset string :=
  let item_path := Str.path_join folder item_name in
  if path_exists fs item_path then Stage5PostProcessor.remove fs item_path
  else fs.

(** One round of the loop of [_rename_output_files]. *)
Definition rename_step (folder : string) (fs : gset string)
    (mapping : string * string) : gset string :=
  let '(old_name, new_name) := mapping in
  let old_path := Str.path_join folder old_name in
  let new_path := Str.path_join folder new_name in
  if path_exists fs old_path && negb (path_exists fs new_path)
  then (fs ∖ {[old_path]}) ∪ {[new_path]}
  else fs.

(** The records of a batch whose status is that of a completed pipeline. *)
Definition completed_records
    (results : list FSZPaperBatchProcessor.PaperResult) : nat :=
  length (List.filter
            (fun r => String.eqb (FSZPaperBatchProcessor.paper_status r) "completed")
            results).

(** ** The JSON calls of the client ([utils/llm_client.py],
    [utils/prompt_utils.py])

    The file system read, [str.replace], the regular expressions of
    [extract_json_from_response], [json.loads] and [repair_json] are kept
    abstract. *)
Module JsonClient.

Section Library.

Context (read_text : string -> World -> Outcome string).
Context (replace : string -> string -> string -> string).
Context (extract_json_from_response : string -> string).
Context (json_loads : string -> Outcome Json).
Context (repair_json : string -> Outcome string).
(** the [TypeError] of [re.search] on [None] *)
Context (not_a_string : Exn).

(** [read_prompt_template] *)
Definition read_prompt_template (template_path : string) : M string :=
  fun w =>
    match read_text template_path w with
    | Returned text => (Returned text, w)
    | Raised e =>
        (Raised (mkExn ValueError ("读取模板文件失败: " +:+ exn_str e)), w)
    end.

(** [fill_prompt_with_document] *)
Definition fill_prompt_with_document (template_path document_text : string)
    : M string :=
  let! template := read_prompt_template template_path in
  ret (replace template "{{document}}" document_text).

(** What [get_json_completion] and [extract_metadata] both do with the
    response: extract, parse, and on a [JSONDecodeError] repair and
    parse again. *)
Definition parse_response (response : option string) : M Json :=
  match response with
  | None => raise not_a_string
  | Some text =>
      let json_str := extract_json_from_response text in
      match json_loads json_str with
      | Returned value => ret value
      | Raised e =>
          if decide (exn_class e = JSONDecodeError) then
            let second :=
              match repair_json json_str with
              | Returned repaired_json => json_loads repaired_json
              | Raised e' => Raised e'
              end in
            match second with
            | Returned value => ret value
            | Raised e' =>
                raise (mkExn ValueError
                         ("无法解析为有效的JSON: " +:+ exn_str e'))
            end
          else raise e
      end
  end.

(** [LLMClient.get_json_completion] *)
Definition get_json_completion (client : LLM.LLMClient) (prompt : string)
    (model : option string) (temp : Q) (max_tokens : option Z)
    (max_retries : Z) : M Json :=
  let! response :=
    LLM.get_completion client prompt model temp max_tokens max_retries in
  parse_response response.

(** [LLMClient.extract_metadata] *)
Definition extract_metadata (client : LLM.LLMClient)
    (document_text template_path : string) (model : option string)
    (temp : Q) (max_tokens : option Z) (max_retries : Z) : M Json :=
  let! prompt := fill_prompt_with_document template_path document_text in
  let! response :=
    LLM.get_completion client prompt model temp max_tokens max_retries in
  parse_response response.

End Library.

End JsonClient.

(** A JSON library that rejects every text, and a repair that changes
    nothing. *)
Definition never_json : string -> Outcome Json :=
  fun _ => Raised (mkExn JSONDecodeError
                     "Expecting value: line 1 column 1 (char 0)").

Definition no_repair : string -> Outcome string := fun s => Returned s.

(** ** The blocks of the guarded code, seen from outside *)


(** The stage result of one block, and the world it leaves: the result
    made up for a stage found complete on disk, or that of the stage
    function. *)
Definition section_outcome (svc : Service) (stage : ProcessingStage)
    (output_dir pdf_name : string) (run : World -> StageResult * World)
    (w : World) : StageResult * World :=
  if check_stage_completed (files w) stage output_dir pdf_name then
    let w' := notify_progress svc stage 1 (checkpoint_message stage) w in
    (checkpoint_result stage (now w')
       (checkpoint_output (files w') stage output_dir pdf_name), w')
  else run w.

(** The positions in the pipeline of the stages the events belong to, in
    the order of the events. *)
Definition event_stage_indices (t : list Event) : list nat :=
  omap (fun e => stage_index <$> event_owner e) t.

(** No element is followed, anywhere behind it, by a smaller one. *)
Fixpoint ascending (l : list nat) : Prop :=
  match l with
  | [] => True
  | x :: rest => Forall (le x) rest /\ ascending rest
  end.

(** What the events [t] of one stage, ended with [sr], say about the error
    callback. *)
Definition reports_of (stage : ProcessingStage) (sr : StageResult)
    (t : list Event) : Prop :=
  (sr_status sr = COMPLETED -> error_reports t = []) /\
  (error_reports t = [] \/
   exists e, error_reports t = [(stage, e)] /\ sr_status sr = FAILED /\
             sr_error_message sr = Some (exn_str e)).

(** The events [t] of (the rest of) the guarded block, ended with result
    [r] and, possibly, an exception: they come in pipeline order, and the
    error callback was called at most once, by the stage that failed. *)
Definition orderly_end (r : PipelineResult) (raised : option Exn)
    (t : list Event) : Prop :=
  ascending (event_stage_indices t) /\
  (error_reports t = [] \/
   exists s e sr,
     error_reports t = [(s, e)] /\ raised = None /\
     overall_status r = FAILED /\ get_stage_result r s = Some sr /\
     sr_status sr = FAILED /\ sr_error_message sr = Some (exn_str e) /\
     pipeline_error r = Some (failure_prefix s +:+ exn_str e)).

(** The events of the blocks run so far, before the block of position [n]:
    in pipeline order, of earlier stages only, and without a call of the
    error callback. *)
Definition so_far (n : nat) (t : list Event) : Prop :=
  ascending (event_stage_indices t) /\
  Forall (fun i => (i < n)%nat) (event_stage_indices t) /\
  error_reports t = [].

(** The guarded block, or the rest of it, ends in an orderly way when
    started after the events [t0] of the world [w0]. *)
Definition ends_orderly (w0 : World)
    (out : PipelineResult * option Exn * World) : Prop :=
  exists t, events (snd out) = events w0 ++ t /\
            orderly_end (fst (fst out)) (snd (fst out)) t.

(** * Properties *)

(** ** Progress aggregation *)

(** What [_notify_progress] accumulates, stage by stage: the weights added
    in front are those of the stages whose value string is smaller. *)
Lemma accumulate_progress_table (stage : ProcessingStage) (p : Q) :
  (accumulate_progress stage p ==
   match stage with
   | METADATA_EXTRACTION => 0.30 + 0.15 * p
   | FULL_OCR => 0.30 * p
   | STRUCTURE_PARSING => 0.75 + 0.25 * p
   | REPORT_GENERATION => 0.50 + 0.25 * p
   | POST_PROCESSING => 0.45 + 0.05 * p
   end)%Q.
Proof.
  destruct stage; cbv -[Qplus Qmult Qeq]; ring.
Qed.

Lemma spec_overall_progress_table (stage : ProcessingStage) (p : Q) :
  (spec_overall_progress stage p ==
   match stage with
   | METADATA_EXTRACTION => 0.15 * p
   | FULL_OCR => 0.15 + 0.30 * p
   | STRUCTURE_PARSING => 0.45 + 0.25 * p
   | REPORT_GENERATION => 0.70 + 0.25 * p
   | POST_PROCESSING => 0.95 + 0.05 * p
   end)%Q.
Proof.
  destruct stage; cbv -[Qplus Qmult Qeq]; ring.
Qed.

(** C3, evaluated on the code: at the start of metadata extraction, the
    first stage, no stage lies before it and the overall progress should be
    0; the code reports 0.30, the weight of full-text extraction, whose
    value string "full_ocr" sorts before "metadata_extraction". *)
Theorem overall_progress_at_first_stage_start :
  (overall_progress (make_progress_info METADATA_EXTRACTION 0 "") == 0.30)%Q /\
  (spec_overall_progress METADATA_EXTRACTION 0 == 0)%Q /\
  ~ (overall_progress (make_progress_info METADATA_EXTRACTION 0 "")
     == spec_overall_progress METADATA_EXTRACTION 0)%Q.
Proof.
  split; [|split].
  - vm_compute. reflexivity.
  - vm_compute. reflexivity.
  - vm_compute. discriminate.
Qed.

(** ** Checkpoint detection *)

Lemma path_exists_true (fs : gset string) (p : string) :
  path_exists fs p = true <-> p ∈ fs.
Proof. unfold path_exists. apply bool_decide_eq_true. Qed.

(** C9: the detector answers from the existence of the stage's well-known
    files alone: both files of metadata extraction, [complete.md], both
    files of structure parsing, any one of the three report names; the
    post-processing stage has no such file and is never found complete. *)
Theorem check_stage_completed_iff_files_exist
    (fs : gset string) (output_dir doc : string) :
  (check_stage_completed fs METADATA_EXTRACTION output_dir doc = true <->
     Str.path_join output_dir (doc +:+ "_metadata.json") ∈ fs /\
     Str.path_join output_dir (doc +:+ "_first_three_pages.md") ∈ fs) /\
  (check_stage_completed fs FULL_OCR output_dir doc = true <->
     Str.path_join output_dir "complete.md" ∈ fs) /\
  (check_stage_completed fs STRUCTURE_PARSING output_dir doc = true <->
     Str.path_join output_dir "paper_structure.json" ∈ fs /\
     Str.path_join output_dir (doc +:+ "_attribute_tree.json") ∈ fs) /\
  (check_stage_completed fs REPORT_GENERATION output_dir doc = true <->
     Str.path_join output_dir "final_report.md" ∈ fs \/
     Str.path_join output_dir "report.md" ∈ fs \/
     Str.path_join output_dir (doc +:+ "_report.md") ∈ fs) /\
  check_stage_completed fs POST_PROCESSING output_dir doc = false.
Proof.
  unfold check_stage_completed, possible_report_files; cbn [existsb].
  rewrite !andb_true_iff, !orb_true_iff, !path_exists_true.
  intuition discriminate.
Qed.

(** ** The retrying LLM call *)

Lemma new_events_app (w w' : World) (t : list Event) :
  events w' = events w ++ t -> new_events w w' = t.
Proof. unfold new_events. intros ->. apply drop_app_length. Qed.

Lemma count_calls_cons (c : Collaborator) (e : Event) (t : list Event) :
  count_calls c (e :: t) =
  ((if is_call c e then 1 else 0) + count_calls c t)%nat.
Proof. unfold count_calls. cbn [List.filter]. destruct (is_call c e); reflexivity. Qed.

Lemma count_calls_app (c : Collaborator) (t1 t2 : list Event) :
  count_calls c (t1 ++ t2) = (count_calls c t1 + count_calls c t2)%nat.
Proof.
  unfold count_calls. rewrite List.filter_app, length_app. reflexivity.
Qed.

Lemma is_call_same (c : Collaborator) : is_call c (EvCall c) = true.
Proof. unfold is_call. apply bool_decide_eq_true. reflexivity. Qed.

Lemma sleeps_app (t1 t2 : list Event) : sleeps (t1 ++ t2) = sleeps t1 ++ sleeps t2.
Proof. unfold sleeps. apply omap_app. Qed.

Lemma count_calls_failing_trace (retries : Z) (n : nat) :
  count_calls ChatCompletionsCreate (failing_trace retries n) = S n.
Proof.
  revert retries. induction n as [|n IH]; intros retries.
  - reflexivity.
  - cbn [failing_trace]. rewrite !count_calls_cons, is_call_same.
    fold (failing_trace (retries + 1) n). rewrite IH. reflexivity.
Qed.

Lemma sleeps_failing_trace (retries : Z) (n : nat) :
  sleeps (failing_trace retries n) =
  map (fun k => LLM.backoff (retries + Z.of_nat k)) (seq 1 n).
Proof.
  revert retries. induction n as [|n IH]; intros retries; [reflexivity|].
  cbn [failing_trace]. fold (failing_trace (retries + 1) n).
  change (sleeps (EvCall ChatCompletionsCreate ::
                  EvSleep (LLM.backoff (retries + 1)) ::
                  failing_trace (retries + 1) n))
    with (LLM.backoff (retries + 1) :: sleeps (failing_trace (retries + 1) n)).
  rewrite IH. cbn [seq map]. f_equal.
  rewrite <- (seq_shift n 1), map_map. apply map_ext. intros k.
  f_equal. lia.
Qed.

(** A run none of whose attempts succeeds: every allowed attempt is made,
    with the backoff sleeps in between, and then the error is raised. *)
Lemma completion_loop_all_fail (attempt : World -> Effect string) (max_retries : Z) :
  (forall w, exists e, eff_outcome (attempt w) = Raised e) ->
  forall (n fuel : nat) (retries : Z) (w : World),
    (max_retries - retries = Z.of_nat n)%Z -> (n < fuel)%nat ->
    exists e w',
      LLM.completion_loop attempt max_retries fuel retries w = (Raised e, w') /\
      events w' = events w ++ failing_trace retries n.
Proof.
  intros Hfail. induction n as [|n IH]; intros fuel retries w Hn Hfuel;
    (destruct fuel as [|fuel]; [lia|]); cbn [LLM.completion_loop];
    (destruct (Z.leb_spec retries max_retries) as [_|?]; [|lia]); cbn [negb];
    unfold try_except, bind, invoke;
    destruct (Hfail (log (EvCall ChatCompletionsCreate) w)) as [e He];
    rewrite He.
  - destruct (Z.gtb_spec (retries + 1) max_retries) as [_|?]; [|lia].
    eexists _, _. split; [reflexivity|]. reflexivity.
  - destruct (Z.gtb_spec (retries + 1) max_retries) as [?|_]; [lia|].
    unfold sleep at 1. cbn [fst snd].
    match goal with
    | |- context [LLM.completion_loop _ _ fuel _ ?w1] =>
        destruct (IH fuel (retries + 1)%Z w1) as (e' & w' & Hrun & Hev);
          [lia | lia |]
    end.
    exists e', w'. split; [exact Hrun|].
    rewrite Hev. cbn [events log failing_trace].
    rewrite <- !app_assoc. reflexivity.
Qed.

Lemma get_completion_all_fail (client : LLM.LLMClient) (prompt : string)
    (model : option string) (temp : Q) (max_tokens : option Z)
    (max_retries : Z) (w : World) :
  (forall m p t k w0, exists e,
      eff_outcome (LLM.client_create client m p t k w0) = Raised e) ->
  (0 <= max_retries)%Z ->
  exists e w',
    LLM.get_completion client prompt model temp max_tokens max_retries w
      = (Raised e, w') /\
    new_events w w' = failing_trace 0 (Z.to_nat max_retries).
Proof.
  intros Hfail Hmax. unfold LLM.get_completion.
  destruct (completion_loop_all_fail
              (LLM.client_create client (LLM.model_or_default client model)
                 prompt temp max_tokens)
              max_retries (Hfail _ _ _ _)
              (Z.to_nat max_retries) (Z.to_nat (max_retries + 1)) 0%Z w)
    as (e & w' & Hrun & Hev); [lia | lia |].
  exists e, w'. split; [exact Hrun|]. now apply new_events_app.
Qed.

Lemma sleeps_all_fail (n : nat) :
  sleeps (failing_trace 0 n) = powers_of_two n.
Proof.
  rewrite sleeps_failing_trace. unfold powers_of_two. apply map_ext.
  intros k. unfold LLM.backoff. now rewrite Z.add_0_l.
Qed.

Lemma Qsum_Forall2 (l1 l2 : list Q) :
  Forall2 Qeq l1 l2 -> (Qsum l1 == Qsum l2)%Q.
Proof.
  induction 1 as [|x y l1 l2 Hxy _ IH]; cbn; [reflexivity|].
  now rewrite Hxy, IH.
Qed.

Lemma backoff_schedule_unit (n : nat) :
  Forall2 Qeq (powers_of_two n) (backoff_schedule 1 n).
Proof.
  unfold backoff_schedule. induction (powers_of_two n) as [|x l IH]; cbn.
  - constructor.
  - constructor; [|exact IH]. symmetry. apply Qmult_1_l.
Qed.

(** Every profile of [LLM_CONFIG] has a base delay of one second. *)
Lemma init_retry_base_delay (connect : string -> string -> LLM.Create)
    (api_name : option string) (client : LLM.LLMClient) :
  LLM.init connect api_name = Returned client ->
  LLM.retry_base_delay (LLM.client_config client) = 1%Q.
Proof.
  unfold LLM.init, LLM.get_api_config.
  assert (Hall : Forall (fun entry => LLM.retry_base_delay (snd entry) = 1%Q)
                   LLM.LLM_CONFIG) by (repeat constructor).
  destruct (List.find _ LLM.LLM_CONFIG) as [[name cfg]|] eqn:Hfind; [|discriminate].
  apply find_some in Hfind as [Hin _].
  rewrite Forall_forall in Hall. apply list_elem_of_In, Hall in Hin.
  destruct (String.eqb (LLM.api_key cfg) ""); [discriminate|].
  intros [= <-]. exact Hin.
Qed.

(** C6: an operation that always fails with a retryable error is attempted
    exactly [max_retries + 1] times before the wrapper raises; the sleep
    before retry [k] is [base_delay * 2^k] seconds, where the base delay is
    that of the client's profile, and the time slept in total is at least
    [base_delay * (2^1 + ... + 2^max_retries)]. *)
Theorem get_completion_retry_bound
    (connect : string -> string -> LLM.Create) (api_name : option string)
    (client : LLM.LLMClient) (prompt : string) (model : option string)
    (temp : Q) (max_tokens : option Z) (max_retries : Z) (w : World) :
  LLM.init connect api_name = Returned client ->
  (forall m p t k w0, exists e,
      eff_outcome (LLM.client_create client m p t k w0) = Raised e /\
      LLM.retryable_class (exn_class e) = true) ->
  (0 <= max_retries)%Z ->
  let base_delay := LLM.retry_base_delay (LLM.client_config client) in
  exists e w',
    LLM.get_completion client prompt model temp max_tokens max_retries w
      = (Raised e, w') /\
    count_calls ChatCompletionsCreate (new_events w w')
      = Z.to_nat (max_retries + 1) /\
    Forall2 Qeq (sleeps (new_events w w'))
      (backoff_schedule base_delay (Z.to_nat max_retries)) /\
    (base_delay * Qsum (powers_of_two (Z.to_nat max_retries))
     <= Qsum (sleeps (new_events w w')))%Q.
Proof.
  intros Hinit Hfail Hmax base_delay.
  assert (Hbase : base_delay = 1%Q) by (eapply init_retry_base_delay; eauto).
  destruct (get_completion_all_fail client prompt model temp max_tokens
              max_retries w) as (e & w' & Hrun & Hnew).
  { intros m p t k w0. destruct (Hfail m p t k w0) as (e & He & _). eauto. }
  { exact Hmax. }
  exists e, w'. rewrite Hnew, count_calls_failing_trace, sleeps_all_fail, Hbase.
  repeat split.
  - exact Hrun.
  - lia.
  - apply backoff_schedule_unit.
  - rewrite Qmult_1_l. apply Qle_refl.
Qed.

Lemma get_completion_retry_bound_witness :
  exists e w',
    LLM.get_completion offline_client "Summarise." None 0.2 None 2 empty_world
      = (Raised e, w') /\
    count_calls ChatCompletionsCreate (new_events empty_world w') = 3%nat /\
    Forall2 Qeq (sleeps (new_events empty_world w')) (backoff_schedule 1 2) /\
    (1 * Qsum (powers_of_two 2) <= Qsum (sleeps (new_events empty_world w')))%Q.
Proof.
  apply (get_completion_retry_bound offline_endpoint (Some "deepseek")
           offline_client "Summarise." None 0.2 None 2 empty_world).
  - reflexivity.
  - intros m p t k w0. eexists. split; reflexivity.
  - lia.
Defined.




(** C2, evaluated on the code: a run in which every collaborator succeeds
    at once ends as completed, yet the overall progress handed to the
    callback falls from 0.45 to 0 when the second stage starts, falls again
    when the fourth and the fifth stage start, and its last value is 0.5. *)
Theorem successful_run_progress_not_monotone :
  let run := Scenario.run Scenario.happy_env empty_world in
  let values := progress_values (new_events empty_world (snd run)) in
  option_map overall_status (Scenario.result_of run) = Some COMPLETED /\
  Forall2 Qeq values
    [0.30; 0.345; 0.45;
     0; 0.06; 0.30;
     0.75; 0.80; 0.875; 0.925; 1;
     0.50; 0.55; 0.625; 0.75;
     0.45; 0.465; 0.50]%Q /\
  nondecreasing values = false /\
  (List.last values 0 == 0.5)%Q.
Proof.
  vm_compute. repeat split; try discriminate.
  repeat (constructor; [reflexivity|]). constructor.
Qed.

(** ** The events of the stages *)

Lemma count_calls_nil (c : Collaborator) : count_calls c [] = 0%nat.
Proof. reflexivity. Qed.

Lemma count_calls_owned (c : Collaborator) (stage : ProcessingStage)
    (t : list Event) :
  Forall (owned_by stage) t -> collaborator_stage c <> Some stage ->
  count_calls c t = 0%nat.
Proof.
  intros Hall Hc. induction Hall as [|e t He _ IH]; [reflexivity|].
  rewrite count_calls_cons, IH.
  destruct e as [| |c'| |]; cbn; try reflexivity.
  case_bool_decide as Heq; [|reflexivity].
  subst c'. unfold owned_by in He. cbn in He. congruence.
Qed.

Lemma notify_progress_events (svc : Service) (stage : ProcessingStage)
    (p : Q) (msg : string) (w : World) :
  exists t, events (notify_progress svc stage p msg w) = events w ++ t /\
    Forall (owned_by stage) t /\ count_calls Stage1Process t = 0%nat /\
    count_calls ProcessPaperFolder t = 0%nat.
Proof.
  unfold notify_progress. destruct (progress_callback svc) as [callback|].
  - exists [EvProgress (make_progress_info stage p msg)].
    destruct (callback _); repeat split; try reflexivity;
      repeat constructor.
  - exists []. rewrite app_nil_r. repeat split; constructor.
Qed.

Lemma notify_progress_files (svc : Service) (stage : ProcessingStage)
    (p : Q) (msg : string) (w : World) :
  files (notify_progress svc stage p msg w) = files w /\
  now (notify_progress svc stage p msg w) = now w.
Proof.
  unfold notify_progress. destruct (progress_callback svc) as [callback|];
    [destruct (callback _)|]; split; reflexivity.
Qed.

Lemma notify_error_events (svc : Service) (stage : ProcessingStage)
    (e : Exn) (w : World) :
  exists t, events (notify_error svc stage e w) = events w ++ t /\
    Forall (owned_by stage) t /\ count_calls Stage1Process t = 0%nat /\
    count_calls ProcessPaperFolder t = 0%nat.
Proof.
  unfold notify_error. destruct (error_callback svc) as [callback|].
  - exists [EvError stage e].
    destruct (callback _ _); repeat split; try reflexivity;
      repeat constructor.
  - exists []. rewrite app_nil_r. repeat split; constructor.
Qed.

Lemma notify_error_now (svc : Service) (stage : ProcessingStage)
    (e : Exn) (w : World) :
  files (notify_error svc stage e w) = files w /\
  now (notify_error svc stage e w) = now w.
Proof.
  unfold notify_error. destruct (error_callback svc) as [callback|];
    [destruct (callback _ _)|]; split; reflexivity.
Qed.

Section Emits.

Context (stage : ProcessingStage).

Lemma emits_weaken {A} (n n' : nat) (P P' : A -> Prop) (m : M A) :
  emits stage n P m -> (n <= n')%nat -> (forall a, P a -> P' a) ->
  emits stage n' P' m.
Proof.
  intros Hm Hn HP w. destruct (Hm w) as (t & Hev & Hown & Hcnt & Hret).
  exists t. repeat split; auto. lia.
Qed.

Lemma emits_ret {A} (P : A -> Prop) (a : A) :
  P a -> emits stage 0 P (ret a).
Proof.
  intros HP w. exists []. cbn. rewrite app_nil_r.
  repeat split; [constructor | lia | congruence].
Qed.

Lemma emits_raise {A} (P : A -> Prop) (e : Exn) :
  emits stage 0 P (raise e).
Proof.
  intros w. exists []. cbn. rewrite app_nil_r.
  repeat split; [constructor | lia | discriminate].
Qed.

Lemma emits_of_outcome {A} (o : Outcome A) :
  emits stage 0 (fun _ => True) (of_outcome o).
Proof.
  intros w. exists []. cbn. rewrite app_nil_r.
  repeat split; [constructor | lia].
Qed.

Lemma emits_bind {A B} (n1 n2 : nat) (Q : A -> Prop) (P : B -> Prop)
    (m : M A) (k : A -> M B) :
  emits stage n1 Q m -> (forall a, Q a -> emits stage n2 P (k a)) ->
  emits stage (n1 + n2) P (bind m k).
Proof.
  intros Hm Hk w. unfold bind.
  destruct (Hm w) as (t1 & Hev1 & Hown1 & Hcnt1 & Hret1).
  destruct (m w) as [[a|e] w1]; cbn in *.
  - destruct (Hk a (Hret1 a eq_refl) w1) as (t2 & Hev2 & Hown2 & Hcnt2 & Hret2).
    exists (t1 ++ t2). rewrite Hev2, Hev1, app_assoc, count_calls_app.
    repeat split; [apply Forall_app; auto | lia | exact Hret2].
  - exists t1. repeat split; [exact Hev1 | exact Hown1 | lia | discriminate].
Qed.

Lemma emits_try_except {A} (n1 n2 : nat) (P : A -> Prop)
    (body : M A) (handler : Exn -> M A) :
  emits stage n1 P body -> (forall e, emits stage n2 P (handler e)) ->
  emits stage (n1 + n2) P (try_except body handler).
Proof.
  intros Hb Hh w. unfold try_except.
  destruct (Hb w) as (t1 & Hev1 & Hown1 & Hcnt1 & Hret1).
  destruct (body w) as [[a|e] w1]; cbn in *.
  - exists t1. repeat split; [exact Hev1 | exact Hown1 | lia | exact Hret1].
  - destruct (Hh e w1) as (t2 & Hev2 & Hown2 & Hcnt2 & Hret2).
    exists (t1 ++ t2). rewrite Hev2, Hev1, app_assoc, count_calls_app.
    repeat split; [apply Forall_app; auto | lia | exact Hret2].
Qed.

Lemma emits_progress (svc : Service) (p : Q) (msg : string) :
  emits stage 0 (fun _ => True) (effect (notify_progress svc stage p msg)).
Proof.
  intros w. destruct (notify_progress_events svc stage p msg w)
    as (t & Hev & Hown & Hcnt & _).
  exists t. cbn. repeat split; auto. lia.
Qed.

Lemma emits_invoke {A} (c : Collaborator) (oracle : World -> Effect A) :
  collaborator_stage c = Some stage ->
  emits stage 1 (fun _ => True) (invoke c oracle).
Proof.
  intros Hc w. exists [EvCall c]. unfold invoke. cbn [snd fst events log].
  repeat split; [repeat constructor; exact Hc |].
  rewrite count_calls_cons, count_calls_nil.
  destruct (is_call Stage1Process (EvCall c)); lia.
Qed.

Lemma emits_invoke_other {A} (c : Collaborator) (oracle : World -> Effect A) :
  collaborator_stage c = Some stage -> c <> Stage1Process ->
  emits stage 0 (fun _ => True) (invoke c oracle).
Proof.
  intros Hc Hne w. exists [EvCall c]. unfold invoke. cbn [snd fst events log].
  repeat split; [repeat constructor; exact Hc |].
  rewrite count_calls_cons, count_calls_nil. unfold is_call.
  rewrite bool_decide_eq_false_2 by exact Hne. lia.
Qed.

End Emits.

Lemma settles_completed (path : option string) : settles (sr_completed path).
Proof. intros r. split; [reflexivity | left; reflexivity]. Qed.

Lemma settles_completed_metadata (path : option string) (metadata : option Json) :
  settles (fun r => sr_with_metadata metadata (sr_completed path r)).
Proof. intros r. split; [reflexivity | left; reflexivity]. Qed.

Lemma settles_failed (msg : string) : settles (sr_failed msg None).
Proof. intros r. split; [reflexivity | right; split; [reflexivity | eexists; reflexivity]]. Qed.

(** The frame turns a well-behaved body into a well-behaved stage. *)
Lemma stage_frame_ok (env : Env) (svc : Service) (stage : ProcessingStage)
    (start_msg : string) (body : M (StageResult -> StageResult)) :
  emits stage 3 settles body ->
  stage_run_ok stage (stage_frame env svc stage start_msg body).
Proof.
  intros Hbody w. unfold stage_frame.
  destruct (notify_progress_events svc stage 0 start_msg w)
    as (t0 & Hev0 & Hown0 & Hcnt0 & _).
  set (w1 := notify_progress svc stage 0 start_msg w) in *.
  destruct (Hbody w1) as (t1 & Hev1 & Hown1 & Hcnt1 & Hret1).
  destruct (body w1) as [[assign|e] w2]; cbn in *.
  - exists (t0 ++ t1). rewrite Hev1, Hev0, app_assoc, count_calls_app.
    destruct (Hret1 assign eq_refl (new_stage_result stage IN_PROGRESS (Some (now w1))))
      as [Hstage Hstatus].
    repeat split; [apply Forall_app; auto | lia | exact Hstage | exact Hstatus].
  - destruct (notify_error_events svc stage e w2)
      as (t2 & Hev2 & Hown2 & Hcnt2 & _).
    exists (t0 ++ t1 ++ t2).
    rewrite Hev2, Hev1, Hev0, !count_calls_app, <- !app_assoc.
    repeat split; [repeat (apply Forall_app; split); auto | lia |].
    right. split; [reflexivity | eexists; reflexivity].
Qed.

Lemma emits_seq (stage : ProcessingStage) {A B} (n : nat) (Q : A -> Prop)
    (P : B -> Prop) (m : M A) (k : A -> M B) :
  emits stage 0 Q m -> (forall a, Q a -> emits stage n P (k a)) ->
  emits stage n P (bind m k).
Proof. intros Hm Hk. exact (emits_bind stage 0 n Q P m k Hm Hk). Qed.

Lemma emits_import (env : Env) (stage : ProcessingStage) (module : string) :
  emits stage 0 (fun _ => True) (import_module env module).
Proof.
  unfold import_module. destruct (import_error env module).
  - apply emits_raise.
  - now apply emits_ret.
Qed.

Lemma emits_template_path_item (stage : ProcessingStage) (svc : Service)
    (key : string) :
  emits stage 0 (fun _ => True) (template_path_item svc key).
Proof.
  unfold template_path_item. destruct (_ !! key).
  - now apply emits_ret.
  - apply emits_raise.
Qed.

Lemma emits_path_of (stage : ProcessingStage) (p : option string) :
  emits stage 0 (fun _ => True) (path_of p).
Proof.
  unfold path_of. destruct p.
  - now apply emits_ret.
  - apply emits_raise.
Qed.

(** The retry loop of stage 1 calls the collaborator at most
    [max_retries - retry_count] times. *)
Lemma emits_stage1_retry_loop (env : Env) (svc : Service)
    (pdf_path output_dir : string) (fuel retry_count : nat) :
  emits METADATA_EXTRACTION (max_retries - retry_count) (fun _ => True)
    (stage1_retry_loop env svc pdf_path output_dir fuel retry_count).
Proof.
  assert (Hleave : forall n, emits METADATA_EXTRACTION n (fun _ => True)
                               (ret (None : option Json))).
  { intros n. apply (emits_weaken _ 0 n (fun _ => True)); [|lia|auto].
    now apply emits_ret. }
  revert retry_count. induction fuel as [|fuel IH]; intros retry_count;
    cbn [stage1_retry_loop];
    destruct (Nat.ltb_spec retry_count max_retries) as [Hlt|Hge]; cbn [negb];
    try apply Hleave.
  replace (max_retries - retry_count)%nat
    with (1 + (max_retries - S retry_count))%nat by lia.
  apply emits_try_except.
  - eapply emits_seq; [apply emits_template_path_item|].
    intros template_path _. now apply emits_invoke.
  - intros e. destruct (_ && _).
    + eapply emits_seq; [apply emits_progress|]. intros _ _. apply IH.
    + apply (emits_weaken _ 0 _ (fun _ => True)); [apply emits_raise | lia | auto].
Qed.

Lemma emits_run_stage1_body (env : Env) (svc : Service)
    (pdf_path output_dir : string) :
  emits METADATA_EXTRACTION 3 settles (run_stage1_body env svc pdf_path output_dir).
Proof.
  unfold run_stage1_body.
  eapply emits_seq; [apply emits_import|]. intros _ _.
  eapply emits_seq; [apply emits_progress|]. intros _ _.
  apply (emits_bind METADATA_EXTRACTION 3 0 (fun _ => True));
    [apply (emits_stage1_retry_loop env svc pdf_path output_dir max_retries 0)|].
  intros [metadata|] _.
  - eapply emits_seq; [apply emits_progress|]. intros _ _.
    apply emits_ret, settles_completed_metadata.
  - apply emits_raise.
Qed.

Lemma emits_run_stage2_body (env : Env) (svc : Service)
    (pdf_path output_dir : string) :
  emits FULL_OCR 0 settles (run_stage2_body env svc pdf_path output_dir).
Proof.
  unfold run_stage2_body.
  eapply emits_seq; [apply emits_import|]. intros _ _.
  eapply emits_seq; [apply emits_progress|]. intros _ _.
  eapply emits_seq; [now apply emits_invoke_other|]. intros _ _.
  intros w. cbv beta. destruct (negb _); revert w.
  - apply emits_raise.
  - eapply emits_seq; [apply emits_progress|]. intros _ _.
    apply emits_ret, settles_completed.
Qed.

Lemma emits_run_stage3_body (env : Env) (svc : Service)
    (complete_md_path : option string) (output_dir : string) :
  emits STRUCTURE_PARSING 0 settles
    (run_stage3_body env svc complete_md_path output_dir).
Proof.
  unfold run_stage3_body.
  eapply emits_seq; [apply emits_import|]. intros _ _.
  eapply emits_seq; [apply emits_progress|]. intros _ _.
  eapply emits_seq; [now apply emits_invoke_other|]. intros structure_success _.
  destruct structure_success; cbn [negb]; [|apply emits_raise].
  eapply emits_seq; [apply emits_progress|]. intros _ _.
  eapply emits_seq; [apply emits_import|]. intros _ _.
  eapply emits_seq; [apply emits_path_of|]. intros md_path _.
  eapply emits_seq; [now apply emits_invoke_other|]. intros _ _.
  eapply emits_seq; [now apply emits_invoke_other|]. intros classification _.
  eapply emits_seq; [apply emits_progress|]. intros _ _.
  eapply emits_seq; [apply emits_of_outcome|]. intros paper_type _.
  eapply emits_seq; [now apply emits_invoke_other|]. intros _ _.
  eapply emits_seq; [apply emits_progress|]. intros _ _.
  apply emits_ret, settles_completed.
Qed.

Lemma emits_run_stage4_body (env : Env) (svc : Service)
    (structure_json_path : option string) (output_dir : string) :
  emits REPORT_GENERATION 0 settles
    (run_stage4_body env svc structure_json_path output_dir).
Proof.
  unfold run_stage4_body.
  eapply emits_seq; [apply emits_progress|]. intros _ _.
  eapply emits_seq; [apply emits_path_of|]. intros json_path _.
  intros w. cbv beta zeta.
  destruct (match glob env (files w) _ _ with [] => _ | _ => _ end); revert w.
  - apply emits_raise.
  - eapply emits_seq; [apply emits_progress|]. intros _ _.
    eapply emits_seq; [apply emits_import|]. intros _ _.
    eapply emits_seq; [now apply emits_invoke_other|]. intros final_report_path _.
    eapply emits_seq; [apply emits_progress|]. intros _ _.
    apply emits_ret, settles_completed.
Qed.

Lemma emits_run_stage5_body (env : Env) (svc : Service) (output_dir : string) :
  emits POST_PROCESSING 0 settles (run_stage5_body env svc output_dir).
Proof.
  unfold run_stage5_body.
  eapply emits_seq; [apply emits_progress|]. intros _ _.
  eapply emits_seq; [apply emits_import|]. intros _ _.
  eapply emits_seq; [now apply emits_invoke_other|]. intros post_result _.
  destruct (post_success post_result).
  - eapply emits_seq; [apply emits_progress|]. intros _ _.
    apply emits_ret, settles_completed.
  - apply emits_ret, settles_failed.
Qed.

Lemma run_stage1_ok (env : Env) (svc : Service) (pdf_path output_dir : string) :
  stage_run_ok METADATA_EXTRACTION (run_stage1 env svc pdf_path output_dir).
Proof. apply stage_frame_ok, emits_run_stage1_body. Qed.

Lemma run_stage2_ok (env : Env) (svc : Service) (pdf_path output_dir : string) :
  stage_run_ok FULL_OCR (run_stage2 env svc pdf_path output_dir).
Proof.
  apply stage_frame_ok. eapply emits_weaken;
    [apply emits_run_stage2_body | lia | auto].
Qed.

Lemma run_stage3_ok (env : Env) (svc : Service) (p : option string)
    (output_dir : string) :
  stage_run_ok STRUCTURE_PARSING (run_stage3 env svc p output_dir).
Proof.
  apply stage_frame_ok. eapply emits_weaken;
    [apply emits_run_stage3_body | lia | auto].
Qed.

Lemma run_stage4_ok (env : Env) (svc : Service) (p : option string)
    (output_dir : string) :
  stage_run_ok REPORT_GENERATION (run_stage4 env svc p output_dir).
Proof.
  apply stage_frame_ok. eapply emits_weaken;
    [apply emits_run_stage4_body | lia | auto].
Qed.

Lemma run_stage5_ok (env : Env) (svc : Service) (output_dir : string) :
  stage_run_ok POST_PROCESSING (run_stage5 env svc output_dir).
Proof.
  apply stage_frame_ok. eapply emits_weaken;
    [apply emits_run_stage5_body | lia | auto].
Qed.

(** ** The guarded block, section by section *)

Lemma stage_index_inj (s1 s2 : ProcessingStage) :
  stage_index s1 = stage_index s2 -> s1 = s2.
Proof. destruct s1, s2; cbn; congruence. Qed.

Lemma stage_index_bound (s : ProcessingStage) : (stage_index s < 5)%nat.
Proof. destruct s; cbn; lia. Qed.


Lemma owned_weaken (stage : ProcessingStage) (n : nat) (t : list Event) :
  Forall (owned_by stage) t -> (stage_index stage < n)%nat ->
  Forall (fun e => exists s, event_owner e = Some s /\ (stage_index s < n)%nat) t.
Proof.
  intros Hall Hn. eapply Forall_impl; [exact Hall|].
  intros e He. exists stage. split; [exact He | exact Hn].
Qed.

Lemma owned_mono (n n' : nat) (t : list Event) :
  Forall (fun e => exists s, event_owner e = Some s /\ (stage_index s < n)%nat) t ->
  (n <= n')%nat ->
  Forall (fun e => exists s, event_owner e = Some s /\ (stage_index s < n')%nat) t.
Proof.
  intros Hall Hn. eapply Forall_impl; [exact Hall|].
  intros e (s & He & Hs). exists s. split; [exact He | lia].
Qed.

Lemma owned_none (t : list Event) :
  Forall (fun e => exists s, event_owner e = Some s /\ (stage_index s < 0)%nat) t ->
  t = [].
Proof. destruct 1 as [|e t (s & _ & Hs) _]; [reflexivity | lia]. Qed.

(** Recording a stage result keeps the invariant's view of the map. *)
Lemma add_stage_result_present (r : PipelineResult) (sr : StageResult)
    (stage : ProcessingStage) :
  sr_stage sr = stage ->
  (forall s, is_Some (stages r !! s) <-> (stage_index s < stage_index stage)%nat) ->
  forall s, is_Some (stages (add_stage_result r sr) !! s)
            <-> (stage_index s < S (stage_index stage))%nat.
Proof.
  intros Hstage Hpresent s. cbn [add_stage_result stages]. rewrite Hstage.
  destruct (decide (stage = s)) as [->|Hne].
  - rewrite lookup_insert_eq. split; [lia | eauto].
  - rewrite lookup_insert_ne by exact Hne. rewrite Hpresent.
    assert (stage_index s <> stage_index stage)
      by (intros Heq; apply Hne; symmetry; now apply stage_index_inj).
    lia.
Qed.

Lemma add_stage_result_lookup (r : PipelineResult) (sr : StageResult)
    (stage s : ProcessingStage) (sr' : StageResult) :
  sr_stage sr = stage ->
  stages (add_stage_result r sr) !! s = Some sr' ->
  (s = stage /\ sr' = sr) \/ (s <> stage /\ stages r !! s = Some sr').
Proof.
  intros Hstage. cbn [add_stage_result stages]. rewrite Hstage.
  destruct (decide (stage = s)) as [->|Hne].
  - rewrite lookup_insert_eq. intros [= <-]. now left.
  - rewrite lookup_insert_ne by exact Hne. intros Hl. right. split; congruence.
Qed.

Section Block.

Context (env : Env) (svc : Service) (r0 : PipelineResult) (w1 : World).

(** The state in which a block ends the run by a wiring fault. *)
Lemma summarised_fault (stage : ProcessingStage) (e : Exn)
    (r : PipelineResult) (w : World) (t : list Event) :
  block_invariant r0 r (stage_index stage) t ->
  events w = events w1 ++ t ->
  wiring_fault env stage = Some e ->
  summarised env r0 w1 (r, Some e, w).
Proof.
  intros [Hpres Hstat Hown Hc1 Hc5 Hov Herr] Hev Hfault.
  exists (Faulted stage e), t. cbn [fst snd].
  constructor; cbn [reached]; try assumption; try discriminate.
  - rewrite Hc5. destruct (decide _); lia.
  - intros s sr Hl. destruct (Hstat s sr Hl). auto.
  - reflexivity.
  - intros s e' [= -> ->]. auto.
Qed.

(** The state in which a block ends the run because its stage failed. *)
Lemma summarised_failed (stage : ProcessingStage) (sr : StageResult)
    (r : PipelineResult) (w : World) (t ts : list Event) :
  block_invariant r0 r (stage_index stage) t ->
  events w = events w1 ++ t ++ ts ->
  Forall (owned_by stage) ts ->
  (stage = METADATA_EXTRACTION -> count_calls Stage1Process ts <= 3)%nat ->
  (count_calls ProcessPaperFolder ts <=
     if decide (stage = POST_PROCESSING) then 1 else 0)%nat ->
  sr_stage sr = stage -> sr_status sr = FAILED ->
  summarised env r0 w1
    (set_failed (add_stage_result r sr)
       (failure_prefix stage +:+ fmt_opt (sr_error_message sr)), None, w).
Proof.
  intros [Hpres Hstat Hown Hc1 Hc5 Hov Herr] Hev Howns Hs1 Hs5 Hstage Hfailed.
  exists (StageFailed stage), (t ++ ts). cbn [fst snd].
  constructor; cbn [reached set_failed stages overall_status pipeline_error];
    try discriminate.
  - exact Hev.
  - apply Forall_app. split.
    + eapply owned_mono; [exact Hown | lia].
    + apply (owned_weaken stage); [exact Howns | lia].
  - rewrite count_calls_app. destruct (decide (stage = METADATA_EXTRACTION)) as [->|Hne].
    + cbn in Hown. apply owned_none in Hown. subst t.
      rewrite count_calls_nil. specialize (Hs1 eq_refl). lia.
    + rewrite (count_calls_owned Stage1Process stage ts Howns); [lia|].
      cbn. congruence.
  - rewrite count_calls_app, Hc5. destruct stage; exact Hs5.
  - now apply add_stage_result_present.
  - intros s sr' Hl.
    destruct (add_stage_result_lookup r sr stage s sr' Hstage Hl)
      as [[-> ->]|[Hne Hl']].
    + split; [exact Hstage | right; split; [reflexivity | exact Hfailed]].
    + destruct (Hstat s sr' Hl'). split; [assumption | left; assumption].
  - reflexivity.
  - intros s [= <-]. exists sr. repeat split; try assumption.
    cbn [add_stage_result stages]. rewrite Hstage. apply lookup_insert_eq.
Qed.

(** A completed stage carries the invariant to the next block. *)
Lemma block_invariant_step (stage : ProcessingStage) (sr : StageResult)
    (r : PipelineResult) (t ts : list Event) :
  block_invariant r0 r (stage_index stage) t ->
  content_stage stage = true ->
  Forall (owned_by stage) ts ->
  (count_calls Stage1Process ts <= 3)%nat ->
  sr_stage sr = stage -> sr_status sr = COMPLETED ->
  block_invariant r0 (add_stage_result r sr) (S (stage_index stage)) (t ++ ts).
Proof.
  intros [Hpres Hstat Hown Hc1 Hc5 Hov Herr] Hcontent Howns Hs1 Hstage Hdone.
  constructor; cbn [add_stage_result overall_status pipeline_error];
    try assumption.
  - now apply add_stage_result_present.
  - intros s sr' Hl.
    destruct (add_stage_result_lookup r sr stage s sr' Hstage Hl)
      as [[-> ->]|[Hne Hl']]; [split; assumption | now apply Hstat].
  - apply Forall_app. split.
    + eapply owned_mono; [exact Hown | lia].
    + apply (owned_weaken stage); [exact Howns | lia].
  - rewrite count_calls_app. destruct (decide (stage = METADATA_EXTRACTION)) as [->|Hne].
    + cbn in Hown. apply owned_none in Hown. subst t.
      rewrite count_calls_nil. lia.
    + rewrite (count_calls_owned Stage1Process stage ts Howns); [lia|].
      cbn. congruence.
  - rewrite count_calls_app, Hc5.
    rewrite (count_calls_owned ProcessPaperFolder stage ts Howns); [reflexivity|].
    cbn. destruct stage; cbn in *; congruence.
Qed.

End Block.

(** Stage 5 calls the post-processor once, unless its module cannot be
    imported. *)
Lemma run_stage5_post_calls (env : Env) (svc : Service) (output_dir : string)
    (w : World) (t : list Event) :
  events (snd (run_stage5 env svc output_dir w)) = events w ++ t ->
  count_calls ProcessPaperFolder t =
  match import_error env "tools.stage5_post_processor" with
  | Some _ => 0%nat
  | None => 1%nat
  end.
Proof.
  unfold run_stage5, stage_frame, run_stage5_body, import_module, bind, effect,
    invoke, ret, raise.
  destruct (notify_progress_events svc POST_PROCESSING 0 "开始后处理..." w)
    as (t0 & Hev0 & _ & _ & Hc0).
  set (wa := notify_progress svc POST_PROCESSING 0 "开始后处理..." w) in *.
  destruct (notify_progress_events svc POST_PROCESSING 0.3 "清理中间文件..." wa)
    as (t1 & Hev1 & _ & _ & Hc1).
  set (wb := notify_progress svc POST_PROCESSING 0.3 "清理中间文件..." wa) in *.
  destruct (import_error env "tools.stage5_post_processor") as [e|];
    cbn [fst snd].
  { destruct (notify_error_events svc POST_PROCESSING e wb)
      as (t2 & Hev2 & _ & _ & Hc2).
    rewrite Hev2, Hev1, Hev0, <- !app_assoc. intros Heq.
    apply app_inv_head in Heq. subst t.
    rewrite !count_calls_app, Hc0, Hc1, Hc2. reflexivity. }
  set (call := process_paper_folder env output_dir (log (EvCall ProcessPaperFolder) wb)).
  set (wc := mkWorld (eff_files call)
               (now (log (EvCall ProcessPaperFolder) wb) + eff_elapsed call)%Q
               (events (log (EvCall ProcessPaperFolder) wb))).
  assert (Hevc : events wc = events w ++ t0 ++ t1 ++ [EvCall ProcessPaperFolder]).
  { subst wc. cbn [events log]. rewrite Hev1, Hev0, <- !app_assoc. reflexivity. }
  assert (Hcount : forall t2, count_calls ProcessPaperFolder t2 = 0%nat ->
            count_calls ProcessPaperFolder
              (t0 ++ t1 ++ [EvCall ProcessPaperFolder] ++ t2) = 1%nat).
  { intros t2 Hc2. rewrite !count_calls_app, Hc0, Hc1, Hc2. reflexivity. }
  destruct (eff_outcome call) as [post_result|e] eqn:Hcall; cbn [fst snd].
  - destruct (post_success post_result); cbn [fst snd].
    + destruct (notify_progress_events svc POST_PROCESSING 1 "后处理完成" wc)
        as (t2 & Hev2 & _ & _ & Hc2).
      rewrite Hev2, Hevc. intros Heq.
      rewrite <- !app_assoc in Heq. apply app_inv_head in Heq. subst t.
      now apply Hcount.
    + rewrite Hevc. intros Heq. apply app_inv_head in Heq. subst t.
      rewrite <- (app_nil_r [EvCall ProcessPaperFolder]). now apply Hcount.
  - destruct (notify_error_events svc POST_PROCESSING e wc)
      as (t2 & Hev2 & _ & _ & Hc2).
    rewrite Hev2, Hevc. intros Heq.
    rewrite <- !app_assoc in Heq. apply app_inv_head in Heq. subst t.
    now apply Hcount.
Qed.

Lemma run_stage5_post_calls_le (env : Env) (svc : Service) (output_dir : string)
    (w : World) (t : list Event) :
  events (snd (run_stage5 env svc output_dir w)) = events w ++ t ->
  (count_calls ProcessPaperFolder t <= 1)%nat.
Proof.
  intros Hev. rewrite (run_stage5_post_calls env svc output_dir w t Hev).
  destruct (import_error env _); lia.
Qed.

Lemma sr_success_checkpoint (stage : ProcessingStage) (t : Q) (path : string) :
  sr_success (checkpoint_result stage t path) = true.
Proof. reflexivity. Qed.

Section BlockSections.

Context (env : Env) (svc : Service) (r0 : PipelineResult) (w1 : World).

Lemma content_section_summarised (stage : ProcessingStage)
    (out_dir name : string) (run : World -> StageResult * World)
    (rest : StageResult -> Step) (r : PipelineResult) (w : World)
    (t : list Event) :
  block_invariant r0 r (stage_index stage) t ->
  events w = events w1 ++ t ->
  content_stage stage = true ->
  stage_run_ok stage run ->
  (forall sr r' w' t',
      block_invariant r0 r' (S (stage_index stage)) t' ->
      events w' = events w1 ++ t' ->
      summarised env r0 w1 (rest sr r' w')) ->
  summarised env r0 w1
    (content_section env svc stage out_dir name run rest r w).
Proof.
  intros Hinv Hev Hcontent Hrun Hrest. unfold content_section.
  destruct (wiring_fault env stage) as [e|] eqn:Hfault.
  { eapply summarised_fault; eauto. }
  destruct (check_stage_completed (files w) stage out_dir name).
  - destruct (notify_progress_events svc stage 1 (checkpoint_message stage) w)
      as (ts & Hevs & Howns & Hcs & _).
    rewrite sr_success_checkpoint. cbn [negb].
    apply (Hrest _ _ _ (t ++ ts)).
    + apply block_invariant_step; try assumption; try reflexivity. lia.
    + rewrite Hevs, Hev, app_assoc. reflexivity.
  - destruct (Hrun w) as (ts & Hevs & Howns & Hcs & Hstage & Hstatus).
    destruct (run w) as [sr w'] eqn:Hrw. cbn [fst snd] in *.
    unfold sr_success. destruct Hstatus as [Hdone|[Hfailed _]].
    + rewrite bool_decide_eq_true_2 by exact Hdone. cbn [negb].
      apply (Hrest _ _ _ (t ++ ts)).
      * now apply block_invariant_step.
      * rewrite Hevs, Hev, app_assoc. reflexivity.
    + rewrite bool_decide_eq_false_2 by (rewrite Hfailed; discriminate).
      cbn [negb]. apply (summarised_failed env r0 w1 stage sr r w' t ts);
        try assumption.
      * rewrite Hevs, Hev, app_assoc. reflexivity.
      * intros _. exact Hcs.
      * rewrite (count_calls_owned ProcessPaperFolder stage ts Howns).
        -- lia.
        -- destruct stage; try discriminate Hcontent; cbn; congruence.
Qed.

Lemma post_section_summarised (out_dir : string)
    (sr1 sr3 sr4 : StageResult) (r : PipelineResult) (w : World)
    (t : list Event) :
  block_invariant r0 r 4 t ->
  events w = events w1 ++ t ->
  summarised env r0 w1 (post_section env svc out_dir sr1 sr3 sr4 r w).
Proof.
  intros Hinv Hev. unfold post_section.
  destruct (wiring_fault env POST_PROCESSING) as [e|] eqn:Hfault.
  { eapply (summarised_fault env r0 w1 POST_PROCESSING); eauto. }
  destruct (run_stage5_ok env svc out_dir w)
    as (ts & Hevs & Howns & Hcs & Hstage & Hstatus).
  pose proof (run_stage5_post_calls_le env svc out_dir w ts Hevs) as Hpost.
  destruct (run_stage5 env svc out_dir w) as [sr5 w'] eqn:Hrw.
  cbn [fst snd] in *. unfold sr_success.
  destruct Hstatus as [Hdone|[Hfailed _]].
  - rewrite bool_decide_eq_true_2 by exact Hdone.
    destruct Hinv as [Hpres Hstat Hown Hc1 Hc5 Hov Herr].
    exists AllCompleted, (t ++ ts). cbn [fst snd].
    constructor; cbn [reached set_completed stages overall_status];
      try discriminate; try reflexivity.
    + rewrite Hevs, Hev, app_assoc. reflexivity.
    + apply Forall_app. split.
      * eapply owned_mono; [exact Hown | lia].
      * apply (owned_weaken POST_PROCESSING); [exact Howns | cbn; lia].
    + rewrite count_calls_app.
      rewrite (count_calls_owned Stage1Process POST_PROCESSING ts Howns);
        [lia | cbn; congruence].
    + rewrite count_calls_app, Hc5. exact Hpost.
    + now apply (add_stage_result_present r sr5 POST_PROCESSING).
    + intros s sr' Hl.
      destruct (add_stage_result_lookup r sr5 POST_PROCESSING s sr' Hstage Hl)
        as [[-> ->]|[Hne Hl']].
      * split; [exact Hstage | left; exact Hdone].
      * destruct (Hstat s sr' Hl'). split; [assumption | left; assumption].
  - rewrite bool_decide_eq_false_2 by (rewrite Hfailed; discriminate).
    apply (summarised_failed env r0 w1 POST_PROCESSING sr5 r w' t ts);
      try assumption.
    + rewrite Hevs, Hev, app_assoc. reflexivity.
    + discriminate.
Qed.

(** Every run of the guarded block has a summary. *)
Lemma guarded_block_summarised (pdf_path out_dir name : string) :
  stages r0 = ∅ ->
  summarised env r0 w1 (guarded_block env svc pdf_path out_dir name r0 w1).
Proof.
  intros Hempty. unfold guarded_block.
  assert (Hinit : block_invariant r0 r0 0 []).
  { constructor.
    - intros s. rewrite Hempty, lookup_empty. split; [intros [? [=]] | lia].
    - intros s sr. rewrite Hempty, lookup_empty. discriminate.
    - constructor.
    - rewrite count_calls_nil. lia.
    - reflexivity.
    - reflexivity.
    - reflexivity. }
  apply (content_section_summarised METADATA_EXTRACTION _ _ _ _ r0 w1 []);
    [exact Hinit | now rewrite app_nil_r | reflexivity | apply run_stage1_ok |].
  intros sr1 r1 wa t1 Hinv1 Hev1.
  apply (content_section_summarised FULL_OCR _ _ _ _ r1 wa t1);
    [exact Hinv1 | exact Hev1 | reflexivity | apply run_stage2_ok |].
  intros sr2 r2 wb t2 Hinv2 Hev2.
  apply (content_section_summarised STRUCTURE_PARSING _ _ _ _ r2 wb t2);
    [exact Hinv2 | exact Hev2 | reflexivity | apply run_stage3_ok |].
  intros sr3 r3 wc t3 Hinv3 Hev3.
  apply (content_section_summarised REPORT_GENERATION _ _ _ _ r3 wc t3);
    [exact Hinv3 | exact Hev3 | reflexivity | apply run_stage4_ok |].
  intros sr4 r4 wd t4 Hinv4 Hev4.
  now apply (post_section_summarised _ _ _ _ r4 wd t4).
Qed.

End BlockSections.

(** ** The whole run *)

(** A run that returns went through the guarded block, whose summary
    describes the result; its events are the creation of the output
    directory, those of the block and the serialization of the result. *)
Lemma process_paper_returned (env : Env) (svc : Service) (pdf_path : string)
    (w : World) (res : PipelineResult) (w' : World) :
  process_paper env svc pdf_path w = (Returned res, w') ->
  let name := path_stem env pdf_path in
  let out := Str.path_join (cfg_output_dir (config svc)) name in
  let r0 := initial_result pdf_path out name (now w) in
  let w1 := after_mkdir env out w in
  exists r raised w2 ending t,
    guarded_block env svc pdf_path out name r0 w1 = (r, raised, w2) /\
    block_summary env r0 w1 r raised w2 ending t /\
    res = set_end_time
            (match raised with Some e => handle_exception env e r | None => r end)
            (now w) (now w2) /\
    new_events w w' =
      EvCall Mkdir :: t ++ [EvSave (Str.path_join out "pipeline_result.json") res].
Proof.
  intros Hrun name out r0 w1. unfold process_paper in Hrun.
  fold name in Hrun. fold out in Hrun. fold r0 in Hrun.
  unfold after_mkdir in w1.
  destruct (invoke Mkdir (os_mkdir env out) w) as [[[]|e] wm] eqn:Hmk;
    [|discriminate].
  assert (Hevm : events wm = events w ++ [EvCall Mkdir]).
  { unfold invoke in Hmk. injection Hmk as _ <-. reflexivity. }
  cbn [snd] in w1. subst w1.
  destruct (guarded_block_summarised env svc r0 wm pdf_path out name eq_refl)
    as (ending & t & Hsum).
  destruct (guarded_block env svc pdf_path out name r0 wm) as [[r raised] w2].
  cbn [fst snd] in Hsum.
  unfold save_to_file in Hrun.
  destruct (eff_outcome _) eqn:Hsave; [|discriminate].
  injection Hrun as <- <-.
  exists r, raised, w2, ending, t.
  split; [reflexivity|]. split; [exact Hsum|]. split; [reflexivity|].
  apply new_events_app. cbn [events log].
  rewrite (bs_events _ _ _ _ _ _ _ _ Hsum), Hevm, <- !app_assoc. reflexivity.
Qed.

Lemma count_calls_run (c : Collaborator) (t : list Event) (path : string)
    (res : PipelineResult) :
  c <> Mkdir ->
  count_calls c (EvCall Mkdir :: t ++ [EvSave path res]) = count_calls c t.
Proof.
  intros Hc. rewrite count_calls_cons, count_calls_app, count_calls_cons.
  cbn [is_call]. rewrite bool_decide_eq_false_2 by congruence.
  rewrite count_calls_nil. lia.
Qed.

Lemma stages_set_end_time (r : PipelineResult) (start finish : Q) :
  stages (set_end_time r start finish) = stages r.
Proof. reflexivity. Qed.

Lemma get_failed_stages_only (res : PipelineResult) (k : ProcessingStage) :
  (forall s, match stages res !! s with
             | Some sr => bool_decide (sr_status sr = FAILED)
             | None => false
             end = bool_decide (s = k)) ->
  get_failed_stages res = [k].
Proof.
  intros Hf. unfold get_failed_stages.
  rewrite (List.filter_ext _ (fun s => bool_decide (s = k)) Hf).
  destruct k; reflexivity.
Qed.


(** C4, amended: when the four content stages are all recorded as
    completed, the post-processing stage has been run (it has a result,
    and the post-processor was called at most once) and it decides the
    overall status: completed if it completed; if it failed, the pipeline
    is failed and its error names the fifth stage. *)
Theorem post_processing_decides_status
    (env : Env) (svc : Service) (pdf_path : string) (w : World)
    (res : PipelineResult) (w' : World) :
  process_paper env svc pdf_path w = (Returned res, w') ->
  (forall s, content_stage s = true ->
     exists sr, stages res !! s = Some sr /\ sr_status sr = COMPLETED) ->
  (count_calls ProcessPaperFolder (new_events w w') <= 1)%nat /\
  exists sr5,
    stages res !! POST_PROCESSING = Some sr5 /\
    ((sr_status sr5 = COMPLETED /\ overall_status res = COMPLETED) \/
     (sr_status sr5 = FAILED /\ overall_status res = FAILED /\
      pipeline_error res =
        Some (failure_prefix POST_PROCESSING +:+
              fmt_opt (sr_error_message sr5)))).
Proof.
  intros Hrun Hall.
  destruct (process_paper_returned env svc pdf_path w res w' Hrun)
    as (r & raised & w2 & ending & t & _ & Hsum & Hres & Hnew).
  destruct Hsum as [Hev Hown Hc1 Hc5 Hpres Hstat Hraised Hfault Hfail Hdone].
  rewrite Hnew, count_calls_run by discriminate.
  destruct ending as [s e|s|].
  - (* a wiring fault: stage 1 is recorded as failed *)
    exfalso. subst raised res.
    destruct (Hall METADATA_EXTRACTION eq_refl) as (sr & Hl & Hs).
    cbn [set_end_time handle_exception add_stage_result set_failed stages
           sr_stage] in Hl.
    rewrite lookup_insert_eq in Hl. injection Hl as <-. discriminate.
  - subst raised res. rewrite stages_set_end_time in *.
    destruct (Hfail s eq_refl) as (sr & Hl & Hs & Hov & Herr).
    destruct (content_stage s) eqn:Hcontent.
    + exfalso. destruct (Hall s Hcontent) as (sr' & Hl' & Hs'). congruence.
    + destruct s; try discriminate. split; [exact Hc5|].
      exists sr. split; [exact Hl|]. right. auto.
  - subst raised res. rewrite stages_set_end_time in *. split; [exact Hc5|].
    destruct (proj2 (Hpres POST_PROCESSING)) as [sr5 Hl]; [cbn; lia|].
    exists sr5. split; [exact Hl|]. left.
    destruct (Hstat _ _ Hl) as [_ [Hc|[? _]]]; [|discriminate].
    split; [exact Hc | now apply Hdone].
Qed.


(** C4, as stated, fails: on an output directory that holds the artifacts
    of the four content stages, all four are recorded as completed, the
    post-processor raises, and the pipeline is reported failed. *)
Lemma post_processing_failure_fails_pipeline :
  let run := Scenario.run Scenario.post_failing_env Scenario.resumed_world in
  map (Scenario.status_in run) pipeline_order =
    [Some COMPLETED; Some COMPLETED; Some COMPLETED; Some COMPLETED;
     Some FAILED] /\
  option_map overall_status (Scenario.result_of run) = Some FAILED /\
  option_map overall_status (Scenario.result_of run) <> Some COMPLETED /\
  (Scenario.result_of run ≫= pipeline_error) =
    Some "第五阶段失败: [Errno 13] Permission denied".
Proof.
  vm_compute. repeat split; discriminate.
Qed.

Lemma post_processing_decides_status_witness :
  exists res w',
    process_paper Scenario.post_failing_env Scenario.service Scenario.pdf
      Scenario.resumed_world = (Returned res, w') /\
    (forall s, content_stage s = true ->
       exists sr, stages res !! s = Some sr /\ sr_status sr = COMPLETED) /\
    (count_calls ProcessPaperFolder (new_events Scenario.resumed_world w') <= 1)%nat /\
    exists sr5,
      stages res !! POST_PROCESSING = Some sr5 /\
      ((sr_status sr5 = COMPLETED /\ overall_status res = COMPLETED) \/
       (sr_status sr5 = FAILED /\ overall_status res = FAILED /\
        pipeline_error res =
          Some (failure_prefix POST_PROCESSING +:+
                fmt_opt (sr_error_message sr5)))).
Proof.
  eexists _, _.
  split; [vm_compute; reflexivity|].
  match goal with |- ?all_completed /\ _ =>
    assert (Hall : all_completed); [|split; [exact Hall|]]
  end.
  - intros s Hs. destruct s; try discriminate Hs;
      (eexists; split; [vm_compute; reflexivity | reflexivity]).
  - eapply (post_processing_decides_status Scenario.post_failing_env
              Scenario.service Scenario.pdf Scenario.resumed_world _ _).
    + vm_compute; reflexivity.
    + exact Hall.
Defined.

(** ** Exceptions and the final report *)

Lemma sleeps_run (t : list Event) (path : string) (res : PipelineResult) :
  Forall (fun e => exists s, event_owner e = Some s /\ (stage_index s < 5)%nat) t ->
  sleeps (EvCall Mkdir :: t ++ [EvSave path res]) = [].
Proof.
  intros Hown. change (sleeps (EvCall Mkdir :: ?l)) with (sleeps l).
  rewrite sleeps_app. change (sleeps [EvSave path res]) with (@nil Q).
  rewrite app_nil_r. induction Hown as [|e t (s & He & _) _ IH]; [reflexivity|].
  destruct e; cbn in He; try discriminate; exact IH.
Qed.




(** ** Configuration fields that are not read *)

(** The events of any run, however it ends: the creation of the output
    directory, then events of the stages, then the serialization. *)
Lemma process_paper_trace (env : Env) (svc : Service) (pdf_path : string)
    (w : World) :
  exists t,
    Forall (fun e => exists s, event_owner e = Some s /\ (stage_index s < 5)%nat) t /\
    (count_calls Stage1Process t <= 3)%nat /\
    (new_events w (snd (process_paper env svc pdf_path w)) = [EvCall Mkdir] \/
     exists path res,
       new_events w (snd (process_paper env svc pdf_path w))
         = EvCall Mkdir :: t ++ [EvSave path res]).
Proof.
  unfold process_paper.
  set (name := path_stem env pdf_path).
  set (out := Str.path_join (cfg_output_dir (config svc)) name).
  destruct (invoke Mkdir (os_mkdir env out) w) as [[[]|e] wm] eqn:Hmk.
  - assert (Hevm : events wm = events w ++ [EvCall Mkdir]).
    { unfold invoke in Hmk. injection Hmk as _ <-. reflexivity. }
    destruct (guarded_block_summarised env svc
                (initial_result pdf_path out name (now w)) wm pdf_path out name
                eq_refl) as (ending & t & Hsum).
    destruct (guarded_block env svc pdf_path out name _ wm) as [[r raised] w2].
    cbn [fst snd] in Hsum.
    destruct Hsum as [Hev Hown Hc1 _ _ _ _ _ _ _].
    exists t. split; [|split; [exact Hc1|]].
    + eapply owned_mono; [exact Hown|].
      destruct ending as [s ?|s|]; cbn; [| |lia];
        pose proof (stage_index_bound s); lia.
    + right. unfold save_to_file. eexists _, _.
      destruct (eff_outcome _); cbn [snd]; apply new_events_app;
        cbn [events log]; rewrite Hev, Hevm, <- !app_assoc; reflexivity.
  - exists []. split; [constructor|]. split; [rewrite count_calls_nil; lia|].
    left. cbn [snd]. apply new_events_app.
    unfold invoke in Hmk. injection Hmk as _ <-. reflexivity.
Qed.

(** C10: the value of [max_retry_attempts] has no influence on a run,
    whatever the surroundings and the input; the stage-1 collaborator is
    called at most three times, the bound written in the code, and the
    orchestrator never sleeps between attempts. *)
Theorem max_retry_attempts_is_not_read
    (env : Env) (cfg : PipelineConfig)
    (progress : option (ProgressInfo -> Outcome unit))
    (error : option (ProcessingStage -> Exn -> Outcome unit))
    (n : Z) (pdf_path : string) (w : World) :
  let svc := mkService cfg progress error in
  let svc' := mkService (with_max_retry_attempts cfg n) progress error in
  process_paper env svc' pdf_path w = process_paper env svc pdf_path w /\
  (count_calls Stage1Process
     (new_events w (snd (process_paper env svc pdf_path w))) <= 3)%nat /\
  sleeps (new_events w (snd (process_paper env svc pdf_path w))) = [].
Proof.
  intros svc svc'. split; [destruct cfg; reflexivity|].
  destruct (process_paper_trace env svc pdf_path w)
    as (t & Hown & Hc1 & [Hnew|(path & res & Hnew)]); rewrite Hnew.
  - split; [|reflexivity].
    change (count_calls Stage1Process [EvCall Mkdir]) with 0%nat. lia.
  - split; [rewrite count_calls_run by discriminate; exact Hc1|].
    now apply sleeps_run.
Qed.

(** ** Resumption *)

Lemma checkpoint_output_exists (fs : gset string) (stage : ProcessingStage)
    (out name : string) :
  content_stage stage = true ->
  check_stage_completed fs stage out name = true ->
  checkpoint_output fs stage out name ∈ fs.
Proof.
  intros Hcontent Hcheck. apply path_exists_true.
  destruct stage; try discriminate Hcontent;
    cbn [check_stage_completed checkpoint_output] in *.
  - now apply andb_true_iff in Hcheck as [? _].
  - exact Hcheck.
  - now apply andb_true_iff in Hcheck as [_ ?].
  - unfold first_existing.
    destruct (List.find _ _) as [f|] eqn:Hfind.
    + now apply find_some in Hfind as [_ ?].
    + apply existsb_exists in Hcheck as (f & Hin & Hf).
      rewrite (find_none _ _ Hfind f Hin) in Hf. discriminate.
Qed.

Lemma checkpointed_same_disk (stage : ProcessingStage) (out name : string)
    (wa wb : World) :
  files wa = files wb -> now wa = now wb ->
  checkpointed stage out name wa = checkpointed stage out name wb.
Proof. unfold checkpointed. now intros -> ->. Qed.

(** A block whose stage is found complete records the checkpoint result
    and goes on, without consulting the stage function. *)
Lemma content_section_checkpointed (env : Env) (svc : Service)
    (stage : ProcessingStage) (out name : string)
    (run : World -> StageResult * World) (rest : StageResult -> Step)
    (r : PipelineResult) (wx : World) :
  wiring_fault env stage = None ->
  check_stage_completed (files wx) stage out name = true ->
  content_section env svc stage out name run rest r wx
  = rest (checkpointed stage out name wx)
      (add_stage_result r (checkpointed stage out name wx))
      (notify_progress svc stage 1 (checkpoint_message stage) wx).
Proof.
  intros Hfault Hcheck. unfold content_section. rewrite Hfault, Hcheck.
  fold (checkpointed stage out name
          (notify_progress svc stage 1 (checkpoint_message stage) wx)).
  destruct (notify_progress_files svc stage 1 (checkpoint_message stage) wx)
    as [Hf Hn].
  rewrite (checkpointed_same_disk stage out name _ wx Hf Hn).
  unfold checkpointed at 1. rewrite sr_success_checkpoint. reflexivity.
Qed.

Lemma notify_progress_no_calls (svc : Service) (stage : ProcessingStage)
    (p : Q) (msg : string) (w : World) :
  exists t, events (notify_progress svc stage p msg w) = events w ++ t /\
    forall c, count_calls c t = 0%nat.
Proof.
  unfold notify_progress. destruct (progress_callback svc) as [callback|].
  - exists [EvProgress (make_progress_info stage p msg)].
    destruct (callback _); split; reflexivity.
  - exists []. now rewrite app_nil_r.
Qed.

Lemma sr_stage_checkpointed (stage : ProcessingStage) (out name : string)
    (w : World) :
  sr_stage (checkpointed stage out name w) = stage.
Proof. reflexivity. Qed.

(** C1, amended: a content stage found complete by the detector is
    recorded as completed, not as skipped, with a processing time of 0 and
    an existing artifact as its output, and the stage function is not
    consulted.  Consequently a run on an output directory that holds the
    artifacts of all four content stages records the four of them so,
    calls none of their collaborators, runs the post-processing stage
    again (with one call of the post-processor, if its module can be
    imported), and is completed exactly when that stage completes. *)
Theorem checkpointed_stages_are_completed
    (env : Env) (svc : Service) (pdf_path : string) (w : World) :
  let name := path_stem env pdf_path in
  let out := Str.path_join (cfg_output_dir (config svc)) name in
  let w1 := after_mkdir env out w in
  (forall stage run rest r wx,
     content_stage stage = true ->
     wiring_fault env stage = None ->
     check_stage_completed (files wx) stage out name = true ->
     let sr := checkpointed stage out name wx in
     content_section env svc stage out name run rest r wx
       = rest sr (add_stage_result r sr)
           (notify_progress svc stage 1 (checkpoint_message stage) wx) /\
     sr_status sr = COMPLETED /\
     sr_processing_time sr = 0%Q /\
     exists path, sr_output_path sr = Some path /\ path ∈ files wx) /\
  (eff_outcome (os_mkdir env out (log (EvCall Mkdir) w)) = Returned tt ->
   (forall path r wx, eff_outcome (write_json env path r wx) = Returned tt) ->
   (forall s, wiring_fault env s = None) ->
   (forall s, content_stage s = true ->
      check_stage_completed (files w1) s out name = true) ->
   exists res w',
     process_paper env svc pdf_path w = (Returned res, w') /\
     (forall s, content_stage s = true ->
        stages res !! s = Some (checkpointed s out name w1)) /\
     (forall c, c <> Mkdir -> c <> ProcessPaperFolder ->
        count_calls c (new_events w w') = 0%nat) /\
     count_calls ProcessPaperFolder (new_events w w') =
       match import_error env "tools.stage5_post_processor" with
       | Some _ => 0%nat
       | None => 1%nat
       end /\
     exists sr5,
       stages res !! POST_PROCESSING = Some sr5 /\
       (sr_status sr5 = COMPLETED \/ sr_status sr5 = FAILED) /\
       (overall_status res = COMPLETED <-> sr_status sr5 = COMPLETED)).
Proof.
  intros name out w1. split.
  { intros stage run rest r wx Hcontent Hfault Hcheck sr.
    split; [now apply content_section_checkpointed|].
    split; [reflexivity|]. split; [reflexivity|].
    eexists. split; [reflexivity|]. now apply checkpoint_output_exists. }
  intros Hmk Hsave Hnofault Hchecks.
  assert (Hinv : invoke Mkdir (os_mkdir env out) w = (Returned tt, w1)).
  { unfold w1, after_mkdir, invoke. cbn [snd]. rewrite Hmk. reflexivity. }
  assert (Hev1 : events w1 = events w ++ [EvCall Mkdir]) by reflexivity.
  unfold process_paper. fold name. fold out. rewrite Hinv.
  unfold guarded_block.
  set (r0 := initial_result pdf_path out name (now w)).
  (* the four blocks *)
  rewrite content_section_checkpointed by auto.
  set (wa := notify_progress svc METADATA_EXTRACTION 1 _ w1).
  destruct (notify_progress_files svc METADATA_EXTRACTION 1
              (checkpoint_message METADATA_EXTRACTION) w1) as [Hfa Hna].
  destruct (notify_progress_no_calls svc METADATA_EXTRACTION 1
              (checkpoint_message METADATA_EXTRACTION) w1) as (na & Heva & Hca).
  fold wa in Hfa, Hna, Heva.
  rewrite content_section_checkpointed by (rewrite ?Hfa; auto).
  set (wb := notify_progress svc FULL_OCR 1 _ wa).
  destruct (notify_progress_files svc FULL_OCR 1
              (checkpoint_message FULL_OCR) wa) as [Hfb Hnb].
  destruct (notify_progress_no_calls svc FULL_OCR 1
              (checkpoint_message FULL_OCR) wa) as (nb & Hevb & Hcb).
  fold wb in Hfb, Hnb, Hevb.
  rewrite content_section_checkpointed by (rewrite ?Hfb, ?Hfa; auto).
  set (wc := notify_progress svc STRUCTURE_PARSING 1 _ wb).
  destruct (notify_progress_files svc STRUCTURE_PARSING 1
              (checkpoint_message STRUCTURE_PARSING) wb) as [Hfc Hnc].
  destruct (notify_progress_no_calls svc STRUCTURE_PARSING 1
              (checkpoint_message STRUCTURE_PARSING) wb) as (nc & Hevc & Hcc).
  fold wc in Hfc, Hnc, Hevc.
  rewrite content_section_checkpointed by (rewrite ?Hfc, ?Hfb, ?Hfa; auto).
  set (wd := notify_progress svc REPORT_GENERATION 1 _ wc).
  destruct (notify_progress_no_calls svc REPORT_GENERATION 1
              (checkpoint_message REPORT_GENERATION) wc) as (nd & Hevd & Hcd).
  fold wd in Hevd.
  rewrite (checkpointed_same_disk FULL_OCR out name wa w1) by congruence.
  rewrite (checkpointed_same_disk STRUCTURE_PARSING out name wb w1) by congruence.
  rewrite (checkpointed_same_disk REPORT_GENERATION out name wc w1) by congruence.
  (* the post-processing block *)
  unfold post_section. rewrite Hnofault.
  destruct (run_stage5_ok env svc out wd)
    as (t5 & Hev5 & Hown5 & _ & Hstage5 & Hstatus5).
  pose proof (run_stage5_post_calls env svc out wd t5 Hev5) as Hpost.
  destruct (run_stage5 env svc out wd) as [sr5 w5]. cbn [fst snd] in *.
  assert (Hnew : forall (res : PipelineResult) w',
            events w' = events w5 ++ [EvSave (Str.path_join out "pipeline_result.json") res] ->
            new_events w w' = EvCall Mkdir :: (na ++ nb ++ nc ++ nd ++ t5)
              ++ [EvSave (Str.path_join out "pipeline_result.json") res]).
  { intros res w' Hw'. apply new_events_app.
    rewrite Hw', Hev5, Hevd, Hevc, Hevb, Heva, Hev1, <- !app_assoc. reflexivity. }
  assert (Hcalls : forall c, c <> ProcessPaperFolder ->
            count_calls c (na ++ nb ++ nc ++ nd ++ t5) = 0%nat).
  { intros c Hc. rewrite !count_calls_app, Hca, Hcb, Hcc, Hcd.
    rewrite (count_calls_owned c POST_PROCESSING t5 Hown5); [reflexivity|].
    destruct c; cbn; congruence. }
  assert (Hcalls5 : count_calls ProcessPaperFolder (na ++ nb ++ nc ++ nd ++ t5)
                    = match import_error env "tools.stage5_post_processor" with
                      | Some _ => 0%nat
                      | None => 1%nat
                      end).
  { rewrite !count_calls_app, Hca, Hcb, Hcc, Hcd, Hpost. reflexivity. }
  unfold sr_success, save_to_file.
  destruct Hstatus5 as [Hdone|[Hfailed _]];
    [rewrite bool_decide_eq_true_2 by exact Hdone
    |rewrite bool_decide_eq_false_2 by (rewrite Hfailed; discriminate)];
    cbn beta iota zeta;
    match goal with
    | |- context [eff_outcome (write_json env ?p ?r ?wx)] =>
        rewrite (Hsave p r wx)
    end;
    (eexists _, _; split; [reflexivity|]);
    cbn [set_end_time set_completed set_failed add_stage_result stages
           overall_status];
    rewrite !sr_stage_checkpointed, Hstage5;
    (split; [|split; [|split]]).
  - intros s Hs. destruct s; try discriminate Hs;
      repeat (rewrite lookup_insert_ne by discriminate);
      apply lookup_insert_eq.
  - intros c Hc Hc'. erewrite Hnew by reflexivity.
    rewrite count_calls_run by exact Hc. now apply Hcalls.
  - erewrite Hnew by reflexivity.
    rewrite count_calls_run by discriminate. exact Hcalls5.
  - exists sr5. rewrite lookup_insert_eq. split; [reflexivity|].
    split; [now left | tauto].
  - intros s Hs. destruct s; try discriminate Hs;
      repeat (rewrite lookup_insert_ne by discriminate);
      apply lookup_insert_eq.
  - intros c Hc Hc'. erewrite Hnew by reflexivity.
    rewrite count_calls_run by exact Hc. now apply Hcalls.
  - erewrite Hnew by reflexivity.
    rewrite count_calls_run by discriminate. exact Hcalls5.
  - exists sr5. rewrite lookup_insert_eq. split; [reflexivity|].
    split; [now right|]. rewrite Hfailed. split; discriminate.
Qed.

Lemma checkpointed_stages_are_completed_witness :
  let env := Scenario.happy_env in
  let w := Scenario.resumed_world in
  let w1 := after_mkdir env "out/p1" w in
  eff_outcome (os_mkdir env "out/p1" (log (EvCall Mkdir) w)) = Returned tt /\
  (forall path r wx, eff_outcome (write_json env path r wx) = Returned tt) /\
  (forall s, wiring_fault env s = None) /\
  (forall s, content_stage s = true ->
     check_stage_completed (files w1) s "out/p1" "p1" = true) /\
  exists res w',
    process_paper env Scenario.service Scenario.pdf w = (Returned res, w') /\
    (forall s, content_stage s = true ->
       stages res !! s = Some (checkpointed s "out/p1" "p1" w1)) /\
    (forall c, c <> Mkdir -> c <> ProcessPaperFolder ->
       count_calls c (new_events w w') = 0%nat) /\
    count_calls ProcessPaperFolder (new_events w w') = 1%nat /\
    exists sr5,
      stages res !! POST_PROCESSING = Some sr5 /\
      (sr_status sr5 = COMPLETED \/ sr_status sr5 = FAILED) /\
      (overall_status res = COMPLETED <-> sr_status sr5 = COMPLETED).
Proof.
  intros env w w1.
  assert (Hchecks : forall s, content_stage s = true ->
            check_stage_completed (files w1) s "out/p1" "p1" = true).
  { intros s Hs. destruct s; try discriminate Hs; vm_compute; reflexivity. }
  split; [reflexivity|]. split; [reflexivity|]. split; [reflexivity|].
  split; [exact Hchecks|].
  apply (proj2 (checkpointed_stages_are_completed env Scenario.service
                  Scenario.pdf w));
    [reflexivity | reflexivity | reflexivity | exact Hchecks].
Defined.

(** C1, as stated, fails: on an output directory that holds the artifacts
    of the four content stages, the detector reports each of them
    complete, and each is recorded as completed, not as skipped; the fifth
    stage is not skipped either: the post-processor runs again. *)
Lemma resumed_run_records_completed_not_skipped :
  let run := Scenario.run Scenario.happy_env Scenario.resumed_world in
  let w1 := after_mkdir Scenario.happy_env "out/p1" Scenario.resumed_world in
  (forall s, content_stage s = true ->
     check_stage_completed (files w1) s "out/p1" "p1" = true) /\
  map (Scenario.status_in run) pipeline_order =
    [Some COMPLETED; Some COMPLETED; Some COMPLETED; Some COMPLETED;
     Some COMPLETED] /\
  ~ (forall s, Scenario.status_in run s = Some SKIPPED) /\
  count_calls ProcessPaperFolder
    (new_events Scenario.resumed_world (snd run)) = 1%nat.
Proof.
  split; [|split; [|split]].
  - intros s Hs. destruct s; try discriminate Hs; vm_compute; reflexivity.
  - vm_compute. reflexivity.
  - intros Hall. specialize (Hall METADATA_EXTRACTION).
    vm_compute in Hall. discriminate.
  - vm_compute. reflexivity.
Qed.

(** With the post-processor as it is written, a completed first run leaves
    none of the four checkpoints behind (it deletes the first-pages text
    and renames the other artifacts), so a second run on the same
    directory executes the four content stages again. *)
Lemma second_run_executes_stages_again :
  let first := Scenario.run tidy_env empty_world in
  let second := Scenario.run tidy_env (snd first) in
  option_map overall_status (Scenario.result_of first) = Some COMPLETED /\
  map (fun s => check_stage_completed (files (snd first)) s "out/p1" "p1")
    pipeline_order = [false; false; false; false; false] /\
  map (fun c => count_calls c (new_events (snd first) (snd second)))
    [Stage1Process; Stage2Process; ProcessPaperStructure; ProcessPaperReport;
     ProcessPaperFolder] = [1; 1; 1; 1; 1]%nat /\
  map (Scenario.status_in second) pipeline_order =
    [Some COMPLETED; Some COMPLETED; Some COMPLETED; Some COMPLETED;
     Some COMPLETED].
Proof.
  vm_compute. repeat split.
Qed.

(** ** Adequacy of the loop bounds and further scenarios *)

(** More fuel than the retry loop of [get_completion] needs changes
    nothing: the loop always ends by its own condition or by a raise. *)
Lemma completion_loop_enough_fuel (attempt : World -> Effect string)
    (max_retries : Z) (fuel1 fuel2 : nat) (retries : Z) (w : World) :
  (Z.to_nat (max_retries + 1 - retries) <= fuel1)%nat ->
  (Z.to_nat (max_retries + 1 - retries) <= fuel2)%nat ->
  LLM.completion_loop attempt max_retries fuel1 retries w
  = LLM.completion_loop attempt max_retries fuel2 retries w.
Proof.
  revert fuel2 retries w.
  induction fuel1 as [|fuel1 IH]; intros [|fuel2] retries w H1 H2;
    cbn [LLM.completion_loop];
    destruct (Z.leb_spec retries max_retries) as [Hle|Hgt]; cbn [negb];
    try reflexivity; try lia.
  unfold try_except, bind.
  destruct (invoke ChatCompletionsCreate attempt w) as [[content|e] wa];
    [reflexivity|].
  destruct (Z.gtb_spec (retries + 1) max_retries); [reflexivity|].
  unfold sleep, bind. apply IH; lia.
Qed.

(** The same for the retry loop of stage 1. *)
Lemma stage1_retry_loop_enough_fuel (env : Env) (svc : Service)
    (pdf_path output_dir : string) (fuel1 fuel2 retry_count : nat) (w : World) :
  (max_retries - retry_count <= fuel1)%nat ->
  (max_retries - retry_count <= fuel2)%nat ->
  stage1_retry_loop env svc pdf_path output_dir fuel1 retry_count w
  = stage1_retry_loop env svc pdf_path output_dir fuel2 retry_count w.
Proof.
  revert fuel2 retry_count w.
  induction fuel1 as [|fuel1 IH]; intros [|fuel2] retry_count w H1 H2;
    cbn [stage1_retry_loop];
    destruct (Nat.ltb_spec retry_count max_retries) as [Hlt|Hge]; cbn [negb];
    try reflexivity; try lia.
  unfold try_except.
  destruct (bind _ _ w) as [[metadata|e] wa]; [reflexivity|].
  destruct (Nat.ltb_spec (S retry_count) max_retries) as [Hlt'|Hge'].
  - destruct (is_timeout_message (exn_str e)); cbn [andb]; [|reflexivity].
    unfold bind, effect. apply IH; lia.
  - rewrite andb_false_r. reflexivity.
Qed.

(** A stage-1 collaborator that always times out is called three times,
    without any sleep in between, and the pipeline fails at stage 1. *)
Example timeouts_are_retried_three_times :
  let run := Scenario.run Scenario.timeout_env empty_world in
  count_calls Stage1Process (new_events empty_world (snd run)) = 3%nat /\
  sleeps (new_events empty_world (snd run)) = [] /\
  option_map get_failed_stages (Scenario.result_of run)
    = Some [METADATA_EXTRACTION] /\
  (Scenario.result_of run ≫= pipeline_error)
    = Some "第一阶段失败: Request timed out.".
Proof. vm_compute. repeat split. Qed.

(** A missing input document fails stage 1 after a single call; no later
    stage is attempted. *)
Example missing_input_fails_first_stage :
  let run := Scenario.run Scenario.missing_input_env empty_world in
  count_calls Stage1Process (new_events empty_world (snd run)) = 1%nat /\
  option_map overall_status (Scenario.result_of run) = Some FAILED /\
  option_map get_failed_stages (Scenario.result_of run)
    = Some [METADATA_EXTRACTION] /\
  map (Scenario.status_in run) pipeline_order
    = [Some FAILED; None; None; None; None] /\
  map (fun c => count_calls c (new_events empty_world (snd run)))
    [Stage2Process; ProcessPaperStructure; ProcessPaperReport;
     ProcessPaperFolder] = [0; 0; 0; 0]%nat.
Proof. vm_compute. repeat split. Qed.

(** A run on the directory of a run interrupted after stage 2 finds
    stages 1 and 2 complete and executes the stages from the third on. *)
Example interrupted_run_resumes_at_third_stage :
  let w := Scenario.interrupted_world in
  let run := Scenario.run Scenario.happy_env w in
  map (fun c => count_calls c (new_events w (snd run)))
    [Stage1Process; Stage2Process; ProcessPaperStructure; ProcessPaperReport;
     ProcessPaperFolder] = [0; 0; 1; 1; 1]%nat /\
  map (Scenario.status_in run) pipeline_order =
    [Some COMPLETED; Some COMPLETED; Some COMPLETED; Some COMPLETED;
     Some COMPLETED] /\
  option_map overall_status (Scenario.result_of run) = Some COMPLETED.
Proof. vm_compute. repeat split. Qed.

(** * Further properties of the code *)

(** ** The result model *)


Lemma elem_of_stage_filter (f : ProcessingStage -> bool) (s : ProcessingStage) :
  s ∈ List.filter f pipeline_order <-> f s = true.
Proof.
  rewrite list_elem_of_In, filter_In. split; [tauto|].
  intros Hf. split; [|exact Hf]. destruct s; cbn; tauto.
Qed.



(** ** The configuration module *)

Lemma lookup_listed (api : string) :
  match LLMConfig.lookup api with
  | Returned cfg =>
      In api LLMConfig.list_available_apis /\ In (api, cfg) LLM.LLM_CONFIG
  | Raised e =>
      ~ In api LLMConfig.list_available_apis /\
      e = mkExn KeyError ("'" +:+ api +:+ "'")
  end.
Proof.
  unfold LLMConfig.lookup, LLMConfig.list_available_apis.
  destruct (List.find _ LLM.LLM_CONFIG) as [[name cfg]|] eqn:Hfind.
  - apply find_some in Hfind as [Hin Heq]. cbn [fst] in Heq.
    apply String.eqb_eq in Heq. subst name.
    split; [|exact Hin]. apply in_map_iff. exists (api, cfg). split; [reflexivity | exact Hin].
  - split; [|reflexivity]. intros Hin. apply in_map_iff in Hin as ([name cfg] & Heq & Hin).
    cbn [fst] in Heq. subst name.
    pose proof (find_none _ _ Hfind _ Hin) as Hno. cbn [fst] in Hno.
    rewrite String.eqb_refl in Hno. discriminate.
Qed.


Lemma existsb_listed (api : string) :
  existsb (String.eqb api) LLMConfig.list_available_apis = true <->
  In api LLMConfig.list_available_apis.
Proof.
  rewrite existsb_exists. split.
  - intros (x & Hin & Heq). apply String.eqb_eq in Heq. now subst x.
  - intros Hin. exists api. split; [exact Hin | apply String.eqb_refl].
Qed.

(** X3: [set_current_api] accepts exactly the names [list_available_apis]
    lists.  For such a name the global is rebound and a later
    [get_api_config()] without a name returns that profile; for any other
    name a [ValueError] is raised, the global keeps its value, and the
    name is one for which [LLM_CONFIG] has no entry. *)
Theorem set_current_api_then_get_api_config (api_name current : string) :
  match LLMConfig.set_current_api api_name current with
  | (Returned name, current') =>
      In api_name LLMConfig.list_available_apis /\
      name = api_name /\ current' = api_name /\
      exists cfg, In (api_name, cfg) LLM.LLM_CONFIG /\
        LLMConfig.get_api_config current' None = Returned cfg /\
        LLMConfig.get_default_model current' None
          = Returned (LLM.default_model cfg)
  | (Raised e, current') =>
      ~ In api_name LLMConfig.list_available_apis /\
      exn_class e = ValueError /\ current' = current /\
      LLMConfig.lookup api_name
        = Raised (mkExn KeyError ("'" +:+ api_name +:+ "'"))
  end.
Proof.
  unfold LLMConfig.set_current_api.
  destruct (existsb _ _) eqn:Hex; cbn [negb].
  - apply existsb_listed in Hex.
    split; [exact Hex|]. split; [reflexivity|]. split; [reflexivity|].
    unfold LLMConfig.get_api_config, LLMConfig.get_default_model,
      LLMConfig.or_current.
    pose proof (lookup_listed api_name) as Hl.
    destruct (LLMConfig.lookup api_name) as [cfg|e]; [|tauto].
    exists cfg. split; [tauto|]. split; reflexivity.
  - assert (Hno : ~ In api_name LLMConfig.list_available_apis).
    { intros Hin. apply existsb_listed in Hin. congruence. }
    split; [exact Hno|]. split; [reflexivity|]. split; [reflexivity|].
    pose proof (lookup_listed api_name) as Hl.
    destruct (LLMConfig.lookup api_name) as [cfg|e]; [tauto|].
    destruct Hl as [_ ->]. reflexivity.
Qed.


(** ** The retrying call, whatever the endpoint does *)

Lemma failing_trace_events (retries : Z) (n : nat) (l : list Event) :
  ((l ++ [EvCall ChatCompletionsCreate]) ++
     [EvSleep (LLM.backoff (retries + 1))]) ++ failing_trace (retries + 1) n
  = l ++ failing_trace retries (S n).
Proof. rewrite <- !app_assoc. reflexivity. Qed.

(** Every run of the retry loop has one of three shapes. *)
Lemma completion_loop_trace (attempt : World -> Effect string) (max_retries : Z)
    (fuel : nat) (retries : Z) (w : World) :
  (Z.to_nat (max_retries + 1 - retries) <= fuel)%nat ->
  let run := LLM.completion_loop attempt max_retries fuel retries w in
  match fst run with
  | Returned None => (max_retries < retries)%Z /\ snd run = w
  | Returned (Some _) =>
      exists k, (retries + Z.of_nat k <= max_retries)%Z /\
        events (snd run) = events w ++ failing_trace retries k
  | Raised e =>
      (retries <= max_retries)%Z /\
      events (snd run)
        = events w ++ failing_trace retries (Z.to_nat (max_retries - retries)) /\
      exn_class e = PlainException
  end.
Proof.
  revert retries w. induction fuel as [|fuel IH]; intros retries w Hfuel;
    cbn [LLM.completion_loop];
    destruct (Z.leb_spec retries max_retries) as [Hle|Hgt]; cbn [negb fst snd];
    try (split; [lia | reflexivity]); try lia.
  unfold try_except, bind, invoke.
  destruct (eff_outcome (attempt _)) as [content|e] eqn:Hout; cbn [fst snd].
  - exists 0%nat. split; [lia|]. reflexivity.
  - destruct (Z.gtb_spec (retries + 1) max_retries) as [Hlast|Hmore]; cbn [fst snd].
    + split; [lia|]. replace (Z.to_nat (max_retries - retries)) with 0%nat by lia.
      split; [reflexivity|]. unfold LLM.exhausted. destruct (exn_class e); reflexivity.
    + unfold sleep. cbn [fst snd].
      match goal with
      | |- context [LLM.completion_loop _ _ fuel _ ?w1] =>
          specialize (IH (retries + 1)%Z w1 ltac:(lia)); cbn zeta in IH;
            destruct (LLM.completion_loop attempt max_retries fuel (retries + 1) w1)
              as [[[c|]|e'] w'] eqn:Hrest; cbn [fst snd] in IH |- *
      end.
      * destruct IH as (k & Hk & Hev). exists (S k). split; [lia|].
        rewrite Hev. cbn [events log]. apply failing_trace_events.
      * lia.
      * destruct IH as (_ & Hev & Hcls). split; [lia|]. split; [|exact Hcls].
        rewrite Hev. cbn [events log].
        replace (Z.to_nat (max_retries - retries))
          with (S (Z.to_nat (max_retries - (retries + 1)))) by lia.
        apply failing_trace_events.
Qed.


Lemma count_calls_snoc_call (c : Collaborator) (l : list Event) :
  count_calls c (l ++ [EvCall c]) = S (count_calls c l).
Proof.
  rewrite count_calls_app, count_calls_cons, is_call_same, count_calls_nil. lia.
Qed.

Lemma count_calls_snoc_sleep (c : Collaborator) (l : list Event) (d : Q) :
  count_calls c (l ++ [EvSleep d]) = count_calls c l.
Proof.
  rewrite count_calls_app, count_calls_cons, count_calls_nil. cbn. lia.
Qed.

(** A run whose first [j - done] further requests fail and whose next
    request succeeds. *)
Lemma completion_loop_recovers (attempt : World -> Effect string)
    (max_retries : Z) (content : string) (base j : nat) :
  (forall w,
     (count_calls ChatCompletionsCreate (events w) <= base + j)%nat ->
     exists e, eff_outcome (attempt w) = Raised e) ->
  (forall w,
     count_calls ChatCompletionsCreate (events w) = (base + S j)%nat ->
     eff_outcome (attempt w) = Returned content) ->
  (Z.of_nat j <= max_retries)%Z ->
  forall (n fuel : nat) (retries : Z) (w : World),
    (0 <= retries)%Z ->
    (retries + Z.of_nat n = Z.of_nat j)%Z -> (n < fuel)%nat ->
    count_calls ChatCompletionsCreate (events w) = (base + Z.to_nat retries)%nat ->
    exists w',
      LLM.completion_loop attempt max_retries fuel retries w
        = (Returned (Some content), w') /\
      events w' = events w ++ failing_trace retries n.
Proof.
  intros Hfail Hsucc Hj.
  induction n as [|n IH]; intros fuel retries w Hpos Hn Hfuel Hcount;
    (destruct fuel as [|fuel]; [lia|]); cbn [LLM.completion_loop];
    (destruct (Z.leb_spec retries max_retries) as [_|?]; [|lia]); cbn [negb];
    unfold try_except, bind, invoke.
  - rewrite Hsucc by (cbn [events log]; rewrite count_calls_snoc_call; lia).
    eexists. split; reflexivity.
  - destruct (Hfail (log (EvCall ChatCompletionsCreate) w)) as [e He].
    { cbn [events log]. rewrite count_calls_snoc_call. lia. }
    rewrite He.
    destruct (Z.gtb_spec (retries + 1) max_retries) as [?|_]; [lia|].
    unfold sleep at 1. cbn [fst snd].
    match goal with
    | |- context [LLM.completion_loop _ _ fuel _ ?w1] =>
        destruct (IH fuel (retries + 1)%Z w1) as (w' & Hrun & Hev);
          [lia | lia | lia | |]
    end.
    { cbn [events log]. rewrite count_calls_snoc_sleep, count_calls_snoc_call. lia. }
    exists w'. split; [exact Hrun|].
    rewrite Hev. cbn [events log]. apply failing_trace_events.
Qed.

(** X6: transient failures are recovered from.  If the first [j] requests
    of a run fail, in whatever way, and the next one succeeds, with
    [j <= max_retries], then [get_completion] returns the content of that
    request, after [j + 1] requests and sleeps of 2^1, ..., 2^j seconds. *)
Theorem get_completion_recovers
    (client : LLM.LLMClient) (prompt : string) (model : option string)
    (temp : Q) (max_tokens : option Z) (max_retries : Z) (w : World)
    (content : string) (j : nat) :
  let request :=
    LLM.client_create client (LLM.model_or_default client model) prompt temp
      max_tokens in
  let seen w' := count_calls ChatCompletionsCreate (events w') in
  (forall w', (seen w' <= seen w + j)%nat ->
     exists e, eff_outcome (request w') = Raised e) ->
  (forall w', seen w' = (seen w + S j)%nat ->
     eff_outcome (request w') = Returned content) ->
  (Z.of_nat j <= max_retries)%Z ->
  exists w',
    LLM.get_completion client prompt model temp max_tokens max_retries w
      = (Returned (Some content), w') /\
    count_calls ChatCompletionsCreate (new_events w w') = S j /\
    sleeps (new_events w w') = powers_of_two j.
Proof.
  intros request seen Hfail Hsucc Hj. unfold LLM.get_completion.
  destruct (completion_loop_recovers request max_retries content (seen w) j
              Hfail Hsucc Hj j (Z.to_nat (max_retries + 1)) 0 w)
    as (w' & Hrun & Hev); [lia | lia | lia | unfold seen; cbn; lia |].
  exists w'. split; [exact Hrun|].
  rewrite (new_events_app _ _ _ Hev), count_calls_failing_trace, sleeps_all_fail.
  split; reflexivity.
Qed.

Lemma get_completion_recovers_witness :
  exists w',
    LLM.get_completion (flaky_client 2) "Summarise." None 0.2 None 5 empty_world
      = (Returned (Some "Summary."), w') /\
    count_calls ChatCompletionsCreate (new_events empty_world w') = 3%nat /\
    sleeps (new_events empty_world w') = powers_of_two 2.
Proof.
  apply (get_completion_recovers (flaky_client 2) "Summarise." None 0.2 None 5
           empty_world "Summary." 2).
  - intros w' Hseen. eexists. cbn in Hseen |- *. unfold flaky.
    destruct (Nat.leb_spec
                (count_calls ChatCompletionsCreate (events w')) 2);
      [reflexivity | lia].
  - intros w' Hseen. cbn in Hseen |- *. unfold flaky. rewrite Hseen. reflexivity.
  - lia.
Defined.

(** ** Traces of the stage functions *)

Lemma notify_progress_world (svc : Service) (stage : ProcessingStage) (p : Q)
    (msg : string) (w : World) :
  notify_progress svc stage p msg w
  = mkWorld (files w) (now w) (events w ++ progress_note svc stage p msg).
Proof.
  unfold notify_progress, progress_note.
  destruct (progress_callback svc) as [callback|].
  - destruct (callback _); reflexivity.
  - destruct w; cbn. now rewrite app_nil_r.
Qed.

Lemma notify_error_world (svc : Service) (stage : ProcessingStage) (e : Exn)
    (w : World) :
  notify_error svc stage e w
  = mkWorld (files w) (now w) (events w ++ error_note svc stage e).
Proof.
  unfold notify_error, error_note.
  destruct (error_callback svc) as [callback|].
  - destruct (callback _ _); reflexivity.
  - destruct w; cbn. now rewrite app_nil_r.
Qed.

Section RunsFrom.

Context {A : Type} (R : list Event -> A -> Prop) (X : list Event -> Exn -> Prop).

Lemma runs_from_ret (t0 : list Event) (a : A) :
  R t0 a -> runs_from t0 R X (ret a).
Proof. intros H w. exists []. cbn. rewrite !app_nil_r. auto. Qed.

Lemma runs_from_raise (t0 : list Event) (e : Exn) :
  X t0 e -> runs_from t0 R X (raise e).
Proof. intros H w. exists []. cbn. rewrite !app_nil_r. auto. Qed.

Lemma runs_from_of_outcome (t0 : list Event) (o : Outcome A) :
  (forall a, R t0 a) -> (forall e, X t0 e) -> runs_from t0 R X (of_outcome o).
Proof.
  intros HR HX w. exists []. cbn. rewrite !app_nil_r. destruct o; auto.
Qed.

Lemma runs_from_invoke (t0 : list Event) (c : Collaborator)
    (oracle : World -> Effect A) :
  (forall a, R (t0 ++ [EvCall c]) a) -> (forall e, X (t0 ++ [EvCall c]) e) ->
  runs_from t0 R X (invoke c oracle).
Proof.
  intros HR HX w. exists [EvCall c]. unfold invoke. cbn [fst snd events log].
  split; [reflexivity|]. destruct (eff_outcome _); auto.
Qed.

Lemma runs_from_try_except (t0 : list Event) (body : M A)
    (handler : Exn -> M A) :
  runs_from t0 R (fun t e => runs_from t R X (handler e)) body ->
  runs_from t0 R X (try_except body handler).
Proof.
  intros Hb w. unfold try_except. destruct (Hb w) as (t1 & Hev1 & H1).
  destruct (body w) as [[a|e] w1]; cbn [fst snd] in *.
  - exists t1. auto.
  - destruct (H1 w1) as (t2 & Hev2 & H2). exists (t1 ++ t2).
    rewrite Hev2, Hev1, <- app_assoc. split; [reflexivity|].
    rewrite app_assoc. exact H2.
Qed.

Lemma runs_from_if_world (t0 : list Event) (c : World -> bool) (m1 m2 : M A) :
  runs_from t0 R X m1 -> runs_from t0 R X m2 ->
  runs_from t0 R X (fun w => if c w then m1 w else m2 w).
Proof. intros H1 H2 w. destruct (c w); [apply H1 | apply H2]. Qed.

Lemma runs_from_match_world {T} (t0 : list Event) (l : World -> list T)
    (m1 : M A) (m2 : T -> list T -> M A) :
  runs_from t0 R X m1 -> (forall x xs, runs_from t0 R X (m2 x xs)) ->
  runs_from t0 R X
    (fun w => match l w with [] => m1 w | x :: xs => m2 x xs w end).
Proof. intros H1 H2 w. destruct (l w); [apply H1 | apply H2]. Qed.

End RunsFrom.

Lemma runs_from_progress (R : list Event -> unit -> Prop)
    (X : list Event -> Exn -> Prop) (t0 : list Event) (svc : Service)
    (stage : ProcessingStage) (p : Q) (msg : string) :
  R (t0 ++ progress_note svc stage p msg) tt ->
  runs_from t0 R X (effect (notify_progress svc stage p msg)).
Proof.
  intros H w. exists (progress_note svc stage p msg). unfold effect.
  rewrite notify_progress_world. cbn. auto.
Qed.

Lemma runs_from_bind {A B} (R : list Event -> B -> Prop)
    (X : list Event -> Exn -> Prop) (t0 : list Event) (m : M A) (k : A -> M B) :
  runs_from t0 (fun t a => runs_from t R X (k a)) X m ->
  runs_from t0 R X (bind m k).
Proof.
  intros Hm w. unfold bind. destruct (Hm w) as (t1 & Hev1 & H1).
  destruct (m w) as [[a|e] w1]; cbn [fst snd] in *.
  - destruct (H1 w1) as (t2 & Hev2 & H2). exists (t1 ++ t2).
    rewrite Hev2, Hev1, <- app_assoc. split; [reflexivity|].
    rewrite app_assoc. exact H2.
  - exists t1. auto.
Qed.

(** The frame of a stage function: what holds of every way through the
    body, with the start notification in front and the error notification
    behind, holds of the stage function. *)
Lemma stage_frame_runs (env : Env) (svc : Service) (stage : ProcessingStage)
    (start_msg : string) (body : M (StageResult -> StageResult))
    (F : StageResult -> list Event -> Prop) :
  (forall r start finish t, F r t -> F (sr_finished start finish r) t) ->
  (forall start,
     runs_from (progress_note svc stage 0 start_msg)
       (fun t assign => F (assign (fresh_result stage start)) t)
       (fun t e =>
          F (sr_failed (exn_str e) (Some (format_exc env e))
               (fresh_result stage start))
            (t ++ error_note svc stage e))
       body) ->
  forall w,
    F (fst (stage_frame env svc stage start_msg body w))
      (new_events w (snd (stage_frame env svc stage start_msg body w))).
Proof.
  intros Hfin Hbody w. unfold stage_frame.
  rewrite notify_progress_world. cbn [now].
  match goal with
  | |- context [body ?w1] =>
      destruct (Hbody (now w) w1) as (t & Hev & H);
        destruct (body w1) as [[assign|e] w2]
  end; cbn [fst snd events] in *.
  - rewrite (new_events_app w w2 (progress_note svc stage 0 start_msg ++ t))
      by (now rewrite Hev, app_assoc).
    apply Hfin. exact H.
  - rewrite notify_error_world. cbn [now events].
    rewrite (new_events_app w _
               ((progress_note svc stage 0 start_msg ++ t) ++ error_note svc stage e))
      by (cbn [events]; now rewrite Hev, !app_assoc).
    apply Hfin. exact H.
Qed.

(** One step through a stage body. *)
Ltac run_step :=
  cbv beta zeta;
  lazymatch goal with
  | |- runs_from _ _ _ (bind _ _) => apply runs_from_bind
  | |- runs_from _ _ _ (ret _) => apply runs_from_ret
  | |- runs_from _ _ _ (raise _) => apply runs_from_raise
  | |- runs_from _ _ _ (effect (notify_progress _ _ _ _)) =>
      apply runs_from_progress
  | |- runs_from _ _ _ (invoke _ _) => apply runs_from_invoke; intros ?
  | |- runs_from _ _ _ (of_outcome _) => apply runs_from_of_outcome; intros ?
  | |- runs_from _ _ _ (try_except _ _) => apply runs_from_try_except
  | |- runs_from _ _ _ (import_module ?env ?n) =>
      unfold import_module; destruct (import_error env n)
  | |- runs_from _ _ _ (template_path_item _ _) =>
      unfold template_path_item; destruct (_ !! _)
  | |- runs_from _ _ _ (path_of ?p) => unfold path_of; destruct p
  | |- runs_from _ _ _ (stage1_retry_loop _ _ _ _ _ _) =>
      unfold max_retries; cbn [stage1_retry_loop Nat.ltb Nat.leb negb andb]
  | |- runs_from _ _ _ (if ?c then _ else _) => destruct c eqn:?
  | |- runs_from _ _ _ (match ?x with Some _ => _ | None => _ end) => destruct x
  | |- runs_from ?t ?R ?X (fun w => ?m w) => change (runs_from t R X m)
  | |- runs_from _ _ _ (fun w => match _ with [] => _ | _ :: _ => _ end) =>
      refine (runs_from_match_world _ _ _ _ _ _ _ _); [|intros ? ?]
  | |- runs_from _ _ _ (fun w => if _ then _ else _) =>
      refine (runs_from_if_world _ _ _ _ _ _ _ _)
  end.

Ltac run_body := repeat run_step.

Lemma stage_facts_finished (svc : Service) (stage : ProcessingStage)
    (r : StageResult) (start finish : Q) (t : list Event) :
  stage_facts svc stage r t -> stage_facts svc stage (sr_finished start finish r) t.
Proof. intros [? ? ? ? ? ? ? ? ?]. constructor; assumption. Qed.

(** The facts at the end of one way through a stage function. *)
Ltac leaf_goal :=
  intros;
  repeat match goal with H : is_Some None |- _ => destruct H as [? [=]] end;
  try (cbn in *; discriminate);
  first
    [ vm_compute; reflexivity
    | left; vm_compute; reflexivity
    | right; vm_compute; reflexivity
    | right; eexists; repeat split; reflexivity
    | vm_compute; discriminate
    | eexists; cbn; reflexivity ].

Ltac leaf svc :=
  cbv beta; unfold progress_note, error_note;
  let Hp := fresh "Hp" in
  let He := fresh "He" in
  destruct (progress_callback svc) eqn:Hp; destruct (error_callback svc) eqn:He;
  constructor; rewrite ?Hp, ?He; leaf_goal.

Lemma run_stage2_facts (env : Env) (svc : Service) (pdf_path output_dir : string)
    (w : World) :
  stage_facts svc FULL_OCR (fst (run_stage2 env svc pdf_path output_dir w))
    (new_events w (snd (run_stage2 env svc pdf_path output_dir w))).
Proof.
  apply (stage_frame_runs env svc FULL_OCR _ _ (stage_facts svc FULL_OCR)).
  { intros. now apply stage_facts_finished. }
  intros start. unfold run_stage2_body. run_body; leaf svc.
Qed.

Lemma run_stage1_facts (env : Env) (svc : Service) (pdf_path output_dir : string)
    (w : World) :
  stage_facts svc METADATA_EXTRACTION
    (fst (run_stage1 env svc pdf_path output_dir w))
    (new_events w (snd (run_stage1 env svc pdf_path output_dir w))).
Proof.
  apply (stage_frame_runs env svc METADATA_EXTRACTION _ _
           (stage_facts svc METADATA_EXTRACTION)).
  { intros. now apply stage_facts_finished. }
  intros start. unfold run_stage1_body. run_body; leaf svc.
Qed.

Lemma run_stage3_facts (env : Env) (svc : Service)
    (complete_md_path : option string) (output_dir : string) (w : World) :
  stage_facts svc STRUCTURE_PARSING
    (fst (run_stage3 env svc complete_md_path output_dir w))
    (new_events w (snd (run_stage3 env svc complete_md_path output_dir w))).
Proof.
  apply (stage_frame_runs env svc STRUCTURE_PARSING _ _
           (stage_facts svc STRUCTURE_PARSING)).
  { intros. now apply stage_facts_finished. }
  intros start. unfold run_stage3_body. run_body; leaf svc.
Qed.

Lemma run_stage4_facts (env : Env) (svc : Service)
    (structure_json_path : option string) (output_dir : string) (w : World) :
  stage_facts svc REPORT_GENERATION
    (fst (run_stage4 env svc structure_json_path output_dir w))
    (new_events w (snd (run_stage4 env svc structure_json_path output_dir w))).
Proof.
  apply (stage_frame_runs env svc REPORT_GENERATION _ _
           (stage_facts svc REPORT_GENERATION)).
  { intros. now apply stage_facts_finished. }
  intros start. unfold run_stage4_body. run_body; leaf svc.
Qed.

Lemma run_stage5_facts (env : Env) (svc : Service) (output_dir : string)
    (w : World) :
  stage_facts svc POST_PROCESSING (fst (run_stage5 env svc output_dir w))
    (new_events w (snd (run_stage5 env svc output_dir w))).
Proof.
  apply (stage_frame_runs env svc POST_PROCESSING _ _
           (stage_facts svc POST_PROCESSING)).
  { intros. now apply stage_facts_finished. }
  intros start. unfold run_stage5_body. run_body; leaf svc.
Qed.

Lemma run_stage_facts (env : Env) (svc : Service) (pdf_path output_dir : string)
    (complete_md_path structure_json_path : option string)
    (stage : ProcessingStage) (w : World) :
  let run := run_stage env svc pdf_path output_dir complete_md_path
               structure_json_path stage w in
  stage_facts svc stage (fst run) (new_events w (snd run)).
Proof.
  destruct stage; cbn.
  - apply run_stage1_facts.
  - apply run_stage2_facts.
  - apply run_stage3_facts.
  - apply run_stage4_facts.
  - apply run_stage5_facts.
Qed.

Lemma forallb_unit_interval (l : list Q) :
  forallb (fun p => Qle_bool 0 p && Qle_bool p 1) l = true ->
  Forall (fun p => 0 <= p /\ p <= 1)%Q l.
Proof.
  intros H. apply Forall_forall. intros p Hp.
  rewrite forallb_forall in H. apply list_elem_of_In, H in Hp.
  apply andb_true_iff in Hp as [H0 H1].
  split; now apply Qle_bool_iff.
Qed.

(** X7: a stage function calls the error callback at most once, for its
    own stage and with the exception whose text it records as the error
    message of a failed result; it never calls it when the stage is
    completed; and each of the four content stages that ends as failed has
    called it, if one is set.  (The fifth stage can fail without an
    exception, and then without a call.) *)
Theorem error_callback_once_per_failed_stage
    (env : Env) (svc : Service) (pdf_path output_dir : string)
    (complete_md_path structure_json_path : option string)
    (stage : ProcessingStage) (w : World) :
  let run := run_stage env svc pdf_path output_dir complete_md_path
               structure_json_path stage w in
  let reports := error_reports (new_events w (snd run)) in
  (reports = [] \/
   exists e, reports = [(stage, e)] /\ sr_status (fst run) = FAILED /\
             sr_error_message (fst run) = Some (exn_str e)) /\
  (sr_status (fst run) = COMPLETED -> reports = []) /\
  (content_stage stage = true -> is_Some (error_callback svc) ->
   sr_status (fst run) <> COMPLETED -> reports <> []).
Proof.
  intros run reports.
  destruct (run_stage_facts env svc pdf_path output_dir complete_md_path
              structure_json_path stage w)
    as [Hsettled Hreports Hreported _ _ _ _ _ _].
  fold run in Hsettled, Hreports, Hreported. fold reports in Hreports, Hreported.
  split; [exact Hreports|]. split.
  - intros Hc. destruct Hreports as [|(e & _ & Hf & _)]; [assumption|congruence].
  - intros Hcontent Hcb Hnc. apply Hreported; [assumption| |assumption].
    destruct Hsettled; [contradiction|assumption].
Qed.

(** X8: the local progress a stage function reports never decreases and
    stays within [0, 1]; with a progress callback set, the first value
    reported is 0 and, when the stage ends as completed, the last is 1. *)
Theorem stage_progress_is_monotone
    (env : Env) (svc : Service) (pdf_path output_dir : string)
    (complete_md_path structure_json_path : option string)
    (stage : ProcessingStage) (w : World) :
  let run := run_stage env svc pdf_path output_dir complete_md_path
               structure_json_path stage w in
  let reported := local_progress (new_events w (snd run)) in
  nondecreasing reported = true /\
  Forall (fun p => 0 <= p /\ p <= 1)%Q reported /\
  (is_Some (progress_callback svc) ->
   head reported = Some 0%Q /\
   (sr_status (fst run) = COMPLETED -> last reported = Some 1%Q)).
Proof.
  intros run reported.
  destruct (run_stage_facts env svc pdf_path output_dir complete_md_path
              structure_json_path stage w)
    as [_ _ _ Hsorted Hrange Hfirst Hlast _ _].
  split; [exact Hsorted|]. split; [now apply forallb_unit_interval|].
  intros Hcb. split; [now apply Hfirst | now apply Hlast].
Qed.

(** X9: a stage function calls its collaborators in a fixed order, each
    one only after the one before it has returned: the calls made are
    always an initial part of the stage's list.  A stage that ends as
    completed has called all of them, once each; stage 1 has called its
    one collaborator at least once and at most three times. *)
Theorem collaborators_are_called_in_order
    (env : Env) (svc : Service) (pdf_path output_dir : string)
    (complete_md_path structure_json_path : option string)
    (stage : ProcessingStage) (w : World) :
  let run := run_stage env svc pdf_path output_dir complete_md_path
               structure_json_path stage w in
  let called := calls (new_events w (snd run)) in
  called `prefix_of` stage_calls stage /\
  (sr_status (fst run) = COMPLETED ->
   called <> [] /\
   (stage <> METADATA_EXTRACTION -> called = stage_calls stage)).
Proof.
  intros run called.
  destruct (run_stage_facts env svc pdf_path output_dir complete_md_path
              structure_json_path stage w)
    as [_ _ _ _ _ _ _ Hcalls Hall].
  split; [exact Hcalls|]. intros Hc. specialize (Hall Hc).
  fold run called in Hall.
  destruct (decide (stage = METADATA_EXTRACTION)) as [->|Hne].
  - split; [exact Hall | congruence].
  - split; [|intros _; exact Hall].
    rewrite Hall. destruct stage; discriminate.
Qed.

(** ** Failures of single stages *)

Section KnownOutcomes.

Context {A : Type} (R : list Event -> A -> Prop) (X : list Event -> Exn -> Prop).

Lemma runs_from_invoke_returns (t0 : list Event) (c : Collaborator)
    (oracle : World -> Effect A) (a : A) :
  (forall w, eff_outcome (oracle w) = Returned a) ->
  R (t0 ++ [EvCall c]) a -> runs_from t0 R X (invoke c oracle).
Proof.
  intros Ho HR w. exists [EvCall c]. unfold invoke. cbn [fst snd events log].
  split; [reflexivity|]. now rewrite Ho.
Qed.

Lemma runs_from_invoke_raises (t0 : list Event) (c : Collaborator)
    (oracle : World -> Effect A) (e : Exn) :
  (forall w, eff_outcome (oracle w) = Raised e) ->
  X (t0 ++ [EvCall c]) e -> runs_from t0 R X (invoke c oracle).
Proof.
  intros Ho HX w. exists [EvCall c]. unfold invoke. cbn [fst snd events log].
  split; [reflexivity|]. now rewrite Ho.
Qed.

End KnownOutcomes.

(** One step through a stage body, using what is assumed about the
    surroundings. *)
Ltac known_step :=
  cbv beta zeta;
  lazymatch goal with
  | |- runs_from _ _ _ (invoke _ _) =>
      first [ eapply runs_from_invoke_returns; [eassumption|]
            | eapply runs_from_invoke_raises; [eassumption|] ]
  | H : import_error ?env ?n = None |- runs_from _ _ _ (import_module ?env ?n) =>
      unfold import_module; rewrite H
  | H : cfg_template_paths _ !! ?k = _
    |- runs_from _ _ _ (template_path_item _ ?k) =>
      unfold template_path_item; rewrite H
  end.

Ltac run_known := repeat first [known_step | run_step].

(** The facts at the end of one way through a stage function under
    assumptions: impossible ways are closed by the conditions recorded on
    the way. *)
Ltac known_leaf svc :=
  cbv beta;
  try match goal with
      | H : is_timeout_message _ && _ = _ |- _ => vm_compute in H; discriminate H
      end;
  rewrite ?andb_true_r, ?andb_false_r in *; try discriminate;
  unfold progress_note, error_note;
  destruct (progress_callback svc); destruct (error_callback svc);
  cbn;
  repeat match goal with
         | H : ?x = true |- context [if ?x then _ else _] => rewrite H
         | H : ?x = false |- context [if ?x then _ else _] => rewrite H
         end;
  repeat split; first [reflexivity | congruence].

(** X10: stage 1 retries timeouts only.  When every call of its
    collaborator raises the same exception, the collaborator is called
    three times if the text of the exception mentions a timeout, in any
    letter case, and once otherwise; there is no waiting in between; the
    stage fails with the text of the exception and reports it once to
    the error callback, if one is set. *)
Theorem stage1_retries_timeouts_only
    (env : Env) (svc : Service) (pdf_path output_dir template : string)
    (e : Exn) (w : World) :
  import_error env "crop_pdf_first_three_page.process_pdf" = None ->
  cfg_template_paths (config svc) !! "metadata" = Some template ->
  (forall w', eff_outcome
                (stage1_process env pdf_path output_dir template
                   (cfg_api_name (config svc)) (cfg_crop_params (config svc)) w')
              = Raised e) ->
  let run := run_stage1 env svc pdf_path output_dir w in
  let t := new_events w (snd run) in
  sr_status (fst run) = FAILED /\
  sr_error_message (fst run) = Some (exn_str e) /\
  calls t = (if is_timeout_message (exn_str e)
             then [Stage1Process; Stage1Process; Stage1Process]
             else [Stage1Process]) /\
  sleeps t = [] /\
  error_reports t = match error_callback svc with
                    | Some _ => [(METADATA_EXTRACTION, e)]
                    | None => []
                    end.
Proof.
  intros Himport Hkey Hraise run t. subst run t.
  apply (stage_frame_runs env svc METADATA_EXTRACTION _ _
           (fun sr t =>
              sr_status sr = FAILED /\
              sr_error_message sr = Some (exn_str e) /\
              calls t = (if is_timeout_message (exn_str e)
                         then [Stage1Process; Stage1Process; Stage1Process]
                         else [Stage1Process]) /\
              sleeps t = [] /\
              error_reports t = match error_callback svc with
                                | Some _ => [(METADATA_EXTRACTION, e)]
                                | None => []
                                end)).
  { intros r start finish t0 H. exact H. }
  intros start. unfold run_stage1_body. run_known; known_leaf svc.
Qed.

Lemma stage1_retries_timeouts_only_witness :
  let run := run_stage1 Scenario.timeout_env Scenario.service Scenario.pdf
               "out/p1" empty_world in
  let t := new_events empty_world (snd run) in
  sr_status (fst run) = FAILED /\
  sr_error_message (fst run) = Some "Request timed out." /\
  calls t = [Stage1Process; Stage1Process; Stage1Process] /\
  sleeps t = [] /\
  error_reports t
    = [(METADATA_EXTRACTION, mkExn OtherException "Request timed out.")].
Proof.
  exact (stage1_retries_timeouts_only Scenario.timeout_env Scenario.service
           Scenario.pdf "out/p1" "resources/extract_metadata_from_face_page.md"
           (mkExn OtherException "Request timed out.") empty_world
           eq_refl eq_refl (fun _ => eq_refl)).
Defined.

(** X11: without a "metadata" entry in the template paths, stage 1 fails
    with the [KeyError] of the lookup as its message, reported once to the
    error callback, and never calls its collaborator: the lookup is made
    inside the retry loop, but a [KeyError] does not read as a timeout. *)
Theorem stage1_needs_the_metadata_template
    (env : Env) (svc : Service) (pdf_path output_dir : string) (w : World) :
  import_error env "crop_pdf_first_three_page.process_pdf" = None ->
  cfg_template_paths (config svc) !! "metadata" = None ->
  let run := run_stage1 env svc pdf_path output_dir w in
  let t := new_events w (snd run) in
  sr_status (fst run) = FAILED /\
  sr_error_message (fst run) = Some "'metadata'" /\
  calls t = [] /\
  error_reports t = match error_callback svc with
                    | Some _ => [(METADATA_EXTRACTION, mkExn KeyError "'metadata'")]
                    | None => []
                    end.
Proof.
  intros Himport Hkey run t. subst run t.
  apply (stage_frame_runs env svc METADATA_EXTRACTION _ _
           (fun sr t =>
              sr_status sr = FAILED /\
              sr_error_message sr = Some "'metadata'" /\
              calls t = [] /\
              error_reports t
                = match error_callback svc with
                  | Some _ => [(METADATA_EXTRACTION, mkExn KeyError "'metadata'")]
                  | None => []
                  end)).
  { intros r start finish t0 H. exact H. }
  intros start. unfold run_stage1_body. run_known; known_leaf svc.
Qed.

Lemma stage1_needs_the_metadata_template_witness :
  let svc := mkService (mkPipelineConfig "out" None ∅ ∅ None false true 3)
               None (Some (fun _ _ => Returned tt)) in
  let run := run_stage1 Scenario.happy_env svc Scenario.pdf "out/p1"
               empty_world in
  let t := new_events empty_world (snd run) in
  sr_status (fst run) = FAILED /\
  sr_error_message (fst run) = Some "'metadata'" /\
  calls t = [] /\
  error_reports t = [(METADATA_EXTRACTION, mkExn KeyError "'metadata'")].
Proof.
  exact (stage1_needs_the_metadata_template Scenario.happy_env
           (mkService (mkPipelineConfig "out" None ∅ ∅ None false true 3)
              None (Some (fun _ _ => Returned tt)))
           Scenario.pdf "out/p1" empty_world eq_refl eq_refl).
Defined.

(** X12: the second stage is completed only if [complete.md] exists in
    the output directory when its collaborator has returned; its output
    path is then that file.  In every other case the stage is failed,
    with an error message and without an output path. *)
Theorem completed_ocr_stage_has_its_file
    (env : Env) (svc : Service) (pdf_path output_dir : string) (w : World) :
  let run := run_stage2 env svc pdf_path output_dir w in
  let complete_md := Str.path_join output_dir "complete.md" in
  match sr_status (fst run) with
  | COMPLETED =>
      path_exists (files (snd run)) complete_md = true /\
      sr_output_path (fst run) = Some complete_md /\
      sr_error_message (fst run) = None /\
      calls (new_events w (snd run)) = [Stage2Process]
  | _ =>
      sr_status (fst run) = FAILED /\
      sr_output_path (fst run) = None /\
      is_Some (sr_error_message (fst run))
  end.
Proof.
  cbv zeta. unfold run_stage2, stage_frame, run_stage2_body, bind, effect,
    import_module, invoke.
  rewrite !notify_progress_world.
  destruct (import_error env _) as [e|]; cbn -[notify_progress notify_error].
  { repeat split. eexists; reflexivity. }
  rewrite !notify_progress_world. cbn -[notify_progress notify_error].
  destruct (eff_outcome _) as [[]|e] eqn:Hcall;
    cbn -[notify_progress notify_error].
  - destruct (path_exists _ _) eqn:Hexists;
      cbn -[notify_progress notify_error].
    + split; [exact Hexists|]. split; [reflexivity|]. split; [reflexivity|].
      unfold new_events. cbn [events]. rewrite <- !app_assoc, drop_app_length.
      unfold progress_note. destruct (progress_callback svc); reflexivity.
    + repeat split. eexists; reflexivity.
  - repeat split. eexists; reflexivity.
Qed.

(** X13: when the structure parser of stage 3 returns [False], the stage
    fails with a fixed message, raised and reported like an exception,
    and neither the classifier nor the attribute-tree extractor is
    called. *)
Theorem stage3_stops_when_structure_parsing_fails
    (env : Env) (svc : Service) (complete_md_path : option string)
    (output_dir : string) (w : World) :
  import_error env "section_data_extractor.integrated_processor" = None ->
  (forall w', eff_outcome
                (process_paper_structure env complete_md_path output_dir w')
              = Returned false) ->
  let run := run_stage3 env svc complete_md_path output_dir w in
  let t := new_events w (snd run) in
  sr_status (fst run) = FAILED /\
  sr_error_message (fst run) = Some "结构化解析处理失败" /\
  calls t = [ProcessPaperStructure] /\
  error_reports t
    = match error_callback svc with
      | Some _ => [(STRUCTURE_PARSING, mkExn RuntimeError "结构化解析处理失败")]
      | None => []
      end.
Proof.
  intros Himport Hparser run t. subst run t.
  apply (stage_frame_runs env svc STRUCTURE_PARSING _ _
           (fun sr t =>
              sr_status sr = FAILED /\
              sr_error_message sr = Some "结构化解析处理失败" /\
              calls t = [ProcessPaperStructure] /\
              error_reports t
                = match error_callback svc with
                  | Some _ =>
                      [(STRUCTURE_PARSING, mkExn RuntimeError "结构化解析处理失败")]
                  | None => []
                  end)).
  { intros r start finish t0 H. exact H. }
  intros start. unfold run_stage3_body. run_known; known_leaf svc.
Qed.

Lemma stage3_stops_when_structure_parsing_fails_witness :
  let run := run_stage3 unstructured_env Scenario.service
               (Some "out/p1/complete.md") "out/p1" empty_world in
  let t := new_events empty_world (snd run) in
  sr_status (fst run) = FAILED /\
  sr_error_message (fst run) = Some "结构化解析处理失败" /\
  calls t = [ProcessPaperStructure] /\
  error_reports t
    = [(STRUCTURE_PARSING, mkExn RuntimeError "结构化解析处理失败")].
Proof.
  exact (stage3_stops_when_structure_parsing_fails unstructured_env
           Scenario.service (Some "out/p1/complete.md") "out/p1" empty_world
           eq_refl (fun _ => eq_refl)).
Defined.

(** X14: when neither [*_paper_structure.json] nor [paper_structure.json]
    is found in the output directory, stage 4 fails with a
    [FileNotFoundError] of its own and does not call the report
    generator; the files are left as they were. *)
Theorem stage4_needs_a_structure_file
    (env : Env) (svc : Service) (structure_json_path output_dir : string)
    (w : World) :
  glob env (files w) output_dir "*_paper_structure.json" = [] ->
  glob env (files w) output_dir "paper_structure.json" = [] ->
  let run := run_stage4 env svc (Some structure_json_path) output_dir w in
  let t := new_events w (snd run) in
  sr_status (fst run) = FAILED /\
  sr_error_message (fst run) = Some "未找到结构化解析文件，无法生成报告" /\
  calls t = [] /\
  files (snd run) = files w /\
  error_reports t
    = match error_callback svc with
      | Some _ =>
          [(REPORT_GENERATION,
            mkExn FileNotFoundError "未找到结构化解析文件，无法生成报告")]
      | None => []
      end.
Proof.
  intros Hstar Hplain. cbv zeta.
  unfold run_stage4, stage_frame, run_stage4_body, bind, effect, path_of, ret.
  rewrite !notify_progress_world. cbn -[notify_progress notify_error].
  rewrite Hstar, Hplain. cbn -[notify_progress notify_error].
  rewrite notify_error_world. cbn.
  unfold new_events. cbn. rewrite <- !app_assoc, drop_app_length.
  unfold progress_note, error_note.
  destruct (progress_callback svc), (error_callback svc); repeat split.
Qed.

Lemma stage4_needs_a_structure_file_witness :
  let run := run_stage4 Scenario.happy_env Scenario.service
               (Some "out/p1/p1_attribute_tree.json") "out/p1" empty_world in
  let t := new_events empty_world (snd run) in
  sr_status (fst run) = FAILED /\
  sr_error_message (fst run) = Some "未找到结构化解析文件，无法生成报告" /\
  calls t = [] /\
  files (snd run) = files empty_world /\
  error_reports t
    = [(REPORT_GENERATION,
        mkExn FileNotFoundError "未找到结构化解析文件，无法生成报告")].
Proof.
  exact (stage4_needs_a_structure_file Scenario.happy_env Scenario.service
           "out/p1/p1_attribute_tree.json" "out/p1" empty_world
           eq_refl eq_refl).
Defined.

(** X15: when the post-processor returns a result whose [success] is
    false, stage 5 fails with the errors of that result joined by "; " as
    its message, but, unlike after an exception, without a traceback and
    without a call of the error callback. *)
Theorem stage5_reported_failure_is_silent
    (env : Env) (svc : Service) (output_dir : string) (post : PostResult)
    (w : World) :
  import_error env "tools.stage5_post_processor" = None ->
  (forall w', eff_outcome (process_paper_folder env output_dir w')
              = Returned post) ->
  post_success post = false ->
  let run := run_stage5 env svc output_dir w in
  let t := new_events w (snd run) in
  sr_status (fst run) = FAILED /\
  sr_error_message (fst run) = Some (Str.join "; " (post_errors post)) /\
  sr_error_traceback (fst run) = None /\
  calls t = [ProcessPaperFolder] /\
  error_reports t = [].
Proof.
  intros Himport Hpost Hfailed run t. subst run t.
  apply (stage_frame_runs env svc POST_PROCESSING _ _
           (fun sr t =>
              sr_status sr = FAILED /\
              sr_error_message sr = Some (Str.join "; " (post_errors post)) /\
              sr_error_traceback sr = None /\
              calls t = [ProcessPaperFolder] /\
              error_reports t = [])).
  { intros r start finish t0 H. exact H. }
  intros start. unfold run_stage5_body. run_known; known_leaf svc.
Qed.

Lemma stage5_reported_failure_is_silent_witness :
  let run := run_stage5 post_reporting_env Scenario.service "out/p1"
               empty_world in
  let t := new_events empty_world (snd run) in
  sr_status (fst run) = FAILED /\
  sr_error_message (fst run) = Some "disk full; read-only file" /\
  sr_error_traceback (fst run) = None /\
  calls t = [ProcessPaperFolder] /\
  error_reports t = [].
Proof.
  exact (stage5_reported_failure_is_silent post_reporting_env Scenario.service
           "out/p1" (mkPostResult false ["disk full"; "read-only file"])
           empty_world eq_refl (fun _ => eq_refl) eq_refl).
Defined.

(** ** The result of a run, field by field *)

(** The three ways through one block of the guarded code. *)
Lemma content_section_cases (env : Env) (svc : Service) (stage : ProcessingStage)
    (out name : string) (run : World -> StageResult * World)
    (rest : StageResult -> Step) (r : PipelineResult) (w : World)
    (F : PipelineResult * option Exn * World -> Prop) :
  stage_run_ok stage run ->
  (forall e, wiring_fault env stage = Some e -> F (r, Some e, w)) ->
  (forall sr w1, sr_stage sr = stage -> sr_success sr = false ->
     F (set_failed (add_stage_result r sr)
          (failure_prefix stage +:+ fmt_opt (sr_error_message sr)),
        None, w1)) ->
  (forall sr w1, sr_stage sr = stage -> sr_success sr = true ->
     F (rest sr (add_stage_result r sr) w1)) ->
  F (content_section env svc stage out name run rest r w).
Proof.
  intros Hrun Hfault Hfailed Hnext. unfold content_section.
  destruct (wiring_fault env stage) as [e|]; [now apply Hfault|].
  destruct (check_stage_completed _ _ _ _).
  - rewrite sr_success_checkpoint. cbn [negb]. apply Hnext; reflexivity.
  - destruct (Hrun w) as (t & _ & _ & _ & Hstage & _).
    destruct (run w) as [sr w1]. cbn [fst] in Hstage.
    destruct (sr_success sr) eqn:Hok; cbn [negb]; auto.
Qed.

Lemma stages_add_stage_result (r : PipelineResult) (sr : StageResult) :
  stages (add_stage_result r sr) = <[sr_stage sr := sr]> (stages r).
Proof. reflexivity. Qed.

Lemma stages_set_completed (r : PipelineResult)
    (report metadata structure : option string) :
  stages (set_completed r report metadata structure) = stages r.
Proof. reflexivity. Qed.

Lemma guarded_block_end (env : Env) (svc : Service)
    (pdf_path out name : string) (r0 : PipelineResult) (w : World) :
  block_end r0 (guarded_block env svc pdf_path out name r0 w).
Proof.
  assert (Hfault : forall r e w1, same_header r0 r -> same_paths r0 r ->
            overall_status r = overall_status r0 ->
            pipeline_error r = pipeline_error r0 ->
            block_end r0 (r, Some e, w1)).
  { intros r e w1 Hh Hp Ho He. split; [exact Hh|]. right. split; [exact Hp|].
    left. cbn. eauto. }
  assert (Hfailed : forall r msg w1, same_header r0 r -> same_paths r0 r ->
            block_end r0 (set_failed r msg, None, w1)).
  { intros r msg w1 Hh Hp. split; [exact Hh|]. right. split; [exact Hp|].
    right. cbn. eauto. }
  assert (Hsame : same_header r0 r0 /\ same_paths r0 r0)
    by (repeat split).
  destruct Hsame as [Hh Hp].
  unfold guarded_block.
  apply (content_section_cases env svc METADATA_EXTRACTION out name _ _ _ _ (block_end r0));
    [apply run_stage1_ok | | |].
  { intros e _. now apply Hfault. }
  { intros sr w1 _ _. now apply Hfailed. }
  intros sr1 w1 Hs1 _.
  apply (content_section_cases env svc FULL_OCR out name _ _ _ _ (block_end r0));
    [apply run_stage2_ok | | |].
  { intros e _. now apply Hfault. }
  { intros sr w2 _ _. now apply Hfailed. }
  intros sr2 w2 Hs2 _.
  apply (content_section_cases env svc STRUCTURE_PARSING out name _ _ _ _ (block_end r0));
    [apply run_stage3_ok | | |].
  { intros e _. now apply Hfault. }
  { intros sr w3 _ _. now apply Hfailed. }
  intros sr3 w3 Hs3 _.
  apply (content_section_cases env svc REPORT_GENERATION out name _ _ _ _ (block_end r0));
    [apply run_stage4_ok | | |].
  { intros e _. now apply Hfault. }
  { intros sr w4 _ _. now apply Hfailed. }
  intros sr4 w4 Hs4 _.
  unfold post_section.
  destruct (wiring_fault env POST_PROCESSING) as [e|]; [now apply Hfault|].
  destruct (run_stage5_ok env svc out w4) as (t & _ & _ & _ & Hs5 & _).
  destruct (run_stage5 env svc out w4) as [sr5 w5]. cbn [fst] in Hs5.
  destruct (sr_success sr5); [|now apply Hfailed].
  split; [exact Hh|]. left.
  unfold stage_output, get_stage_result. cbn [fst snd].
  rewrite stages_set_completed, !stages_add_stage_result, Hs1, Hs2, Hs3, Hs4, Hs5.
  split; [reflexivity|]. split; [reflexivity|]. split; [reflexivity|].
  rewrite !(lookup_insert_ne _ POST_PROCESSING) by discriminate.
  rewrite lookup_insert_eq.
  rewrite !(lookup_insert_ne _ REPORT_GENERATION) by discriminate.
  rewrite !(lookup_insert_ne _ STRUCTURE_PARSING METADATA_EXTRACTION)
    by discriminate.
  rewrite lookup_insert_eq.
  rewrite !(lookup_insert_ne _ FULL_OCR) by discriminate.
  rewrite lookup_insert_eq.
  repeat split.
Qed.

Lemma stage_filter_all (f : ProcessingStage -> bool) :
  (forall s, f s = true) -> List.filter f pipeline_order = pipeline_order.
Proof. intros H. unfold pipeline_order. cbn. now rewrite !H. Qed.

Lemma stage_filter_none (f : ProcessingStage -> bool) :
  (forall s, f s = false) -> List.filter f pipeline_order = [].
Proof. intros H. unfold pipeline_order. cbn. now rewrite !H. Qed.

(** Every returned result is of one of two kinds. *)
Lemma process_paper_verdict (env : Env) (svc : Service) (pdf_path : string)
    (w : World) (res : PipelineResult) (w' : World) :
  process_paper env svc pdf_path w = (Returned res, w') ->
  (overall_status res = COMPLETED /\ pipeline_error res = None /\
   (forall s, exists sr, stages res !! s = Some sr /\ sr_status sr = COMPLETED) /\
   final_report_path res = stage_output res REPORT_GENERATION /\
   metadata_path res = stage_output res METADATA_EXTRACTION /\
   structure_path res = stage_output res STRUCTURE_PARSING) \/
  (overall_status res = FAILED /\ is_Some (pipeline_error res) /\
   (exists k, forall s,
      match stages res !! s with
      | Some sr => bool_decide (sr_status sr = FAILED)
      | None => false
      end = bool_decide (s = k)) /\
   final_report_path res = None /\ metadata_path res = None /\
   structure_path res = None).
Proof.
  intros Hrun.
  destruct (process_paper_returned env svc pdf_path w res w' Hrun)
    as (r & raised & w2 & ending & t & Hblock & Hsum & Hres & _).
  cbv zeta in Hblock.
  pose proof (guarded_block_end env svc pdf_path
                (Str.path_join (cfg_output_dir (config svc)) (path_stem env pdf_path))
                (path_stem env pdf_path)
                (initial_result pdf_path
                   (Str.path_join (cfg_output_dir (config svc))
                      (path_stem env pdf_path))
                   (path_stem env pdf_path) (now w))
                (after_mkdir env
                   (Str.path_join (cfg_output_dir (config svc))
                      (path_stem env pdf_path)) w)) as Hend.
  rewrite Hblock in Hend. destruct Hend as [_ Hend]. cbn [fst snd] in Hend.
  destruct Hsum as [_ _ _ _ Hpres Hstat Hraised _ Hfail Hdone].
  destruct ending as [s e|s|]; subst raised.
  - (* an exception left the block *)
    right. subst res.
    destruct Hend as [(Hn & _)|((Hf & Hm & Hs) & _)]; [discriminate|].
    cbn in Hf, Hm, Hs.
    split; [reflexivity|]. split; [cbn; eauto|]. split; [|auto].
    exists METADATA_EXTRACTION. intros s'.
    cbn [set_end_time handle_exception add_stage_result set_failed stages sr_stage].
    destruct (decide (s' = METADATA_EXTRACTION)) as [->|Hne].
    + rewrite lookup_insert_eq. reflexivity.
    + rewrite lookup_insert_ne by congruence.
      rewrite (bool_decide_eq_false_2 (s' = _)) by exact Hne.
      destruct (stages r !! s') as [srs|] eqn:Hs'; [|reflexivity].
      destruct (Hstat s' srs Hs') as [_ [Hc|[? _]]]; [|discriminate].
      apply bool_decide_eq_false_2. rewrite Hc. discriminate.
  - (* a stage failed *)
    right. subst res.
    destruct (Hfail s eq_refl) as (sr & Hs & Hfailed & Hov & Herr).
    destruct Hend as [(_ & Hc & _)|((Hf & Hm & Hsp) & _)];
      [cbn in Hc; congruence|].
    cbn in Hf, Hm, Hsp.
    split; [exact Hov|]. split; [cbn; rewrite Herr; eauto|]. split; [|auto].
    exists s. intros s'. rewrite stages_set_end_time.
    destruct (decide (s' = s)) as [->|Hne].
    + rewrite Hs, Hfailed, bool_decide_eq_true_2 by reflexivity.
      symmetry. now apply bool_decide_eq_true_2.
    + rewrite (bool_decide_eq_false_2 (s' = s)) by exact Hne.
      destruct (stages r !! s') as [srs|] eqn:Hs'; [|reflexivity].
      destruct (Hstat s' srs Hs') as [_ [Hc|[He _]]]; [|congruence].
      apply bool_decide_eq_false_2. rewrite Hc. discriminate.
  - (* all five stages completed *)
    left. subst res. specialize (Hdone eq_refl).
    destruct Hend as [(_ & _ & Herr & Hpaths)|(_ & [([? [=]] & _)|(_ & Hf & _)])];
      [|cbn in Hf; congruence].
    split; [exact Hdone|]. split; [exact Herr|]. split; [|exact Hpaths].
    intros s'. rewrite stages_set_end_time.
    destruct (proj2 (Hpres s')) as [sr Hs'];
      [cbn; apply stage_index_bound|].
    exists sr. split; [exact Hs'|].
    destruct (Hstat s' sr Hs') as [_ [Hc|[? _]]]; [exact Hc | discriminate].
Qed.

(** X16: every result [process_paper] returns is either completed or
    failed, never in progress; it is a success exactly when it carries no
    pipeline error, exactly when no stage is failed, and exactly when all
    five stages are completed; and a result that is not a success has
    exactly one failed stage. *)
Theorem returned_result_is_consistent
    (env : Env) (svc : Service) (pdf_path : string) (w : World)
    (res : PipelineResult) (w' : World) :
  process_paper env svc pdf_path w = (Returned res, w') ->
  (overall_status res = COMPLETED \/ overall_status res = FAILED) /\
  (success res = true <-> pipeline_error res = None) /\
  (success res = true <-> get_failed_stages res = []) /\
  (success res = true <-> get_completed_stages res = pipeline_order) /\
  (success res = false -> exists k, get_failed_stages res = [k]).
Proof.
  intros Hrun. unfold success.
  destruct (process_paper_verdict env svc pdf_path w res w' Hrun)
    as [(Hov & Herr & Hall & _)|(Hov & Herr & (k & Hk) & _)].
  - assert (Hnone : get_failed_stages res = []).
    { apply stage_filter_none. intros s. destruct (Hall s) as (sr & -> & Hc).
      apply bool_decide_eq_false_2. rewrite Hc. discriminate. }
    assert (Hfull : get_completed_stages res = pipeline_order).
    { apply stage_filter_all. intros s. destruct (Hall s) as (sr & -> & Hc).
      now apply bool_decide_eq_true_2. }
    rewrite Hov, Herr, Hnone, Hfull, bool_decide_eq_true_2 by reflexivity.
    repeat split; auto; discriminate.
  - assert (Hone : get_failed_stages res = [k])
      by (now apply get_failed_stages_only).
    assert (Hnot : get_completed_stages res <> pipeline_order).
    { intros Hfull.
      assert (Hin : k ∈ get_completed_stages res).
      { rewrite Hfull. destruct k; set_solver. }
      apply elem_of_stage_filter in Hin. specialize (Hk k).
      rewrite bool_decide_eq_true_2 in Hk by reflexivity.
      destruct (stages res !! k) as [sr|]; [|discriminate].
      apply bool_decide_eq_true in Hin, Hk. congruence. }
    rewrite Hov, Hone, bool_decide_eq_false_2 by discriminate.
    destruct Herr as [msg Hmsg]. rewrite Hmsg.
    repeat split; try discriminate; eauto; intros; contradiction.
Qed.

Lemma returned_result_is_consistent_witness :
  exists res w',
    process_paper Scenario.ocr_missing_env Scenario.service Scenario.pdf
      empty_world = (Returned res, w') /\
    (overall_status res = COMPLETED \/ overall_status res = FAILED) /\
    (success res = true <-> pipeline_error res = None) /\
    (success res = true <-> get_failed_stages res = []) /\
    (success res = true <-> get_completed_stages res = pipeline_order) /\
    (success res = false -> exists k, get_failed_stages res = [k]).
Proof.
  eexists _, _.
  split; [vm_compute; reflexivity|].
  eapply (returned_result_is_consistent Scenario.ocr_missing_env
            Scenario.service Scenario.pdf empty_world _ _).
  vm_compute; reflexivity.
Defined.

(** X17: the three final paths of a returned result are set together and
    only on success: on a completed run they are the output paths recorded
    for the fourth, the first and the third stage; on a failed run all
    three are [None], whatever the stages had produced. *)
Theorem final_paths_are_set_on_success_only
    (env : Env) (svc : Service) (pdf_path : string) (w : World)
    (res : PipelineResult) (w' : World) :
  process_paper env svc pdf_path w = (Returned res, w') ->
  if success res then
    final_report_path res = stage_output res REPORT_GENERATION /\
    metadata_path res = stage_output res METADATA_EXTRACTION /\
    structure_path res = stage_output res STRUCTURE_PARSING
  else
    final_report_path res = None /\ metadata_path res = None /\
    structure_path res = None.
Proof.
  intros Hrun. unfold success.
  destruct (process_paper_verdict env svc pdf_path w res w' Hrun)
    as [(Hov & _ & _ & Hpaths)|(Hov & _ & _ & Hpaths)]; rewrite Hov.
  - rewrite bool_decide_eq_true_2 by reflexivity. exact Hpaths.
  - rewrite bool_decide_eq_false_2 by discriminate. exact Hpaths.
Qed.

Lemma final_paths_are_set_on_success_only_witness :
  exists res w',
    process_paper Scenario.happy_env Scenario.service Scenario.pdf
      empty_world = (Returned res, w') /\
    if success res then
      final_report_path res = stage_output res REPORT_GENERATION /\
      metadata_path res = stage_output res METADATA_EXTRACTION /\
      structure_path res = stage_output res STRUCTURE_PARSING
    else
      final_report_path res = None /\ metadata_path res = None /\
      structure_path res = None.
Proof.
  eexists _, _.
  split; [vm_compute; reflexivity|].
  eapply (final_paths_are_set_on_success_only Scenario.happy_env
            Scenario.service Scenario.pdf empty_world _ _).
  vm_compute; reflexivity.
Defined.



(** ** The post-processor's two passes *)

Section Stage5Passes.

Import Stage5PostProcessor.

Lemma fold_left_pointwise {A B} (f g : A -> B -> A) (l : list B) (a : A) :
  (forall x y, f x y = g x y) -> fold_left f l a = fold_left g l a.
Proof.
  intros Hfg. revert a. induction l as [|y l IH]; intros a; cbn; [reflexivity|].
  now rewrite Hfg, IH.
Qed.

Lemma clean_intermediate_files_fold (fs : gset string) (folder : string) :
  clean_intermediate_files fs folder
  = fold_left (clean_step folder) (items_to_delete (Scenario.basename folder)) fs.
Proof.
  unfold clean_intermediate_files. apply fold_left_pointwise.
  intros x y. reflexivity.
Qed.

Lemma rename_output_files_fold (fs : gset string) (folder : string) :
  rename_output_files fs folder
  = fold_left (rename_step folder) (rename_mappings (Scenario.basename folder)) fs.
Proof.
  unfold rename_output_files. apply fold_left_pointwise.
  intros x [old_name new_name]. reflexivity.
Qed.

Lemma remove_subseteq (fs : gset string) (p : string) : remove fs p ⊆ fs.
Proof. unfold remove. intros q Hq. now apply elem_of_filter in Hq as [_ ?]. Qed.

Lemma not_elem_of_remove (fs : gset string) (p : string) : p ∉ remove fs p.
Proof.
  unfold remove. intros Hp. apply elem_of_filter in Hp as [Hp _].
  rewrite String.eqb_refl in Hp. exact Hp.
Qed.

Lemma clean_step_subseteq (folder : string) (fs : gset string) (item : string) :
  clean_step folder fs item ⊆ fs.
Proof.
  unfold clean_step. destruct (path_exists _ _); [apply remove_subseteq | done].
Qed.

Lemma clean_fold_subseteq (folder : string) (items : list string)
    (fs : gset string) :
  fold_left (clean_step folder) items fs ⊆ fs.
Proof.
  revert fs. induction items as [|item items IH]; intros fs; cbn; [done|].
  etrans; [apply IH | apply clean_step_subseteq].
Qed.

Lemma clean_fold_removes (folder : string) (items : list string)
    (fs : gset string) (item : string) :
  item ∈ items ->
  Str.path_join folder item ∉ fold_left (clean_step folder) items fs.
Proof.
  revert fs. induction items as [|first items IH]; intros fs Hin; cbn.
  - inversion Hin.
  - apply elem_of_cons in Hin as [->|Hin]; [|now apply IH].
    intros Hp. apply clean_fold_subseteq in Hp. revert Hp.
    unfold clean_step. destruct (path_exists _ _) eqn:Hex.
    + apply not_elem_of_remove.
    + unfold path_exists in Hex. now apply bool_decide_eq_false in Hex.
Qed.

Lemma clean_fold_nothing_to_do (folder : string) (items : list string)
    (fs : gset string) :
  (forall item, item ∈ items -> Str.path_join folder item ∉ fs) ->
  fold_left (clean_step folder) items fs = fs.
Proof.
  induction items as [|item items IH]; intros Hnone; cbn; [reflexivity|].
  unfold clean_step at 2. unfold path_exists.
  rewrite bool_decide_eq_false_2 by (apply Hnone; left).
  apply IH. intros i Hi. apply Hnone. now right.
Qed.

Lemma clean_fold_removed_below (folder : string) (items : list string)
    (fs : gset string) (q : string) :
  q ∈ fs -> q ∉ fold_left (clean_step folder) items fs ->
  exists item, item ∈ items /\
    (q = Str.path_join folder item \/
     String.prefix (Str.path_join folder item +:+ "/") q = true).
Proof.
  revert fs. induction items as [|item items IH]; intros fs Hq Hgone; cbn in Hgone.
  - contradiction.
  - destruct (decide (q ∈ clean_step folder fs item)) as [Hstill|Hnow].
    + destruct (IH _ Hstill Hgone) as (i & Hi & Hcase).
      exists i. split; [now right | exact Hcase].
    + exists item. split; [left|].
      unfold clean_step in Hnow.
      destruct (path_exists _ _); [|contradiction].
      unfold remove in Hnow. rewrite elem_of_filter in Hnow.
      destruct (String.eqb_spec q (Str.path_join folder item)) as [->|_];
        [now left|].
      destruct (String.prefix _ q); [now right|].
      exfalso. apply Hnow. split; [exact I | exact Hq].
Qed.

(** X19: [_clean_intermediate_files] only removes: what is left are
    paths that were there; none of the listed items is left; a path
    that has gone is a listed item or lies below one; and a second
    pass changes nothing. *)
Theorem clean_intermediate_files_only_removes_the_items
    (fs : gset string) (paper_folder : string) :
  let left := clean_intermediate_files fs paper_folder in
  let items := items_to_delete (Scenario.basename paper_folder) in
  left ⊆ fs /\
  (forall item, item ∈ items -> Str.path_join paper_folder item ∉ left) /\
  (forall q, q ∈ fs -> q ∉ left ->
     exists item, item ∈ items /\
       (q = Str.path_join paper_folder item \/
        String.prefix (Str.path_join paper_folder item +:+ "/") q = true)) /\
  clean_intermediate_files left paper_folder = left.
Proof.
  intros left items. subst left.
  rewrite !clean_intermediate_files_fold. fold items.
  split; [apply clean_fold_subseteq|].
  split; [intros item; apply clean_fold_removes|].
  split; [intros q; apply clean_fold_removed_below|].
  apply clean_fold_nothing_to_do. intros item. apply clean_fold_removes.
Qed.

Lemma rename_step_facts (folder : string) (fs : gset string)
    (mapping : string * string) :
  size (rename_step folder fs mapping) = size fs /\
  (forall p, p ∈ fs ->
     p ∈ rename_step folder fs mapping \/ p = Str.path_join folder (fst mapping)) /\
  (forall q, q ∈ rename_step folder fs mapping ->
     q ∈ fs \/ q = Str.path_join folder (snd mapping)).
Proof.
  destruct mapping as [old_name new_name]. unfold rename_step. cbn [fst snd].
  unfold path_exists.
  case_bool_decide as Hold; cbn [andb]; [|repeat split; auto].
  case_bool_decide as Hnew; cbn [negb]; [repeat split; auto|].
  assert (Hsplit : fs = {[Str.path_join folder old_name]} ∪
                        fs ∖ {[Str.path_join folder old_name]}).
  { apply set_eq. intros x. rewrite elem_of_union, elem_of_difference,
      elem_of_singleton.
    destruct (decide (x = Str.path_join folder old_name)) as [->|]; tauto. }
  split; [|split].
  - pose proof (size_union {[Str.path_join folder old_name]}
                  (fs ∖ {[Str.path_join folder old_name]})) as Hfs.
    rewrite <- Hsplit, size_singleton in Hfs.
    rewrite size_union, size_singleton.
    + rewrite Hfs; [lia|].
      intros x. rewrite elem_of_singleton, elem_of_difference, elem_of_singleton.
      tauto.
    + intros x. rewrite elem_of_difference, !elem_of_singleton.
      intros [Hx _] ->. contradiction.
  - intros p Hp.
    destruct (decide (p = Str.path_join folder old_name)); [now right|].
    left. apply elem_of_union. left. apply elem_of_difference.
    split; [exact Hp|]. now rewrite elem_of_singleton.
  - intros q Hq. apply elem_of_union in Hq as [Hq|Hq].
    + left. now apply elem_of_difference in Hq as [? _].
    + right. now apply elem_of_singleton in Hq.
Qed.

Lemma rename_fold_facts (folder : string) (mappings : list (string * string))
    (fs : gset string) :
  let fs' := fold_left (rename_step folder) mappings fs in
  size fs' = size fs /\
  (forall p, p ∈ fs ->
     p ∈ fs' \/ exists m, m ∈ mappings /\ p = Str.path_join folder (fst m)) /\
  (forall q, q ∈ fs' ->
     q ∈ fs \/ exists m, m ∈ mappings /\ q = Str.path_join folder (snd m)).
Proof.
  revert fs. induction mappings as [|m mappings IH]; intros fs; cbn.
  - split; [reflexivity|]. split; auto.
  - destruct (rename_step_facts folder fs m) as (Hsize & Hkept & Hnew).
    destruct (IH (rename_step folder fs m)) as (Hsize' & Hkept' & Hnew').
    split; [cbn zeta in Hsize'; lia|]. split.
    + intros p Hp. destruct (Hkept p Hp) as [Hstill| ->].
      * destruct (Hkept' p Hstill) as [?|(m' & Hm' & ->)]; [now left|].
        right. exists m'. split; [now right | reflexivity].
      * right. exists m. split; [now left | reflexivity].
    + intros q Hq. destruct (Hnew' q Hq) as [Hthere|(m' & Hm' & ->)].
      * destruct (Hnew q Hthere) as [?| ->]; [now left|].
        right. exists m. split; [now left | reflexivity].
      * right. exists m'. split; [now right | reflexivity].
Qed.

(** X20: [_rename_output_files] renames and nothing else: the number of
    existing paths stays the same, so no file is lost by renaming one
    onto another; a path that has gone is the old name of a mapping,
    and a path that is new is the new name of a mapping. *)
Theorem rename_output_files_only_renames
    (fs : gset string) (paper_folder : string) :
  let renamed := rename_output_files fs paper_folder in
  let mappings := rename_mappings (Scenario.basename paper_folder) in
  size renamed = size fs /\
  (forall p, p ∈ fs -> p ∉ renamed ->
     exists m, m ∈ mappings /\ p = Str.path_join paper_folder (fst m)) /\
  (forall q, q ∈ renamed -> q ∉ fs ->
     exists m, m ∈ mappings /\ q = Str.path_join paper_folder (snd m)).
Proof.
  intros renamed mappings. subst renamed.
  rewrite rename_output_files_fold. fold mappings.
  destruct (rename_fold_facts paper_folder mappings fs)
    as (Hsize & Hkept & Hnew).
  split; [exact Hsize|]. split.
  - intros p Hp Hgone. destruct (Hkept p Hp); [contradiction | assumption].
  - intros q Hq Hfresh. destruct (Hnew q Hq); [contradiction | assumption].
Qed.

End Stage5Passes.

(** ** The batch driver *)

Section BatchDriver.

Import FSZPaperBatchProcessor.

Context (env : Env) (new_config : string -> M PipelineConfig).
Context (rglob : gset string -> string -> string -> list string).
Context (is_file : gset string -> string -> bool).
Context (write_batch : string -> Processor -> Q -> World -> Effect unit).


Lemma completed_records_snoc (rs : list PaperResult) (r : PaperResult) :
  completed_records (rs ++ [r])
  = (completed_records rs +
     if String.eqb (paper_status r) "completed" then 1 else 0)%nat.
Proof.
  unfold completed_records. rewrite List.filter_app, length_app. cbn.
  destruct (String.eqb _ _); reflexivity.
Qed.



End BatchDriver.

(** ** The JSON calls of the client *)

(** X22: a response that is not JSON costs no second request.  When
    [get_completion] has returned a text from which no JSON can be
    loaded, neither as it is nor after the repair, then
    [get_json_completion] raises a [ValueError] in the very world
    [get_completion] has left: the malformed response is not retried,
    whatever [max_retries] is.  The same holds of [extract_metadata], once
    its template has been read. *)
Theorem malformed_json_is_not_retried
    (read_text : string -> World -> Outcome string)
    (replace : string -> string -> string -> string)
    (extract : string -> string) (json_loads : string -> Outcome Json)
    (repair_json : string -> Outcome string) (not_a_string : Exn)
    (client : LLM.LLMClient) (prompt : string) (model : option string)
    (temp : Q) (max_tokens : option Z) (max_retries : Z)
    (document_text template_path template : string)
    (w w' w1 : World) (text : string) (e e' : Exn) :
  let error := mkExn ValueError ("无法解析为有效的JSON: " +:+ exn_str e') in
  json_loads (extract text) = Raised e -> exn_class e = JSONDecodeError ->
  match repair_json (extract text) with
  | Returned repaired => json_loads repaired
  | Raised x => Raised x
  end = Raised e' ->
  LLM.get_completion client prompt model temp max_tokens max_retries w
    = (Returned (Some text), w') ->
  read_text template_path w = Returned template ->
  LLM.get_completion client (replace template "{{document}}" document_text)
    model temp max_tokens max_retries w = (Returned (Some text), w1) ->
  JsonClient.get_json_completion extract json_loads repair_json not_a_string
    client prompt model temp max_tokens max_retries w = (Raised error, w') /\
  JsonClient.extract_metadata read_text replace extract json_loads repair_json
    not_a_string client document_text template_path model temp max_tokens
    max_retries w = (Raised error, w1).
Proof.
  intros error Hloads Hclass Hsecond Hrun Hread Hrun1.
  unfold JsonClient.get_json_completion, JsonClient.extract_metadata,
    JsonClient.fill_prompt_with_document, JsonClient.read_prompt_template,
    JsonClient.parse_response, bind, ret, raise.
  rewrite Hrun, Hread, Hrun1, !Hloads.
  destruct (decide (exn_class e = JSONDecodeError)); [|contradiction].
  rewrite !Hsecond. split; reflexivity.
Qed.

Lemma malformed_json_is_not_retried_witness :
  let w := empty_world in
  let read := fun (_ : string) (_ : World) => Returned "Read: {{document}}" in
  let error :=
    mkExn ValueError
      "无法解析为有效的JSON: Expecting value: line 1 column 1 (char 0)" in
  exists w',
    count_calls ChatCompletionsCreate (new_events w w') = 1%nat /\
    JsonClient.get_json_completion (fun s => s) never_json no_repair
      (mkExn TypeError "expected string or bytes-like object")
      (flaky_client 0) "Summarise." None 0.2 None 5 w = (Raised error, w') /\
    JsonClient.extract_metadata read Scenario.replace (fun s => s) never_json
      no_repair (mkExn TypeError "expected string or bytes-like object")
      (flaky_client 0) "A paper." "resources/t.md" None 0.2 None 5 w
    = (Raised error, w').
Proof.
  eexists. split; [|
    eapply (malformed_json_is_not_retried
              (fun _ _ => Returned "Read: {{document}}") Scenario.replace
              (fun s => s) never_json no_repair
              (mkExn TypeError "expected string or bytes-like object")
              (flaky_client 0) "Summarise." None 0.2 None 5
              "A paper." "resources/t.md" "Read: {{document}}"
              empty_world _ _ "Summary."
              (mkExn JSONDecodeError "Expecting value: line 1 column 1 (char 0)")
              (mkExn JSONDecodeError "Expecting value: line 1 column 1 (char 0)"))].
  2: { reflexivity. }
  2: { reflexivity. }
  2: { reflexivity. }
  2: { vm_compute. reflexivity. }
  2: { reflexivity. }
  2: { vm_compute. reflexivity. }
  vm_compute. reflexivity.
Defined.

(** ** The time an exhausted call has slept *)

Lemma Qsum_powers_of_two (n : nat) :
  (Qsum (powers_of_two n) == inject_Z (2 ^ (Z.of_nat n + 1) - 2))%Q.
Proof.
  unfold powers_of_two. induction n as [|n IH].
  - reflexivity.
  - rewrite seq_S, map_app. cbn [map].
    assert (Happ : forall l x, (Qsum (l ++ [x]) == Qsum l + x)%Q).
    { intros l x. unfold Qsum.
      induction l as [|y l IHl]; cbn [app fold_right].
      - ring.
      - rewrite IHl. ring. }
    rewrite Happ, IH. rewrite <- inject_Z_plus. apply inject_Z_injective.
    replace (Z.of_nat (S n) + 1)%Z with (Z.succ (Z.of_nat n + 1)) by lia.
    rewrite Z.pow_succ_r by lia.
    replace (Z.of_nat (1 + n)) with (Z.of_nat n + 1)%Z by lia. lia.
Qed.

(** X23: a call of [get_completion] that gives up has made
    [max_retries + 1] requests and has slept [2^(max_retries + 1) - 2]
    seconds in all: 62 seconds with the default of five retries. *)
Theorem exhausted_call_has_slept
    (client : LLM.LLMClient) (prompt : string) (model : option string)
    (temp : Q) (max_tokens : option Z) (max_retries : Z) (w : World)
    (e : Exn) (w' : World) :
  LLM.get_completion client prompt model temp max_tokens max_retries w
    = (Raised e, w') ->
  count_calls ChatCompletionsCreate (new_events w w')
    = Z.to_nat (max_retries + 1) /\
  (Qsum (sleeps (new_events w w')) == inject_Z (2 ^ (max_retries + 1) - 2))%Q /\
  (max_retries = LLM.MAX_RETRIES ->
   (Qsum (sleeps (new_events w w')) == 62)%Q).
Proof.
  intros Hrun. unfold LLM.get_completion in Hrun.
  pose proof (completion_loop_trace
                (LLM.client_create client (LLM.model_or_default client model)
                   prompt temp max_tokens)
                max_retries (Z.to_nat (max_retries + 1)) 0 w ltac:(lia)) as H.
  cbn zeta in H. rewrite Hrun in H. cbn [fst snd] in H.
  destruct H as (Hle & Hev & _). rewrite Z.sub_0_r in Hev.
  rewrite (new_events_app _ _ _ Hev), count_calls_failing_trace, sleeps_all_fail.
  assert (Hsum : (Qsum (powers_of_two (Z.to_nat max_retries))
                  == inject_Z (2 ^ (max_retries + 1) - 2))%Q).
  { rewrite Qsum_powers_of_two. now rewrite Z2Nat.id by lia. }
  split; [lia|]. split; [exact Hsum|].
  intros ->. rewrite Hsum. reflexivity.
Qed.

Lemma exhausted_call_has_slept_witness :
  exists e w',
    LLM.get_completion offline_client "Summarise." None 0.2 None 5 empty_world
      = (Raised e, w') /\
    count_calls ChatCompletionsCreate (new_events empty_world w') = 6%nat /\
    (Qsum (sleeps (new_events empty_world w')) == inject_Z (2 ^ (5 + 1) - 2))%Q /\
    (5%Z = LLM.MAX_RETRIES ->
     (Qsum (sleeps (new_events empty_world w')) == 62)%Q).
Proof.
  eexists _, _.
  split; [vm_compute; reflexivity|].
  eapply (exhausted_call_has_slept offline_client "Summarise." None 0.2 None 5
            empty_world _ _).
  vm_compute; reflexivity.
Defined.

(** ** A missing module *)





(** ** The events of a run, in pipeline order *)

Lemma ascending_app (l1 l2 : list nat) :
  ascending l1 -> ascending l2 ->
  (forall a b, a ∈ l1 -> b ∈ l2 -> (a <= b)%nat) ->
  ascending (l1 ++ l2).
Proof.
  induction l1 as [|x l1 IH]; intros H1 H2 Hle; cbn; [exact H2|].
  destruct H1 as [Hx H1]. split.
  - apply Forall_app. split; [exact Hx|].
    apply Forall_forall. intros b Hb. apply Hle; [left | exact Hb].
  - apply IH; [exact H1 | exact H2|].
    intros a b Ha Hb. apply Hle; [now right | exact Hb].
Qed.

Lemma event_stage_indices_app (t1 t2 : list Event) :
  event_stage_indices (t1 ++ t2)
  = event_stage_indices t1 ++ event_stage_indices t2.
Proof. unfold event_stage_indices. apply omap_app. Qed.

Lemma error_reports_app (t1 t2 : list Event) :
  error_reports (t1 ++ t2) = error_reports t1 ++ error_reports t2.
Proof. unfold error_reports. apply omap_app. Qed.

Lemma event_stage_indices_owned (stage : ProcessingStage) (t : list Event) :
  Forall (owned_by stage) t ->
  Forall (eq (stage_index stage)) (event_stage_indices t).
Proof.
  induction 1 as [|e t He _ IH]; cbn; [constructor|].
  unfold owned_by in He. unfold event_stage_indices. cbn. rewrite He. cbn.
  constructor; [reflexivity | exact IH].
Qed.

Lemma ascending_constant (n : nat) (l : list nat) :
  Forall (eq n) l -> ascending l.
Proof.
  induction 1 as [|x l Hx Hl IH]; cbn; [exact I|].
  split; [|exact IH]. subst x.
  eapply Forall_impl; [exact Hl|]. intros y <-. lia.
Qed.

(** The events of one more block after those of the blocks before it. *)
Lemma so_far_step (stage : ProcessingStage) (t t' : list Event) :
  so_far (stage_index stage) t -> Forall (owned_by stage) t' ->
  ascending (event_stage_indices (t ++ t')) /\
  Forall (fun i => (i < S (stage_index stage))%nat)
    (event_stage_indices (t ++ t')) /\
  error_reports (t ++ t') = error_reports t'.
Proof.
  intros (Hasc & Hlt & Hrep) Hown.
  apply event_stage_indices_owned in Hown.
  rewrite event_stage_indices_app, error_reports_app, Hrep.
  split; [|split; [|reflexivity]].
  - apply ascending_app;
      [exact Hasc | exact (ascending_constant (stage_index stage) _ Hown) |].
    intros a b Ha Hb. rewrite Forall_forall in Hlt, Hown.
    specialize (Hlt a Ha). specialize (Hown b Hb). lia.
  - apply Forall_app. split.
    + eapply Forall_impl; [exact Hlt|]. intros i Hi. cbv beta in *. lia.
    + eapply Forall_impl; [exact Hown|]. intros i <-. cbv beta. lia.
Qed.

Lemma content_section_outcome (env : Env) (svc : Service)
    (stage : ProcessingStage) (out name : string)
    (run : World -> StageResult * World) (rest : StageResult -> Step)
    (r : PipelineResult) (w : World) :
  content_section env svc stage out name run rest r w
  = match wiring_fault env stage with
    | Some e => (r, Some e, w)
    | None =>
        let '(sr, w1) := section_outcome svc stage out name run w in
        if negb (sr_success sr) then
          (set_failed (add_stage_result r sr)
             (failure_prefix stage +:+ fmt_opt (sr_error_message sr)),
           None, w1)
        else rest sr (add_stage_result r sr) w1
    end.
Proof.
  unfold content_section, section_outcome.
  destruct (wiring_fault env stage); [reflexivity|].
  destruct (check_stage_completed _ _ _ _); reflexivity.
Qed.

(** What one block adds to the log. *)
Lemma section_outcome_chunk (svc : Service) (stage : ProcessingStage)
    (out name : string) (run : World -> StageResult * World) (w : World) :
  stage_run_ok stage run ->
  (forall w0, stage_facts svc stage (fst (run w0)) (new_events w0 (snd (run w0)))) ->
  exists t,
    events (snd (section_outcome svc stage out name run w)) = events w ++ t /\
    Forall (owned_by stage) t /\
    sr_stage (fst (section_outcome svc stage out name run w)) = stage /\
    reports_of stage (fst (section_outcome svc stage out name run w)) t.
Proof.
  intros Hok Hfacts. unfold section_outcome.
  destruct (check_stage_completed _ _ _ _).
  - exists (progress_note svc stage 1 (checkpoint_message stage)).
    rewrite notify_progress_world. cbn [fst snd events].
    split; [reflexivity|]. unfold progress_note, reports_of.
    destruct (progress_callback svc); repeat split; auto; repeat constructor.
  - destruct (Hok w) as (t & Hev & Hown & _ & Hstage & _).
    exists t. split; [exact Hev|]. split; [exact Hown|]. split; [exact Hstage|].
    destruct (Hfacts w) as [_ Hreports _ _ _ _ _ _ _].
    rewrite (new_events_app _ _ _ Hev) in Hreports.
    split; [|exact Hreports].
    intros Hc. destruct Hreports as [|(e & _ & Hf & _)]; [assumption|congruence].
Qed.

(** A failed block ends the guarded code in an orderly way. *)
Lemma failed_block_ends_orderly (stage : ProcessingStage) (r : PipelineResult)
    (sr : StageResult) (w0 w1 : World) (t t' : list Event) :
  so_far (stage_index stage) t -> Forall (owned_by stage) t' ->
  sr_stage sr = stage -> reports_of stage sr t' ->
  events w1 = events w0 ++ t ++ t' ->
  ends_orderly w0
    (set_failed (add_stage_result r sr)
       (failure_prefix stage +:+ fmt_opt (sr_error_message sr)), None, w1).
Proof.
  intros Hso Hown Hstage [_ Hrep] Hev.
  destruct (so_far_step stage t t' Hso Hown) as (Hasc & _ & Hreports).
  exists (t ++ t'). split; [exact Hev|]. split; [exact Hasc|].
  rewrite Hreports. destruct Hrep as [Hnone|(e & Hone & Hfailed & Hmsg)];
    [now left|].
  right. exists stage, e, sr. rewrite Hmsg.
  repeat split; try assumption.
  unfold get_stage_result. cbn. rewrite Hstage. apply lookup_insert_eq.
Qed.

(** One block of the guarded code, with what comes after it. *)
Lemma content_section_orderly (env : Env) (svc : Service)
    (stage : ProcessingStage) (out name : string)
    (run : World -> StageResult * World) (rest : StageResult -> Step)
    (r : PipelineResult) (w0 w : World) (t : list Event) :
  stage_run_ok stage run ->
  (forall wx, stage_facts svc stage (fst (run wx)) (new_events wx (snd (run wx)))) ->
  so_far (stage_index stage) t -> events w = events w0 ++ t ->
  (forall sr r' w1 t1,
     so_far (S (stage_index stage)) t1 -> events w1 = events w0 ++ t1 ->
     ends_orderly w0 (rest sr r' w1)) ->
  ends_orderly w0 (content_section env svc stage out name run rest r w).
Proof.
  intros Hok Hfacts Hso Hev Hrest. rewrite content_section_outcome.
  destruct (wiring_fault env stage) as [e|].
  { exists t. split; [exact Hev|]. destruct Hso as (Hasc & _ & Hrep).
    split; [exact Hasc | now left]. }
  destruct (section_outcome_chunk svc stage out name run w Hok Hfacts)
    as (t' & Hev' & Hown & Hstage & Hrep).
  destruct (section_outcome svc stage out name run w) as [sr w1].
  cbn [fst snd] in Hev', Hstage, Hrep.
  assert (Hall : events w1 = events w0 ++ t ++ t')
    by (now rewrite Hev', Hev, app_assoc).
  destruct (sr_success sr) eqn:Hsucc; cbn [negb].
  - destruct (so_far_step stage t t' Hso Hown) as (Hasc & Hlt & Hreports).
    apply (Hrest sr _ w1 (t ++ t')); [|exact Hall].
    split; [exact Hasc|]. split; [exact Hlt|].
    rewrite Hreports. apply Hrep.
    unfold sr_success in Hsucc. now apply bool_decide_eq_true in Hsucc.
  - now apply (failed_block_ends_orderly stage _ sr w0 w1 t t').
Qed.

Lemma guarded_block_orderly (env : Env) (svc : Service)
    (pdf_path out name : string) (r0 : PipelineResult) (w0 : World) :
  ends_orderly w0 (guarded_block env svc pdf_path out name r0 w0).
Proof.
  unfold guarded_block.
  apply (content_section_orderly env svc METADATA_EXTRACTION out name _ _ r0 w0 w0 []);
    [apply run_stage1_ok | intros; apply run_stage1_facts
    | repeat split; constructor | now rewrite app_nil_r |].
  intros sr1 r1 w1 t1 Hso1 Hev1.
  apply (content_section_orderly env svc FULL_OCR out name _ _ r1 w0 w1 t1);
    [apply run_stage2_ok | intros; apply run_stage2_facts
    | exact Hso1 | exact Hev1 |].
  intros sr2 r2 w2 t2 Hso2 Hev2.
  apply (content_section_orderly env svc STRUCTURE_PARSING out name _ _ r2 w0 w2 t2);
    [apply run_stage3_ok | intros; apply run_stage3_facts
    | exact Hso2 | exact Hev2 |].
  intros sr3 r3 w3 t3 Hso3 Hev3.
  apply (content_section_orderly env svc REPORT_GENERATION out name _ _ r3 w0 w3 t3);
    [apply run_stage4_ok | intros; apply run_stage4_facts
    | exact Hso3 | exact Hev3 |].
  intros sr4 r4 w4 t4 Hso4 Hev4.
  unfold post_section.
  destruct (wiring_fault env POST_PROCESSING) as [e|].
  { exists t4. split; [exact Hev4|]. destruct Hso4 as (Hasc & _ & Hrep).
    split; [exact Hasc | now left]. }
  destruct (run_stage5_ok env svc out w4) as (t' & Hev' & Hown & _ & Hstage & _).
  pose proof (run_stage5_facts env svc out w4) as [_ Hreports _ _ _ _ _ _ _].
  rewrite (new_events_app _ _ _ Hev') in Hreports.
  destruct (run_stage5 env svc out w4) as [sr5 w5].
  cbn [fst snd] in Hev', Hstage, Hreports.
  assert (Hall : events w5 = events w0 ++ t4 ++ t')
    by (now rewrite Hev', Hev4, app_assoc).
  assert (Hrep : reports_of POST_PROCESSING sr5 t').
  { split; [|exact Hreports]. intros Hc.
    destruct Hreports as [|(e & _ & Hf & _)]; [assumption|congruence]. }
  destruct (sr_success sr5) eqn:Hsucc.
  - destruct (so_far_step POST_PROCESSING t4 t' Hso4 Hown) as (Hasc & _ & Hr).
    exists (t4 ++ t'). split; [exact Hall|]. split; [exact Hasc|].
    left. rewrite Hr. apply Hrep.
    unfold sr_success in Hsucc. now apply bool_decide_eq_true in Hsucc.
  - now apply (failed_block_ends_orderly POST_PROCESSING _ sr5 w0 w5 t4 t').
Qed.

(** The events of any run: the creation of the output directory alone, or
    that, the events of the guarded block and the serialization of the
    result. *)
Lemma process_paper_orderly (env : Env) (svc : Service) (pdf_path : string)
    (w : World) :
  let run := process_paper env svc pdf_path w in
  new_events w (snd run) = [EvCall Mkdir] \/
  exists r raised t path saved finish,
    new_events w (snd run) = EvCall Mkdir :: t ++ [EvSave path saved] /\
    orderly_end r raised t /\
    saved = set_end_time
              (match raised with
               | Some e => handle_exception env e r
               | None => r
               end) (now w) finish /\
    (forall res, fst run = Returned res -> res = saved).
Proof.
  unfold process_paper.
  set (name := path_stem env pdf_path).
  set (out := Str.path_join (cfg_output_dir (config svc)) name).
  destruct (invoke Mkdir (os_mkdir env out) w) as [[[]|e] wm] eqn:Hmk.
  - right.
    assert (Hevm : events wm = events w ++ [EvCall Mkdir]).
    { unfold invoke in Hmk. injection Hmk as _ <-. reflexivity. }
    destruct (guarded_block_orderly env svc pdf_path out name
                (initial_result pdf_path out name (now w)) wm)
      as (t & Hev & Hend).
    destruct (guarded_block env svc pdf_path out name _ wm) as [[r raised] w2].
    cbn [fst snd] in Hev, Hend. unfold save_to_file.
    exists r, raised, t. eexists _, _, (now w2).
    destruct (eff_outcome _); cbn [fst snd];
      (split; [apply new_events_app; cbn [events log];
               rewrite Hev, Hevm, <- !app_assoc; reflexivity|]);
      (split; [exact Hend|]); (split; [reflexivity|]);
      intros res [=]; congruence.
  - left. cbn [snd]. apply new_events_app.
    unfold invoke in Hmk. injection Hmk as _ <-. reflexivity.
Qed.

Lemma error_reports_run (t : list Event) (path : string) (res : PipelineResult) :
  error_reports (EvCall Mkdir :: t ++ [EvSave path res]) = error_reports t.
Proof.
  change (error_reports (EvCall Mkdir :: ?l)) with (error_reports l).
  rewrite error_reports_app. cbn. apply app_nil_r.
Qed.

Lemma event_stage_indices_run (t : list Event) (path : string)
    (res : PipelineResult) :
  event_stage_indices (EvCall Mkdir :: t ++ [EvSave path res])
  = event_stage_indices t.
Proof.
  change (event_stage_indices (EvCall Mkdir :: ?l)) with (event_stage_indices l).
  rewrite event_stage_indices_app. cbn. apply app_nil_r.
Qed.

(** X25: in one run of [process_paper] the error callback is called at
    most once.  If it is called, the pipeline is failed, and the call
    names the failed stage and the exception whose text is the error
    message of that stage and, after the stage's prefix, the pipeline
    error.  An exception caught by the handler of [process_paper] itself
    is never passed to the error callback. *)
Theorem error_callback_once_per_run
    (env : Env) (svc : Service) (pdf_path : string) (w : World)
    (res : PipelineResult) (w' : World) :
  process_paper env svc pdf_path w = (Returned res, w') ->
  let reports := error_reports (new_events w w') in
  (reports = [] \/
   exists s e sr,
     reports = [(s, e)] /\ overall_status res = FAILED /\
     get_stage_result res s = Some sr /\ sr_status sr = FAILED /\
     sr_error_message sr = Some (exn_str e) /\
     pipeline_error res = Some (failure_prefix s +:+ exn_str e)) /\
  (forall msg, pipeline_error res = Some ("流水线异常: " +:+ msg) -> reports = []).
Proof.
  intros Hrun reports. subst reports.
  pose proof (process_paper_orderly env svc pdf_path w) as Hshape.
  cbv zeta in Hshape. rewrite Hrun in Hshape. cbn [fst snd] in Hshape.
  destruct Hshape as [Hnew|(r & raised & t & path & saved & finish & Hnew & Hend
                             & Hsaved & Hres)].
  { rewrite Hnew. split; [now left | reflexivity]. }
  rewrite Hnew, error_reports_run. specialize (Hres res eq_refl). subst saved.
  destruct Hend as [_ [Hnone|(s & e & sr & Hone & -> & Hov & Hsr & Hst & Hmsg & Herr)]].
  { split; [now left | auto]. }
  subst res. split.
  - right. exists s, e, sr. repeat split; assumption.
  - intros msg Hexc. exfalso. cbn in Hexc. rewrite Herr in Hexc.
    injection Hexc as Hexc. destruct s; cbn in Hexc; discriminate.
Qed.

Lemma error_callback_once_per_run_witness :
  exists res w',
    process_paper Scenario.ocr_missing_env Scenario.service Scenario.pdf
      empty_world = (Returned res, w') /\
    let reports := error_reports (new_events empty_world w') in
    (reports = [] \/
     exists s e sr,
       reports = [(s, e)] /\ overall_status res = FAILED /\
       get_stage_result res s = Some sr /\ sr_status sr = FAILED /\
       sr_error_message sr = Some (exn_str e) /\
       pipeline_error res = Some (failure_prefix s +:+ exn_str e)) /\
    (forall msg, pipeline_error res = Some ("流水线异常: " +:+ msg) -> reports = []).
Proof.
  eexists _, _.
  split; [vm_compute; reflexivity|].
  eapply (error_callback_once_per_run Scenario.ocr_missing_env
            Scenario.service Scenario.pdf empty_world _ _).
  vm_compute; reflexivity.
Defined.

(** X26: the events of a run come in pipeline order: once a progress
    notification, an error notification or a collaborator call of a stage
    has happened, nothing of an earlier stage happens any more, however
    the run ends. *)
Theorem events_come_in_pipeline_order
    (env : Env) (svc : Service) (pdf_path : string) (w : World) :
  ascending
    (event_stage_indices
       (new_events w (snd (process_paper env svc pdf_path w)))).
Proof.
  destruct (process_paper_orderly env svc pdf_path w)
    as [Hnew|(r & raised & t & path & saved & finish & Hnew & Hend & _)];
    rewrite Hnew.
  - exact I.
  - rewrite event_stage_indices_run. apply Hend.
Qed.
